(** * gdigrab: the GDI screen grabber of libavdevice

    A shallow embedding of [libavdevice/gdigrab.c] and the properties of
    its monitor registry, coordinate mapping, session open/close, cursor
    overlay, frame pacing and packet assembly.

    Conventions of the embedding.
    - C [int], [LONG] (32 bits) and [int64_t] values are integers of [Z];
      every arithmetic operation of the source is followed by the
      wrap-around of its C type ([int32], [int64]).  C division truncates
      towards zero ([Z.quot]); division by zero and [INT_MIN / -1], on which
      the division instruction traps, are undefined outcomes.  A shift
      takes its count modulo 32, as the shift instruction does.
    - C [double] is IEEE-754 binary64, the primitive floats of Rocq.
    - Handles and pointers ([HWND], [HDC], [HBITMAP], [void*]) are integers,
      [0] being [NULL].
    - The Win32 and libav functions the file calls are not part of the
      file: what they return is read from an environment record, and each
      call that matters is appended to a log of calls.
    - The file-scope statics ([monitors], [monitorsNum], [rcCombined]) are
      the [registry] of a [process], shared by every session of it. *)

From Stdlib Require Import ZArith List Lia Bool String Ascii.
From Stdlib Require Import Floats.
From stdpp Require Import base list gmap.
Open Scope Z_scope.

(** ** Machine integers *)

Module CInt.

(** Two's complement wrap-around of a signed [w]-bit integer. *)
Definition wrap (w : Z) (z : Z) : Z :=
  (z + 2 ^ (w - 1)) mod 2 ^ w - 2 ^ (w - 1).

Definition int32 : Z -> Z := wrap 32.
Definition int64 : Z -> Z := wrap 64.
(** Conversion to [unsigned] (the parameter type of [av_usleep]). *)
Definition uint32 (z : Z) : Z := z mod 2 ^ 32.

Definition INT_MIN : Z := - 2 ^ 31.
Definition INT_MAX : Z := 2 ^ 31 - 1.
Definition INT64_MIN : Z := - 2 ^ 63.
Definition INT64_MAX : Z := 2 ^ 63 - 1.

Definition in_int32 (z : Z) : Prop := INT_MIN <= z <= INT_MAX.
Definition in_int64 (z : Z) : Prop := INT64_MIN <= z <= INT64_MAX.

End CInt.
Export CInt.

(** ** Doubles *)

Module Dbl.

(** [(double) z]: the nearest binary64, ties to even. *)
Definition of_int (z : Z) : float :=
  SF2Prim (binary_normalize prec emax z 0 false).

(** The integer part of a finite double, [None] for infinities and NaN. *)
Definition truncate (f : float) : option Z :=
  match Prim2SF f with
  | S754_zero _ => Some 0
  | S754_finite s m e =>
      let mag := match e with
                 | Z0 => Zpos m
                 | Zpos p => Z.shiftl (Zpos m) (Zpos p)
                 | Zneg p => Z.shiftr (Zpos m) (Zpos p)
                 end in
      Some (if s then - mag else mag)
  | S754_infinity _ | S754_nan => None
  end.

(** [(int64_t) f]: truncation towards zero.  Out of range the conversion
    is undefined in C; the value is the one x86-64 produces
    ([cvttsd2si]: the "integer indefinite" [INT64_MIN]). *)
Definition to_int64 (f : float) : Z :=
  match truncate f with
  | Some z => if (INT64_MIN <=? z) && (z <=? INT64_MAX) then z else INT64_MIN
  | None => INT64_MIN
  end.

End Dbl.

(** ** Rationals of libavutil *)

Module Q.
Record AVRational := mk { num : Z; den : Z }.
End Q.
Abbreviation AVRational := Q.AVRational.

(** Modelled from the spec: [av_q2d] is declared in libavutil/rational.h,
    which is not part of the source at hand; the time base is "a rational
    time-base (duration of one tick)", read as a double by dividing its
    numerator by its denominator ([a.num / (double) a.den]). *)
Definition av_q2d (a : AVRational) : float :=
  (Dbl.of_int (Q.num a) / Dbl.of_int (Q.den a))%float.

(** Modelled from the spec: [av_inv_q] is declared in libavutil/rational.h;
    the time base is the inverse of the frame rate (framerate 10/1 gives a
    tick of 100 ms). *)
Definition av_inv_q (q : AVRational) : AVRational :=
  Q.mk (Q.den q) (Q.num q).

(** ** Undefined behaviour *)

Inductive undefined : Type :=
| OutOfBounds (index : Z)      (* access to [monitors[index]] outside the array *)
| DivisionByZero               (* integer division by zero *)
| DivisionOverflow             (* [INT_MIN / -1], whose quotient is no [int] *)
| BadCopy.                     (* [memcpy] outside the packet or the buffer *)

Inductive outcome (A : Type) : Type :=
| Done (a : A)
| Undefined (u : undefined).
Arguments Done {A} a.
Arguments Undefined {A} u.

(** [outcome] is a monad, with the notations of stdpp:
    [x ← c; k] runs [k] on the value of [c] and stops at the first
    undefined step. *)
#[global] Instance outcome_ret : MRet outcome := fun A a => Done a.
#[global] Instance outcome_bind : MBind outcome := fun A B f c =>
  match c with
  | Done a => f a
  | Undefined u => Undefined u
  end.

(** C's [a / b] on 32-bit integers: the quotient truncated towards zero.
    A zero divisor and [INT_MIN / -1] are undefined, and the division
    instruction traps on both. *)
Definition cdiv (a b : Z) : outcome Z :=
  if b =? 0 then Undefined DivisionByZero
  else if (a =? INT_MIN) && (b =? -1) then Undefined DivisionOverflow
  else Done (int32 (Z.quot a b)).

(** ** Win32 geometry *)

Module Rect.
Record RECT := mk { left : Z; top : Z; right : Z; bottom : Z }.
End Rect.
Abbreviation RECT := Rect.RECT.
Abbreviation mkRECT := Rect.mk.

Definition SetRectEmpty : RECT := mkRECT 0 0 0 0.

Definition IsRectEmpty (r : RECT) : bool :=
  (Rect.right r <=? Rect.left r) || (Rect.bottom r <=? Rect.top r).

(** [UnionRect] of user32: the smallest rectangle containing both, an empty
    rectangle being ignored. *)
Definition UnionRect (a b : RECT) : RECT :=
  if IsRectEmpty a then (if IsRectEmpty b then SetRectEmpty else b)
  else if IsRectEmpty b then a
  else mkRECT (Z.min (Rect.left a) (Rect.left b)) (Z.min (Rect.top a) (Rect.top b))
              (Z.max (Rect.right a) (Rect.right b)) (Z.max (Rect.bottom a) (Rect.bottom b)).

(** ** The monitor registry *)

Module Res.
Record RESOLUTION := mk { x : Z; y : Z }.
End Res.
Abbreviation RESOLUTION := Res.RESOLUTION.
Abbreviation mkRES := Res.mk.

Record MONITOR := mkMONITOR {
  logical : RESOLUTION;
  physical : RESOLUTION;
  rect : RECT
}.

Definition MY_MAX_MONITORS : Z := 4.

(** The file-scope statics [monitors], [monitorsNum] and [rcCombined]. *)
Record registry := mkRegistry {
  monitors : list MONITOR;
  monitorsNum : Z;
  rcCombined : RECT
}.

Definition zero_MONITOR : MONITOR :=
  mkMONITOR (mkRES 0 0) (mkRES 0 0) (mkRECT 0 0 0 0).

(** Static storage is zero-initialised. *)
Definition initial_registry : registry :=
  mkRegistry (replicate (Z.to_nat MY_MAX_MONITORS) zero_MONITOR) 0 SetRectEmpty.

(** [monitors[i]], read. *)
Definition monitor_at (reg : registry) (i : Z) : outcome MONITOR :=
  if (0 <=? i) && (i <? MY_MAX_MONITORS) then
    match monitors reg !! Z.to_nat i with
    | Some m => Done m
    | None => Undefined (OutOfBounds i)
    end
  else Undefined (OutOfBounds i).

(** [monitors[i] = m], written. *)
Definition monitor_store (reg : registry) (i : Z) (m : MONITOR) : outcome registry :=
  if (0 <=? i) && (i <? MY_MAX_MONITORS) then
    Done (mkRegistry (<[Z.to_nat i := m]> (monitors reg)) (monitorsNum reg)
                     (rcCombined reg))
  else Undefined (OutOfBounds i).

(** What the display subsystem reports for one monitor: the rectangle
    handed to the callback and the four [GetDeviceCaps] of its device. *)
Record display := mkDisplay {
  lprcMonitor : RECT;
  HORZRES : Z;
  VERTRES : Z;
  DESKTOPHORZRES : Z;
  DESKTOPVERTRES : Z
}.

(** The callback of [EnumDisplayMonitors]: the three fields of the slot
    [monitors[monitorsNum]] are assigned (the rectangle first, which is
    where an index outside the array is first used), the rectangle is
    added to [rcCombined], and [monitorsNum] is incremented. *)
Definition monitor_enum (reg : registry) (d : display) : outcome registry :=
  let i := monitorsNum reg in
  reg ← monitor_store reg i
          (mkMONITOR (mkRES (HORZRES d) (VERTRES d))
                     (mkRES (DESKTOPHORZRES d) (DESKTOPVERTRES d))
                     (lprcMonitor d));
  Done (mkRegistry (monitors reg) (int32 (i + 1))
                   (UnionRect (rcCombined reg) (lprcMonitor d))).

(** [EnumDisplayMonitors(0, 0, monitor_enum, 0)]: the callback is run once
    per attached display (it always answers [TRUE]). *)
Fixpoint EnumDisplayMonitors (displays : list display) (reg : registry)
  : outcome registry :=
  match displays with
  | [] => Done reg
  | d :: rest => reg ← monitor_enum reg d; EnumDisplayMonitors rest reg
  end.

(** The loop [for (int i = 0; i < monitorsNum; ++i) if (hit monitors[i])
    return i;  return -1;] shared by the three lookups, [todo] being the
    number of iterations left. *)
Fixpoint scan_monitors (hit : MONITOR -> bool) (reg : registry)
    (i : Z) (todo : nat) : outcome Z :=
  match todo with
  | O => Done (-1)
  | S todo =>
      m ← monitor_at reg i;
      if hit m then Done i else scan_monitors hit reg (i + 1) todo
  end.

Definition hit_point (px py : Z) (m : MONITOR) : bool :=
  (Rect.left (rect m) <=? px) && (px <? Rect.right (rect m)) &&
  (Rect.top (rect m) <=? py) && (py <? Rect.bottom (rect m)).

Definition hit_x (px : Z) (m : MONITOR) : bool :=
  (Rect.left (rect m) <=? px) && (px <? Rect.right (rect m)).

Definition hit_y (py : Z) (m : MONITOR) : bool :=
  (Rect.top (rect m) <=? py) && (py <? Rect.bottom (rect m)).

Definition get_monitor_id_by_logical_point (reg : registry) (px py : Z) : outcome Z :=
  scan_monitors (hit_point px py) reg 0 (Z.to_nat (monitorsNum reg)).

Definition get_monitor_id_by_logical_rectangle (reg : registry) (r : RECT) : outcome Z :=
  let px := int32 (Rect.left r + int32 (Z.quot (int32 (Rect.right r - Rect.left r)) 2)) in
  let py := int32 (Rect.top r + int32 (Z.quot (int32 (Rect.bottom r - Rect.top r)) 2)) in
  get_monitor_id_by_logical_point reg px py.

Definition get_monitor_id_by_logical_x (reg : registry) (px : Z) : outcome Z :=
  scan_monitors (hit_x px) reg 0 (Z.to_nat (monitorsNum reg)).

Definition get_monitor_id_by_logical_y (reg : registry) (py : Z) : outcome Z :=
  scan_monitors (hit_y py) reg 0 (Z.to_nat (monitorsNum reg)).

(** The macros [LOGICAL_TO_PHYSICAL_X] and [LOGICAL_TO_PHYSICAL_Y]. *)
Definition LOGICAL_TO_PHYSICAL_X (reg : registry) (val i : Z) : outcome Z :=
  m ← monitor_at reg i;
  cdiv (int32 (val * Res.x (physical m))) (Res.x (logical m)).

Definition LOGICAL_TO_PHYSICAL_Y (reg : registry) (val i : Z) : outcome Z :=
  m ← monitor_at reg i;
  cdiv (int32 (val * Res.y (physical m))) (Res.y (logical m)).

(** The monitor indices used for one corner: the one of the point when it
    is found, else one per axis. *)
Definition corner_indices (reg : registry) (px py : Z) : outcome (Z * Z) :=
  ind ← get_monitor_id_by_logical_point reg px py;
  if 0 <=? ind then Done (ind, ind)
  else
    indX ← get_monitor_id_by_logical_x reg px;
    indY ← get_monitor_id_by_logical_y reg py;
    Done (indX, indY).

Definition convert_logical_rect_to_physical (reg : registry) (r : RECT) : outcome RECT :=
  (* convert top-left corner *)
  '(indX, indY) ← corner_indices reg (Rect.left r) (Rect.top r);
  l ← LOGICAL_TO_PHYSICAL_X reg (Rect.left r) indX;
  t ← LOGICAL_TO_PHYSICAL_Y reg (Rect.top r) indY;
  (* convert bottom-right corner *)
  '(indX, indY) ← corner_indices reg (int32 (Rect.right r - 1)) (int32 (Rect.bottom r - 1));
  rg ← LOGICAL_TO_PHYSICAL_X reg (Rect.right r) indX;
  b ← LOGICAL_TO_PHYSICAL_Y reg (Rect.bottom r) indY;
  Done (mkRECT l t rg b).

(** ** Constants of the headers the file includes *)

(** The error numbers of [errno.h] in the Windows C runtime. *)
Definition EIO : Z := 5.
Definition EAGAIN : Z := 11.
Definition ENOMEM : Z := 12.

(** Modelled from the spec: [AVERROR] is a macro of libavutil/error.h, which
    is not part of the source at hand; failures are reported per call, as
    values that no packet length can take: the error number, negated. *)
Definition AVERROR (e : Z) : Z := - e.

(** Modelled from the spec: [AVFMT_FLAG_NONBLOCK] is declared in
    libavformat/avformat.h; it is the flag by which a caller asks for the
    early "try again" return instead of the pacing sleep ([0x0004]). *)
Definition AVFMT_FLAG_NONBLOCK : Z := 4.

(** [winuser.h], and the border of the region window. *)
Definition CURSOR_SHOWING : Z := 1.
Definition REGION_WND_BORDER : Z := 3.

(** [sizeof] of the packed bitmap structures of wingdi.h. *)
Definition sizeof_BITMAPFILEHEADER : Z := 14.
Definition sizeof_BITMAPINFOHEADER : Z := 40.
Definition sizeof_RGBQUAD : Z := 4.

(** ** The session *)

Record BITMAPINFOHEADER := mkBIH {
  biSize : Z;
  biWidth : Z;
  biHeight : Z;
  biPlanes : Z;
  biBitCount : Z;
  biCompression : Z;
  biSizeImage : Z;
  biXPelsPerMeter : Z;
  biYPelsPerMeter : Z;
  biClrUsed : Z;
  biClrImportant : Z
}.

(** The [BITMAP] that [GetObject] fills for the back buffer. *)
Record BITMAP := mkBITMAP {
  bmWidth : Z;
  bmHeight : Z;
  bmWidthBytes : Z;
  bmPlanes : Z;
  bmBitsPixel : Z
}.

(** [struct gdigrab], the private data of the demuxer. *)
Record gdigrab := mkGdigrab {
  frame_size : Z;
  header_size : Z;
  time_base : AVRational;
  time_frame : Z;
  draw_mouse : Z;
  show_region : Z;
  framerate : AVRational;
  width : Z;
  height : Z;
  offset_x : Z;
  offset_y : Z;
  hwnd : Z;
  source_hdc : Z;
  dest_hdc : Z;
  bmi : BITMAPINFOHEADER;
  hbmp : Z;
  buffer : Z;
  clip_rect : RECT;
  region_hwnd : Z;
  cursor_error_printed : Z
}.

Definition set_show_region (g : gdigrab) (v : Z) : gdigrab :=
  mkGdigrab (frame_size g) (header_size g) (time_base g) (time_frame g)
    (draw_mouse g) v (framerate g) (width g) (height g) (offset_x g)
    (offset_y g) (hwnd g) (source_hdc g) (dest_hdc g) (bmi g) (hbmp g)
    (buffer g) (clip_rect g) (region_hwnd g) (cursor_error_printed g).

Definition set_time_frame (g : gdigrab) (v : Z) : gdigrab :=
  mkGdigrab (frame_size g) (header_size g) (time_base g) v
    (draw_mouse g) (show_region g) (framerate g) (width g) (height g)
    (offset_x g) (offset_y g) (hwnd g) (source_hdc g) (dest_hdc g) (bmi g)
    (hbmp g) (buffer g) (clip_rect g) (region_hwnd g) (cursor_error_printed g).

Definition set_region_hwnd (g : gdigrab) (v : Z) : gdigrab :=
  mkGdigrab (frame_size g) (header_size g) (time_base g) (time_frame g)
    (draw_mouse g) (show_region g) (framerate g) (width g) (height g)
    (offset_x g) (offset_y g) (hwnd g) (source_hdc g) (dest_hdc g) (bmi g)
    (hbmp g) (buffer g) (clip_rect g) v (cursor_error_printed g).

Definition set_cursor_error_printed (g : gdigrab) (v : Z) : gdigrab :=
  mkGdigrab (frame_size g) (header_size g) (time_base g) (time_frame g)
    (draw_mouse g) (show_region g) (framerate g) (width g) (height g)
    (offset_x g) (offset_y g) (hwnd g) (source_hdc g) (dest_hdc g) (bmi g)
    (hbmp g) (buffer g) (clip_rect g) (region_hwnd g) v.

(** The stream that [gdigrab_read_header] adds to the context. *)
Record AVStream := mkStream {
  pts_wrap_bits : Z;
  st_time_base : AVRational;
  avg_frame_rate : AVRational;
  codec_is_bmp_video : bool;
  bit_rate : Z
}.

Record AVFormatContext := mkCtx {
  url : string;
  flags : Z;
  priv_data : gdigrab;
  streams : list AVStream
}.

Definition with_priv (s1 : AVFormatContext) (g : gdigrab) : AVFormatContext :=
  mkCtx (url s1) (flags s1) g (streams s1).

(** ** Calls to the operating system and to the host library *)

(** The messages logged as errors, warnings and information (the debug
    traces of the monitors and rectangles are left out). *)
Inductive log_msg : Type :=
| CantFindWindow (name : string)
| CantShowRegion
| BadTarget
| CaptureAreaOutside (clip virt : RECT)
| FoundWindow (name : string) (w h bpp l t : Z)
| CapturingDesktop (w h bpp l t : Z)
| InvalidProperties
| Win32Error (what : string).

Inductive os_call : Type :=
| CallGetDC (wnd result : Z)
| CallReleaseDC (wnd dc : Z)
| CallCreateCompatibleDC (dc result : Z)
| CallDeleteDC (dc : Z)
| CallCreateDIBSection (dc : Z) (header : BITMAPINFOHEADER) (result bits : Z)
| CallSelectObject (dc obj : Z)
| CallDeleteObject (obj : Z)
| CallCreateWindowEx (l t w h : Z) (result : Z)
| CallCreateRectRgn (r : RECT) (result : Z)
| CallSetWindowRgn (wnd rgn : Z)
| CallShowWindow (wnd : Z)
| CallDestroyWindow (wnd : Z)
| CallPumpMessages (wnd : Z)
| CallBitBlt (dst w h src sx sy : Z)
| CallCopyCursor (result : Z)
| CallGetIconInfo (icon mask color : Z)
| CallDrawIcon (dc px py icon : Z)
| CallDestroyCursor (icon : Z)
| CallNewStream
| CallNewPacket (size : Z)
| CallUsleep (usec : Z)
| CallLog (msg : log_msg).

(** The state of the process outside the session: the registry statics and
    the calls made so far, oldest first. *)
Record process := mkProcess {
  reg : registry;
  calls : list os_call
}.

(** A step of the program: from the state of the process to a value and
    the next state, or to an undefined step. *)
Definition M (A : Type) : Type := process -> outcome (A * process).

#[global] Instance M_ret : MRet M := fun A a p => Done (a, p).
#[global] Instance M_bind : MBind M := fun A B f c p =>
  match c p with
  | Done (a, p') => f a p'
  | Undefined u => Undefined u
  end.

Definition call (c : os_call) : M unit :=
  fun p => Done (tt, mkProcess (reg p) (calls p ++ [c])).

Definition av_log (m : log_msg) : M unit := call (CallLog m).

Definition get_registry : M registry := fun p => Done (reg p, p).

Definition put_registry (r : registry) : M unit :=
  fun p => Done (tt, mkProcess r (calls p)).

Definition lift {A} (c : outcome A) : M A :=
  fun p => match c with Done a => Done (a, p) | Undefined u => Undefined u end.

Definition when (b : bool) (c : M unit) : M unit :=
  if b then c else mret tt.

Definition nonzero (z : Z) : bool := negb (z =? 0).

(** ** Opening a session *)

(** What the system answers during [gdigrab_read_header]. *)
Record open_env := mkOpenEnv {
  FindWindow : string -> Z;
  GetDC : Z -> Z;
  BITSPIXEL : Z;
  displays : list display;
  GetWindowRect : RECT;
  GetClientRect : RECT;
  SM_XVIRTUALSCREEN : Z;
  SM_YVIRTUALSCREEN : Z;
  SM_CXVIRTUALSCREEN : Z;
  SM_CYVIRTUALSCREEN : Z;
  CreateCompatibleDC : Z;
  CreateDIBSection : Z * Z;            (* the bitmap and its bits *)
  SelectObject : bool;
  GetObject : BITMAP;
  avformat_new_stream : bool;
  av_gettime : Z;
  AdjustWindowRectEx : RECT -> RECT;
  CreateWindowEx : Z;
  region_client_rect : RECT;
  CreateRectRgn : RECT -> Z;
  SetWindowRgn : bool
}.

(** The label [error:] of [gdigrab_read_header], reached with the local
    handles acquired so far. *)
Definition open_error (ret wnd src dst bmp : Z) (s1 : AVFormatContext)
  : M (Z * AVFormatContext) :=
  when (nonzero src) (call (CallReleaseDC wnd src));;
  when (nonzero dst) (call (CallDeleteDC dst));;
  when (nonzero bmp) (call (CallDeleteObject bmp));;
  when (nonzero src) (call (CallDeleteDC src));;
  mret (ret, s1).

Definition gdigrab_region_wnd_init (env : open_env) (g : gdigrab) : M (Z * gdigrab) :=
  let r := clip_rect g in
  let r := mkRECT (int32 (Rect.left r - REGION_WND_BORDER))
                  (int32 (Rect.top r - REGION_WND_BORDER))
                  (int32 (Rect.right r + REGION_WND_BORDER))
                  (int32 (Rect.bottom r + REGION_WND_BORDER)) in
  let r := AdjustWindowRectEx env r in
  let wnd := CreateWindowEx env in
  call (CallCreateWindowEx (Rect.left r) (Rect.top r)
          (int32 (Rect.right r - Rect.left r))
          (int32 (Rect.bottom r - Rect.top r)) wnd);;
  if wnd =? 0 then
    av_log (Win32Error "Could not create region display window");;
    mret (1, g)
  else
    let r := region_client_rect env in
    let outer := mkRECT 0 0 (int32 (Rect.right r - Rect.left r))
                            (int32 (Rect.bottom r - Rect.top r)) in
    let inner := mkRECT REGION_WND_BORDER REGION_WND_BORDER
                   (int32 (int32 (Rect.right r - Rect.left r) - REGION_WND_BORDER))
                   (int32 (int32 (Rect.bottom r - Rect.top r) - REGION_WND_BORDER)) in
    let region := CreateRectRgn env outer in
    call (CallCreateRectRgn outer region);;
    let region_interior := CreateRectRgn env inner in
    call (CallCreateRectRgn inner region_interior);;
    call (CallSetWindowRgn wnd region);;
    if negb (SetWindowRgn env) then
      av_log (Win32Error "Could not set window region");;
      when (nonzero region) (call (CallDeleteObject region));;
      when (nonzero region_interior) (call (CallDeleteObject region_interior));;
      call (CallDestroyWindow wnd);;
      mret (1, g)
    else
      call (CallDeleteObject region_interior);;
      call (CallShowWindow wnd);;
      mret (0, set_region_hwnd g wnd).

(** The name of the window in a target [title=name]. *)
Definition title_prefix : string := "title=".

Definition window_name (filename : string) : option string :=
  if String.prefix title_prefix filename
  then Some (String.substring 6 (String.length filename - 6) filename)
  else None.

(** The bounds of the target in physical pixels: the client rectangle of
    the window scaled by the monitor under the window's centre, or the
    virtual desktop converted corner by corner. *)
Definition virtual_bounds (env : open_env) (rg : registry) (wnd : Z) : outcome RECT :=
  if nonzero wnd then
    ind ← get_monitor_id_by_logical_rectangle rg (GetWindowRect env);
    let v := GetClientRect env in
    l ← LOGICAL_TO_PHYSICAL_X rg (Rect.left v) ind;
    r ← LOGICAL_TO_PHYSICAL_X rg (Rect.right v) ind;
    t ← LOGICAL_TO_PHYSICAL_Y rg (Rect.top v) ind;
    b ← LOGICAL_TO_PHYSICAL_Y rg (Rect.bottom v) ind;
    Done (mkRECT l t r b)
  else
    let l := SM_XVIRTUALSCREEN env in
    let t := SM_YVIRTUALSCREEN env in
    convert_logical_rect_to_physical rg
      (mkRECT l t (int32 (l + SM_CXVIRTUALSCREEN env))
                  (int32 (t + SM_CYVIRTUALSCREEN env))).

(** The rectangle to capture: the whole target unless both a width and a
    height were asked for. *)
Definition resolve_clip_rect (g : gdigrab) (virtual_rect : RECT) : RECT :=
  if (width g =? 0) || (height g =? 0) then
    mkRECT (Rect.left virtual_rect) (Rect.top virtual_rect)
           (Rect.right virtual_rect) (Rect.bottom virtual_rect)
  else
    mkRECT (offset_x g) (offset_y g)
           (int32 (width g + offset_x g)) (int32 (height g + offset_y g)).

(** The first test on the clip rectangle. *)
Definition extends_outside (clip virt : RECT) : bool :=
  (Rect.left clip <? Rect.left virt) || (Rect.top clip <? Rect.top virt) ||
  (Rect.right virt <? Rect.right clip) || (Rect.bottom virt <? Rect.bottom clip).

(** The second test: extents and bit depth. *)
Definition invalid_properties (clip : RECT) (bpp : Z) : bool :=
  (int32 (Rect.right clip - Rect.left clip) <=? 0) ||
  (int32 (Rect.bottom clip - Rect.top clip) <=? 0) ||
  nonzero (Z.rem bpp 8).

(** The size of the two headers and of the palette.  In [1 << bpp] C
    leaves a count outside 0..31 undefined; the shift instruction of the
    machines this device runs on takes the count modulo 32, so that a depth
    of -8, which passes the test [bpp % 8], shifts by 24. *)
Definition dib_header_size (bpp : Z) : Z :=
  int32 (sizeof_BITMAPFILEHEADER + sizeof_BITMAPINFOHEADER +
         (if bpp <=? 8 then int32 (Z.shiftl 1 (Z.land bpp 31)) else 0) *
         sizeof_RGBQUAD).

(** The size of the pixel data, from what [GetObject] reports. *)
Definition dib_frame_size (bmp : BITMAP) : Z :=
  int32 (int32 (bmWidthBytes bmp * bmHeight bmp) * bmPlanes bmp).

(** [gdigrab_read_header] is split where its body is: the target and its
    device context ([open_target]), the monitors and the bounds of the
    target ([measure_target]), and the rest, from the clip rectangle on
    ([open_capture]). *)

(** The window to grab and its device context, or the error to return. *)
Definition open_target (env : open_env) (s1 : AVFormatContext)
  : M ((Z + Z * option string * Z) * AVFormatContext) :=
  let filename := url s1 in
  target ←
    match window_name filename with
    | Some name =>
        let wnd := FindWindow env name in
        if wnd =? 0 then
          av_log (CantFindWindow name);; mret (inl (AVERROR EIO), s1)
        else if nonzero (show_region (priv_data s1)) then
          av_log CantShowRegion;;
          mret (inr (wnd, Some name),
                with_priv s1 (set_show_region (priv_data s1) 0))
        else mret (inr (wnd, Some name), s1)
    | None =>
        if String.eqb filename "desktop" then mret (inr (0, None), s1)
        else av_log BadTarget;; mret (inl (AVERROR EIO), s1)
    end;
  match target with
  | (inl ret, s1) => mret (inl ret, s1)
  | (inr (wnd, name), s1) =>
      (* This will get the device context for the selected window, or if
         none, the primary screen *)
      let src := GetDC env wnd in
      call (CallGetDC wnd src);;
      if src =? 0 then
        av_log (Win32Error "Couldn't get window device context");;
        mret (inl (AVERROR EIO), s1)
      else mret (inr (wnd, name, src), s1)
  end.

(** Get resolution and coordinates for all monitors, then the bounds of
    the target. *)
Definition measure_target (env : open_env) (wnd : Z) : M RECT :=
  rg ← get_registry;
  rg ← lift (EnumDisplayMonitors (displays env)
               (mkRegistry (monitors rg) 0 SetRectEmpty));
  put_registry rg;;
  lift (virtual_bounds env rg wnd).

Definition open_capture (env : open_env) (s1 : AVFormatContext)
    (wnd : Z) (name : option string) (src : Z) (virtual_rect : RECT)
  : M (Z * AVFormatContext) :=
  let g := priv_data s1 in
  let bpp := BITSPIXEL env in
  (* If no width or height set, use full screen/window area *)
  let clip := resolve_clip_rect g virtual_rect in
  if extends_outside clip virtual_rect then
    av_log (CaptureAreaOutside clip virtual_rect);;
    open_error (AVERROR EIO) wnd src 0 0 s1
  else
  let w := int32 (Rect.right clip - Rect.left clip) in
  let h := int32 (Rect.bottom clip - Rect.top clip) in
  av_log (match name with
          | Some n => FoundWindow n w h bpp (Rect.left clip) (Rect.top clip)
          | None => CapturingDesktop w h bpp (Rect.left clip) (Rect.top clip)
          end);;
  if invalid_properties clip bpp then
    av_log InvalidProperties;;
    open_error (AVERROR EIO) wnd src 0 0 s1
  else
  let dst := CreateCompatibleDC env in
  call (CallCreateCompatibleDC src dst);;
  if dst =? 0 then
    av_log (Win32Error "Screen DC CreateCompatibleDC");;
    open_error (AVERROR EIO) wnd src dst 0 s1
  else
  (* Create a DIB and select it into the dest_hdc *)
  let header := mkBIH sizeof_BITMAPINFOHEADER w (int32 (- h)) 1
                      (bpp mod 2 ^ 16) 0 0 0 0 0 0 in
  let bmp := (CreateDIBSection env).1 in
  let bits := (CreateDIBSection env).2 in
  call (CallCreateDIBSection dst header bmp bits);;
  if bmp =? 0 then
    av_log (Win32Error "Creating DIB Section");;
    open_error (AVERROR EIO) wnd src dst bmp s1
  else
  call (CallSelectObject dst bmp);;
  if negb (SelectObject env) then
    av_log (Win32Error "SelectObject");;
    open_error (AVERROR EIO) wnd src dst bmp s1
  else
  (* Get info from the bitmap *)
  let info := GetObject env in
  call CallNewStream;;
  if negb (avformat_new_stream env) then
    open_error (AVERROR ENOMEM) wnd src dst bmp s1
  else
  let tb := av_inv_q (framerate g) in
  let g := mkGdigrab (dib_frame_size info) (dib_header_size bpp) tb
             (Dbl.to_int64 (Dbl.of_int (av_gettime env) / av_q2d tb)%float)
             (draw_mouse g) (show_region g) (framerate g) (width g)
             (height g) (offset_x g) (offset_y g) wnd src dst header bmp
             bits clip (region_hwnd g) 0 in
  (* 64 bits pts in us *)
  let st := mkStream 64 (Q.mk 1 1000000) (Q.mk 0 1) false 0 in
  region ←
    (if nonzero (show_region g) then gdigrab_region_wnd_init env g
     else mret (0, g));
  if nonzero region.1 then
    open_error (AVERROR EIO) wnd src dst bmp
      (mkCtx (url s1) (flags s1) region.2 (streams s1 ++ [st]))
  else
  let g := region.2 in
  let st := mkStream 64 (Q.mk 1 1000000) (av_inv_q (time_base g)) true
              (Dbl.to_int64
                 (Dbl.of_int (int32 (int32 (header_size g + frame_size g) * 1))
                  / av_q2d (time_base g) * Dbl.of_int 8)%float) in
  mret (0, mkCtx (url s1) (flags s1) g (streams s1 ++ [st])).

Definition gdigrab_read_header (env : open_env) (s1 : AVFormatContext)
  : M (Z * AVFormatContext) :=
  target ← open_target env s1;
  match target with
  | (inl ret, s1) => open_error ret 0 0 0 0 s1
  | (inr (wnd, name, src), s1) =>
      virtual_rect ← measure_target env wnd;
      open_capture env s1 wnd name src virtual_rect
  end.

(** ** The cursor overlay *)

(** What the system answers during [paint_mouse_pointer]. *)
Record cursor_env := mkCursorEnv {
  GetCursorInfo : bool;
  ci_flags : Z;
  ci_hCursor : Z;
  ptScreenPos : Z * Z;
  CopyCursor : Z -> Z;
  LoadCursor_IDC_ARROW : Z;
  (* the hotspot, the mask and the colour bitmap, when the call succeeds *)
  GetIconInfo : Z -> option (Z * Z * Z * Z);
  cur_HORZRES : Z;
  cur_VERTRES : Z;
  cur_DESKTOPHORZRES : Z;
  cur_DESKTOPVERTRES : Z;
  cur_GetWindowRect : option RECT;
  DrawIcon : bool
}.

(** The macro [CURSOR_ERROR]: the first failure of a session is logged. *)
Definition CURSOR_ERROR (what : string) (g : gdigrab) : M gdigrab :=
  if cursor_error_printed g =? 0 then
    av_log (Win32Error what);; mret (set_cursor_error_printed g 1)
  else mret g.

(** The label [icon_error:]. *)
Definition icon_cleanup (mask color icon : Z) : M unit :=
  when (nonzero mask) (call (CallDeleteObject mask));;
  when (nonzero color) (call (CallDeleteObject color));;
  when (nonzero icon) (call (CallDestroyCursor icon)).

(** Where the icon goes in the back buffer, for a window of rectangle
    [wr] or for the desktop. *)
Definition cursor_pos (env : cursor_env) (clip : RECT) (wr : option RECT)
    (xHotspot yHotspot : Z) : outcome (Z * Z) :=
  let '(sx, sy) := ptScreenPos env in
  match wr with
  | Some r =>
      let px := int32 (sx - Rect.left clip - xHotspot - Rect.left r) in
      let py := int32 (sy - Rect.top clip - yHotspot - Rect.top r) in
      (* that would keep the correct location of mouse with hidpi screens *)
      px ← cdiv (int32 (px * cur_DESKTOPHORZRES env)) (cur_HORZRES env);
      py ← cdiv (int32 (py * cur_DESKTOPVERTRES env)) (cur_VERTRES env);
      Done (px, py)
  | None =>
      qx ← cdiv (int32 (sx * cur_DESKTOPHORZRES env)) (cur_HORZRES env);
      qy ← cdiv (int32 (sy * cur_DESKTOPVERTRES env)) (cur_VERTRES env);
      Done (int32 (qx - Rect.left clip - xHotspot),
            int32 (qy - Rect.top clip - yHotspot))
  end.

(** The test that guards [DrawIcon]. *)
Definition within_frame (clip : RECT) (pos : Z * Z) : bool :=
  (0 <=? pos.1) && (pos.1 <=? int32 (Rect.right clip - Rect.left clip)) &&
  (0 <=? pos.2) && (pos.2 <=? int32 (Rect.bottom clip - Rect.top clip)).

Definition paint_mouse_pointer (env : cursor_env) (g : gdigrab) : M gdigrab :=
  if GetCursorInfo env then
    let icon := CopyCursor env (ci_hCursor env) in
    call (CallCopyCursor icon);;
    let clip := clip_rect g in
    if negb (ci_flags env =? CURSOR_SHOWING) then mret g
    else
      icon ← (if icon =? 0 then
                 (* Use the standard arrow cursor as a fallback. *)
                 let arrow := CopyCursor env (LoadCursor_IDC_ARROW env) in
                 call (CallCopyCursor arrow);; mret arrow
               else mret icon);
      match GetIconInfo env icon with
      | None =>
          g ← CURSOR_ERROR "Could not get icon info" g;
          icon_cleanup 0 0 icon;; mret g
      | Some (xHotspot, yHotspot, mask, color) =>
          call (CallGetIconInfo icon mask color);;
          if nonzero (hwnd g) && negb (bool_decide (is_Some (cur_GetWindowRect env)))
          then
            g ← CURSOR_ERROR "Couldn't get window rectangle" g;
            icon_cleanup mask color icon;; mret g
          else
            pos ← lift (cursor_pos env clip
                          (if nonzero (hwnd g) then cur_GetWindowRect env else None)
                          xHotspot yHotspot);
            g ← (if within_frame clip pos then
                    call (CallDrawIcon (dest_hdc g) pos.1 pos.2 icon);;
                    if negb (DrawIcon env) then CURSOR_ERROR "Couldn't draw icon" g
                    else mret g
                  else mret g);
            icon_cleanup mask color icon;; mret g
      end
  else CURSOR_ERROR "Couldn't get cursor info" g.

(** ** Reading a packet *)

Record AVPacket := mkPacket {
  pts : Z;
  size : Z;
  data : list Z                         (* bytes *)
}.

(** What the system answers during one [gdigrab_read_packet]. *)
Record read_env := mkReadEnv {
  clock : list Z;                       (* the successive [av_gettime()] *)
  av_new_packet : Z -> bool;
  BitBlt : bool;
  cursor : cursor_env;
  GetDIBColorTable : Z -> list Z;       (* the bytes of the entries copied *)
  DIB_bits : list Z                     (* the back buffer once painted *)
}.

(** [n] bytes of [z], least significant first. *)
Fixpoint le_bytes (n : nat) (z : Z) : list Z :=
  match n with
  | O => []
  | S n => z mod 256 :: le_bytes n (Z.shiftr z 8)
  end.

Definition bytes_BITMAPFILEHEADER (bfType bfSize bfReserved1 bfReserved2 bfOffBits : Z)
  : list Z :=
  le_bytes 2 bfType ++ le_bytes 4 bfSize ++ le_bytes 2 bfReserved1 ++
  le_bytes 2 bfReserved2 ++ le_bytes 4 bfOffBits.

Definition bytes_BITMAPINFOHEADER (h : BITMAPINFOHEADER) : list Z :=
  le_bytes 4 (biSize h) ++ le_bytes 4 (biWidth h) ++ le_bytes 4 (biHeight h) ++
  le_bytes 2 (biPlanes h) ++ le_bytes 2 (biBitCount h) ++
  le_bytes 4 (biCompression h) ++ le_bytes 4 (biSizeImage h) ++
  le_bytes 4 (biXPelsPerMeter h) ++ le_bytes 4 (biYPelsPerMeter h) ++
  le_bytes 4 (biClrUsed h) ++ le_bytes 4 (biClrImportant h).

(** [memcpy(dst + off, src, length src)] inside [dst]. *)
Definition memcpy (dst : list Z) (off : Z) (src : list Z) : outcome (list Z) :=
  if (0 <=? off) && (off + Z.of_nat (length src) <=? Z.of_nat (length dst)) then
    Done (take (Z.to_nat off) dst ++ src ++
          drop (Z.to_nat off + length src) dst)
  else Undefined BadCopy.

(** The first [n] bytes of a buffer. *)
Definition read_bytes (src : list Z) (n : Z) : outcome (list Z) :=
  if (0 <=? n) && (n <=? Z.of_nat (length src)) then Done (take (Z.to_nat n) src)
  else Undefined BadCopy.

(** The bytes of the packet: file header, bitmap header, palette, pixels. *)
Definition fill_packet (env : read_env) (g : gdigrab) (file_size : Z) (d : list Z)
  : outcome (list Z) :=
  d ← memcpy d 0 (bytes_BITMAPFILEHEADER 19778 file_size 0 0 (header_size g));
  d ← memcpy d sizeof_BITMAPFILEHEADER (bytes_BITMAPINFOHEADER (bmi g));
  d ← (if biBitCount (bmi g) <=? 8 then
         memcpy d (sizeof_BITMAPFILEHEADER + sizeof_BITMAPINFOHEADER)
                (GetDIBColorTable env (int32 (Z.shiftl 1 (biBitCount (bmi g)))))
       else Done d);
  pixels ← read_bytes (DIB_bits env) (frame_size g);
  memcpy d (header_size g) pixels.

(** [delay = time_frame * av_q2d(time_base) - curtime]. *)
Definition frame_delay (tb : AVRational) (tf curtime : Z) : Z :=
  Dbl.to_int64 (Dbl.of_int tf * av_q2d tb - Dbl.of_int curtime)%float.

(** [delay < INT64_C(-1000000) * av_q2d(time_base)]: late by more than
    one tick. *)
Definition overdue (tb : AVRational) (delay : Z) : bool :=
  (Dbl.of_int delay <? Dbl.of_int (-1000000) * av_q2d tb)%float.

Inductive paced : Type :=
| FrameDue (curtime tf : Z) (later : list Z)
| TryAgain (later : list Z)
| StillWaiting.

(** The loop [for (;;)] that waits based on the frame rate, one clock
    reading per iteration. *)
Fixpoint wait_for_frame (nonblock : bool) (tb : AVRational) (tf : Z)
    (readings : list Z) : M paced :=
  match readings with
  | [] => mret StillWaiting
  | curtime :: later =>
      let delay := frame_delay tb tf curtime in
      if delay <=? 0 then
        mret (FrameDue curtime
                (if overdue tb delay then int64 (tf + 1000000) else tf) later)
      else if nonblock then mret (TryAgain later)
      else call (CallUsleep (uint32 delay));; wait_for_frame nonblock tb tf later
  end.

Definition gdigrab_region_wnd_update (g : gdigrab) : M unit :=
  call (CallPumpMessages (region_hwnd g)).

Inductive read_result : Type :=
| Returns (ret : Z) (s1 : AVFormatContext) (pkt : option AVPacket) (later : list Z)
| Sleeping.

Definition gdigrab_read_packet (env : read_env) (s1 : AVFormatContext) : M read_result :=
  let g := priv_data s1 in
  let clip := clip_rect g in
  let file_size := int32 (header_size g + frame_size g) in
  (* Calculate the time of the next frame *)
  let tf := int64 (time_frame g + 1000000) in
  (* Run Window message processing queue *)
  when (nonzero (show_region g)) (gdigrab_region_wnd_update g);;
  (* wait based on the frame rate *)
  p ← wait_for_frame (nonzero (Z.land (flags s1) AVFMT_FLAG_NONBLOCK))
        (time_base g) tf (clock env);
  match p with
  | StillWaiting => mret Sleeping
  | TryAgain later => mret (Returns (AVERROR EAGAIN) s1 None later)
  | FrameDue curtime tf later =>
      call (CallNewPacket file_size);;
      if negb (av_new_packet env file_size) then
        mret (Returns (AVERROR ENOMEM) s1 None later)
      else
        let raw := replicate (Z.to_nat file_size) 0 in
        (* Blit screen grab *)
        call (CallBitBlt (dest_hdc g)
                (int32 (Rect.right clip - Rect.left clip))
                (int32 (Rect.bottom clip - Rect.top clip))
                (source_hdc g) (Rect.left clip) (Rect.top clip));;
        if negb (BitBlt env) then
          av_log (Win32Error "Failed to capture image");;
          mret (Returns (AVERROR EIO) s1 (Some (mkPacket curtime file_size raw)) later)
        else
          g ← (if nonzero (draw_mouse g) then paint_mouse_pointer (cursor env) g
               else mret g);
          (* Copy bits to packet data *)
          d ← lift (fill_packet env g file_size raw);
          let g := set_time_frame g tf in
          mret (Returns (int32 (header_size g + frame_size g)) (with_priv s1 g)
                        (Some (mkPacket curtime file_size d)) later)
  end.

(** ** Closing a session *)

Definition gdigrab_region_wnd_destroy (g : gdigrab) : M gdigrab :=
  when (nonzero (region_hwnd g)) (call (CallDestroyWindow (region_hwnd g)));;
  mret (set_region_hwnd g 0).

Definition gdigrab_read_close (s1 : AVFormatContext) : M (Z * AVFormatContext) :=
  s ← (if nonzero (show_region (priv_data s1))
       then gdigrab_region_wnd_destroy (priv_data s1)
       else mret (priv_data s1));
  when (nonzero (source_hdc s)) (call (CallReleaseDC (hwnd s) (source_hdc s)));;
  when (nonzero (dest_hdc s)) (call (CallDeleteDC (dest_hdc s)));;
  when (nonzero (hbmp s)) (call (CallDeleteObject (hbmp s)));;
  when (nonzero (source_hdc s)) (call (CallDeleteDC (source_hdc s)));;
  mret (0, with_priv s1 s).

(** ** Live handles *)

(** The handles a call hands out, and the ones it gives back. *)
Definition acquired (c : os_call) : list Z :=
  filter (fun h => h ≠ 0)
    match c with
    | CallGetDC _ r | CallCreateCompatibleDC _ r | CallCreateDIBSection _ _ r _
    | CallCreateWindowEx _ _ _ _ r | CallCreateRectRgn _ r | CallCopyCursor r => [r]
    | CallGetIconInfo _ mask color => [mask; color]
    | _ => []
    end.

Definition released (c : os_call) : list Z :=
  match c with
  | CallReleaseDC _ h | CallDeleteDC h | CallDeleteObject h
  | CallDestroyWindow h | CallDestroyCursor h => [h]
  | _ => []
  end.

(** The calls of a log that release or delete a handle which is not live
    when they are made, [live] being the handles live before the log. *)
Fixpoint invalid_releases (live : gset Z) (cs : list os_call) : list os_call :=
  match cs with
  | [] => []
  | c :: cs =>
      (if forallb (fun h => bool_decide (h ∈ live)) (released c) then [] else [c])
      ++ invalid_releases
           ((live ∖ list_to_set (released c)) ∪ list_to_set (acquired c)) cs
  end.

(** The calls a computation adds to the log. *)
Definition calls_of {A} (c : M A) (p : process) : list os_call :=
  match c p with
  | Done (_, p') => drop (length (calls p)) (calls p')
  | Undefined _ => []
  end.

(** ** Sessions over several reads *)

(** One emitted frame: the packet, the value returned with it and the
    [time_frame] stored by the call. *)
Record emission := mkEmission {
  packet : AVPacket;
  returned : Z;
  due : Z
}.

(** The frames of a session that calls [gdigrab_read_packet] once per
    environment, each call reading the clock where the previous one
    stopped; a call that returns an error emits nothing. *)
Fixpoint session_reads (envs : list read_env) (s1 : AVFormatContext)
  : M (list emission) :=
  match envs with
  | [] => mret []
  | env :: envs =>
      r ← gdigrab_read_packet env s1;
      match r with
      | Sleeping => mret []
      | Returns ret s1' pkt _ =>
          rest ← session_reads envs s1';
          mret (match pkt with
                | Some p => if 0 <=? ret
                            then mkEmission p ret (time_frame (priv_data s1')) :: rest
                            else rest
                | None => rest
                end)
      end
  end.

(** Consecutive values that differ by one tick or by two. *)
Definition TICK : Z := 1000000.

Fixpoint paced_from (prev : Z) (dues : list Z) : Prop :=
  match dues with
  | [] => True
  | d :: dues => (d - prev = TICK \/ d - prev = 2 * TICK) /\ paced_from d dues
  end.

(** ** Sample configurations *)

Module Sample.

(** An 800x600 monitor whose left edge is at [x0] and whose device has
    [scale] physical pixels per logical pixel. *)
Definition monitor_at_x (x0 scale : Z) : display :=
  mkDisplay (mkRECT x0 0 (x0 + 800) 600) 800 600 (800 * scale) (600 * scale).

Definition monitor_800x600 (scale : Z) : display := monitor_at_x 0 scale.

Definition two_monitors : list display := [monitor_at_x 0 1; monitor_at_x 800 1].

Definition five_monitors : list display :=
  [monitor_at_x 0 1; monitor_at_x 800 1; monitor_at_x 1600 1;
   monitor_at_x 2400 1; monitor_at_x 3200 1].

(** A desktop of [cx] by [cy] logical pixels on the displays [ds]; every
    call succeeds. *)
Definition desktop (ds : list display) (cx cy bpp : Z) (bmp : BITMAP) (now : Z)
  : open_env :=
  mkOpenEnv (fun _ => 0) (fun _ => 101) bpp ds
    (mkRECT 0 0 0 0) (mkRECT 0 0 0 0) 0 0 cx cy
    102 (103, 5000) true bmp true now
    (fun r => r) 104 (mkRECT 0 0 106 56) (fun r => 105 + Rect.left r) true.

(** The same desktop where the region window cannot be created. *)
Definition desktop_without_region_window (bmp : BITMAP) : open_env :=
  mkOpenEnv (fun _ => 0) (fun _ => 101) 32 [monitor_800x600 1]
    (mkRECT 0 0 0 0) (mkRECT 0 0 0 0) 0 0 800 600
    102 (103, 5000) true bmp true 5000000
    (fun r => r) 0 (mkRECT 0 0 0 0) (fun _ => 0) false.

(** A desktop where every title names the window 77, of client area
    200x100, on the single monitor. *)
Definition desktop_with_window (bmp : BITMAP) : open_env :=
  mkOpenEnv (fun _ => 77) (fun _ => 101) 32 [monitor_800x600 1]
    (mkRECT 100 100 300 200) (mkRECT 0 0 200 100) 0 0 800 600
    102 (103, 5000) true bmp true 5000000
    (fun r => r) 104 (mkRECT 0 0 106 56) (fun r => 105 + Rect.left r) true.

(** The 800x600 desktop where [CreateDIBSection] fails. *)
Definition desktop_without_bitmap (bmp : BITMAP) : open_env :=
  mkOpenEnv (fun _ => 0) (fun _ => 101) 32 [monitor_800x600 1]
    (mkRECT 0 0 0 0) (mkRECT 0 0 0 0) 0 0 800 600
    102 (0, 0) true bmp true 5000000
    (fun r => r) 104 (mkRECT 0 0 106 56) (fun r => 105 + Rect.left r) true.

Definition fresh_gdigrab (rate : AVRational) (w h ox oy region : Z) : gdigrab :=
  mkGdigrab 0 0 (Q.mk 0 0) 0 1 region rate w h ox oy 0 0 0
    (mkBIH 0 0 0 0 0 0 0 0 0 0 0) 0 0 (mkRECT 0 0 0 0) 0 0.

Definition request (target : string) (fl : Z) (g : gdigrab) : AVFormatContext :=
  mkCtx target fl g [].

Definition fresh : process := mkProcess initial_registry [].

(** [video_size=100x50], [offset_x=10], [offset_y=20], [framerate=10/1]. *)
Definition g_100x50 : gdigrab := fresh_gdigrab (Q.mk 10 1) 100 50 10 20 0.
Definition bmp_100x50 : BITMAP := mkBITMAP 100 50 400 1 32.

(** [video_size=4x2] at the origin, [framerate=10/1]. *)
Definition g_4x2 : gdigrab := fresh_gdigrab (Q.mk 10 1) 4 2 0 0 0.
Definition bmp_4x2 : BITMAP := mkBITMAP 4 2 16 1 32.

(** [video_size=2147483647x50] with [offset_x=1]: the right edge asked
    for, 2147483648, is no [int]. *)
Definition g_wrapping : gdigrab := fresh_gdigrab (Q.mk 10 1) 2147483647 50 1 0 0.

(** [video_size=900x50]: wider than the desktop. *)
Definition g_900x50 : gdigrab := fresh_gdigrab (Q.mk 10 1) 900 50 0 0 0.

Definition no_cursor : cursor_env :=
  mkCursorEnv true 0 0 (0, 0) (fun h => h) 0 (fun _ => None) 800 600 800 600 None true.

Definition arrow_at (sx sy : Z) : cursor_env :=
  mkCursorEnv true CURSOR_SHOWING 201 (sx, sy) (fun h => h + 1) 200
    (fun _ => Some (0, 0, 203, 204)) 800 600 800 600 None true.

Definition reading (readings : list Z) (c : cursor_env) (bits : list Z) : read_env :=
  mkReadEnv readings (fun n => 0 <=? n) true c (fun _ => []) bits.

(** The session opened at five seconds on the 4x2 request. *)
Definition opened_4x2 (fl : Z) : outcome (Z * AVFormatContext * process) :=
  gdigrab_read_header (desktop [monitor_800x600 1] 800 600 32 bmp_4x2 5000000)
    (request "desktop" fl g_4x2) fresh.

(** The 4x2 request with [show_region=1] where the region window fails. *)
Definition failed_open : outcome (Z * AVFormatContext * process) :=
  gdigrab_read_header (desktop_without_region_window bmp_4x2)
    (request "desktop" 0 (fresh_gdigrab (Q.mk 10 1) 4 2 0 0 1)) fresh.

(** The session it leaves. *)
Definition session_4x2 (fl : Z) : AVFormatContext :=
  match opened_4x2 fl with
  | Done (_, s1, _) => s1
  | Undefined _ => request "desktop" fl g_4x2
  end.

(** The process once it is open. *)
Definition process_4x2 (fl : Z) : process :=
  match opened_4x2 fl with
  | Done (_, _, p) => p
  | Undefined _ => fresh
  end.

(** Two blocking reads: the first finds its frame due at once, the second
    is called ten microseconds later, sleeps and wakes 123 microseconds
    after its frame was due. *)
Definition two_reads : list read_env :=
  [reading [5100000] no_cursor (replicate 32 7);
   reading [5100010; 5200123] no_cursor (replicate 32 7)].

(** A read on time, then a read after a stall of nine ticks. *)
Definition reads_with_stall : list read_env :=
  [reading [5100000] no_cursor (replicate 32 7);
   reading [6000000] no_cursor (replicate 32 7)].

(** The registry once the single 800x600 monitor is enumerated. *)
Definition registry_800x600 : registry :=
  mkRegistry
    (mkMONITOR (mkRES 800 600) (mkRES 800 600) (mkRECT 0 0 800 600)
     :: replicate 3 zero_MONITOR)
    1 (mkRECT 0 0 800 600).

End Sample.

(** ** Notions used by the statements *)

(** The registry as the enumeration leaves it when it stays inside the
    array: four slots, of which the first [monitorsNum] are in use and
    describe devices of non-zero logical resolution. *)
Definition registry_ok (rg : registry) : Prop :=
  length (monitors rg) = Z.to_nat MY_MAX_MONITORS /\
  0 <= monitorsNum rg <= MY_MAX_MONITORS /\
  forall (i : nat) (m : MONITOR),
    monitors rg !! i = Some m -> Z.of_nat i < monitorsNum rg ->
    Res.x (logical m) <> 0 /\ Res.y (logical m) <> 0.

(** The monitors in use describe devices of positive logical resolution,
    as [GetDeviceCaps] reports it for a display. *)
Definition positive_resolution (rg : registry) : Prop :=
  forall (i : nat) (m : MONITOR),
    monitors rg !! i = Some m -> Z.of_nat i < monitorsNum rg ->
    0 < Res.x (logical m) /\ 0 < Res.y (logical m).

(** A lookup that answers a monitor id, not [-1]. *)
Definition found (o : outcome Z) : bool :=
  match o with
  | Done i => 0 <=? i
  | Undefined _ => false
  end.

(** Each coordinate of the two corners a conversion looks up lies in the
    span of some monitor. *)
Definition corners_resolve (rg : registry) (r : RECT) : bool :=
  found (get_monitor_id_by_logical_x rg (Rect.left r)) &&
  found (get_monitor_id_by_logical_y rg (Rect.top r)) &&
  found (get_monitor_id_by_logical_x rg (int32 (Rect.right r - 1))) &&
  found (get_monitor_id_by_logical_y rg (int32 (Rect.bottom r - 1))).

(** A coordinate that no monitor in use spans, horizontally or
    vertically. *)
Definition outside_every_span (hit : MONITOR -> bool) (rg : registry) : Prop :=
  forall (i : nat) (m : MONITOR),
    monitors rg !! i = Some m -> Z.of_nat i < monitorsNum rg -> hit m = false.

(** Two registries that differ at most in the slots that are not in use. *)
Definition same_view (a b : registry) : Prop :=
  length (monitors a) = length (monitors b) /\
  monitorsNum a = monitorsNum b /\
  rcCombined a = rcCombined b /\
  forall i : nat, Z.of_nat i < monitorsNum a -> monitors a !! i = monitors b !! i.

(** Two runs that end alike: the same value and the same calls, with
    registries related by [R], or the same undefined step. *)
Definition related {A} (R : registry -> registry -> Prop)
    (r1 r2 : outcome (A * process)) : Prop :=
  match r1, r2 with
  | Done (a1, p1), Done (a2, p2) =>
      a1 = a2 /\ calls p1 = calls p2 /\ R (reg p1) (reg p2)
  | Undefined u1, Undefined u2 => u1 = u2
  | _, _ => False
  end.

(** A computation that neither reads nor writes the registry. *)
Definition registry_blind {A} (c : M A) : Prop :=
  forall (R : registry -> registry -> Prop) (rg1 rg2 : registry) (cs : list os_call),
    R rg1 rg2 -> related R (c (mkProcess rg1 cs)) (c (mkProcess rg2 cs)).

(** The registry read the way the specification words it, as data local
    to a session: once a session is open, the opening of another session
    of the process does not change what the lookups answer. *)
Definition registry_session_local : Prop :=
  forall (envA envB : open_env) (sA sB sA' sB' : AVFormatContext)
         (p pA pB : process) (rA rB px py : Z),
    gdigrab_read_header envA sA p = Done (rA, sA', pA) ->
    gdigrab_read_header envB sB pA = Done (rB, sB', pB) ->
    get_monitor_id_by_logical_point (reg pB) px py =
    get_monitor_id_by_logical_point (reg pA) px py.

(** The calls that create the back buffer and its device context. *)
Definition allocates_buffer (c : os_call) : bool :=
  match c with
  | CallCreateCompatibleDC _ _ | CallCreateDIBSection _ _ _ _ => true
  | _ => false
  end.

(** The timestamps of consecutive packets read the way the specification
    words it: each differs from the previous one by exactly one tick of
    [tick] microseconds, or by two when one tick is skipped. *)
Fixpoint pts_one_tick_apart (tick : Z) (stamps : list Z) : Prop :=
  match stamps with
  | t1 :: ((t2 :: _) as later) =>
      (t2 - t1 = tick \/ t2 - t1 = 2 * tick) /\ pts_one_tick_apart tick later
  | _ => True
  end.

(** ** The window procedure of the region window *)

(** [WM_PAINT] of winuser.h and the two stock brushes the procedure uses. *)
Definition WM_PAINT : Z := 15.

Inductive brush : Type := BLACK_BRUSH | WHITE_BRUSH.

(** [rect.left++; rect.top++; rect.right--; rect.bottom--;] *)
Definition shrink_rect (r : RECT) : RECT :=
  mkRECT (int32 (Rect.left r + 1)) (int32 (Rect.top r + 1))
         (int32 (Rect.right r - 1)) (int32 (Rect.bottom r - 1)).

(** [gdigrab_region_wnd_proc]: for [WM_PAINT] the three [FrameRect] calls on
    the client rectangle, in order, and the result 0; any other message
    goes to [DefWindowProc]. *)
Definition gdigrab_region_wnd_proc (DefWindowProc : Z -> Z) (client : RECT) (msg : Z)
  : list (RECT * brush) * Z :=
  if msg =? WM_PAINT then
    let r0 := client in
    let r1 := shrink_rect r0 in
    let r2 := shrink_rect r1 in
    ([(r0, BLACK_BRUSH); (r1, WHITE_BRUSH); (r2, BLACK_BRUSH)], 0)
  else ([], DefWindowProc msg).

(** A pixel of a rectangle, right and bottom edges excluded. *)
Definition in_rect (r : RECT) (px py : Z) : bool :=
  (Rect.left r <=? px) && (px <? Rect.right r) &&
  (Rect.top r <=? py) && (py <? Rect.bottom r).

(** [FrameRect] of user32 draws a border one unit wide inside the
    rectangle: the pixels of the rectangle that are not in the rectangle
    shrunk by one on each side. *)
Definition on_frame (r : RECT) (px py : Z) : bool :=
  in_rect r px py &&
  negb (in_rect (mkRECT (Rect.left r + 1) (Rect.top r + 1)
                        (Rect.right r - 1) (Rect.bottom r - 1)) px py).

(** The brush of the last frame drawn over a pixel, if any. *)
Fixpoint painted (frames : list (RECT * brush)) (px py : Z) : option brush :=
  match frames with
  | [] => None
  | (r, b) :: frames =>
      match painted frames px py with
      | Some later => Some later
      | None => if on_frame r px py then Some b else None
      end
  end.

(** The shape [gdigrab_region_wnd_init] gives the window of client
    rectangle [r]: the region [(0, 0, w, h)] less ([RGN_DIFF]) the interior
    region. *)
Definition region_shape (r : RECT) (px py : Z) : bool :=
  let w := int32 (Rect.right r - Rect.left r) in
  let h := int32 (Rect.bottom r - Rect.top r) in
  in_rect (mkRECT 0 0 w h) px py &&
  negb (in_rect (mkRECT REGION_WND_BORDER REGION_WND_BORDER
                        (int32 (w - REGION_WND_BORDER))
                        (int32 (h - REGION_WND_BORDER))) px py).

(** ** Further notions used by the statements *)

(** The monitor that [monitor_enum] records for a display. *)
Definition monitor_of_display (d : display) : MONITOR :=
  mkMONITOR (mkRES (HORZRES d) (VERTRES d))
            (mkRES (DESKTOPHORZRES d) (DESKTOPVERTRES d)) (lprcMonitor d).

(** A computation whose calls all satisfy [ok], whatever the process. *)
Definition emits {A} (ok : os_call -> bool) (c : M A) : Prop :=
  forall p : process,
    match c p with
    | Done (_, p') => exists l, calls p' = calls p ++ l /\ forallb ok l = true
    | Undefined _ => True
    end.

(** The calls a read may make: the message pump, the sleep, the packet,
    the blit, the calls of the cursor overlay and the log. *)
Definition read_call (c : os_call) : bool :=
  match c with
  | CallPumpMessages _ | CallUsleep _ | CallNewPacket _
  | CallBitBlt _ _ _ _ _ _ | CallCopyCursor _ | CallGetIconInfo _ _ _
  | CallDrawIcon _ _ _ _ | CallDeleteObject _ | CallDestroyCursor _
  | CallLog _ => true
  | _ => false
  end.

Definition is_usleep (c : os_call) : bool :=
  match c with CallUsleep _ => true | _ => false end.

Definition is_pump (c : os_call) : bool :=
  match c with CallPumpMessages _ => true | _ => false end.

Definition is_log (c : os_call) : bool :=
  match c with CallLog _ => true | _ => false end.

(** The handles a log of calls hands out, and the ones it gives back. *)
Definition handles_acquired (l : list os_call) : list Z := flat_map acquired l.
Definition handles_released (l : list os_call) : list Z := flat_map released l.

(** A computation that gives back no handle but those that its own calls
    handed out, whatever the process. *)
Definition releases_its_own {A} (c : M A) : Prop :=
  forall p : process,
    match c p with
    | Done (_, p') =>
        exists l, calls p' = calls p ++ l /\
                  incl (handles_released l) (handles_acquired l)
    | Undefined _ => True
    end.

(** The calls that concern the region window. *)
Definition is_region_call (c : os_call) : bool :=
  match c with
  | CallCreateWindowEx _ _ _ _ _ | CallCreateRectRgn _ _ | CallSetWindowRgn _ _
  | CallShowWindow _ | CallDestroyWindow _ | CallPumpMessages _ => true
  | _ => false
  end.

(** * Properties *)

(** ** Machine integers *)

Lemma int32_small (z : Z) : in_int32 z -> int32 z = z.
Proof.
  unfold in_int32, INT_MIN, INT_MAX, int32, wrap. intros Hz.
  rewrite Z.mod_small; lia.
Qed.

Lemma int32_range (z : Z) : in_int32 (int32 z).
Proof.
  unfold in_int32, INT_MIN, INT_MAX, int32, wrap.
  pose proof (Z.mod_pos_bound (z + 2 ^ (32 - 1)) (2 ^ 32)). lia.
Qed.

Lemma int64_small (z : Z) : in_int64 z -> int64 z = z.
Proof.
  unfold in_int64, INT64_MIN, INT64_MAX, int64, wrap. intros Hz.
  rewrite Z.mod_small; lia.
Qed.

(** ** The outcome monad *)

(** The quotient of a product by one of its factors, when nothing
    overflows. *)
Lemma cdiv_scaled (a b : Z) :
  b <> 0 -> in_int32 a -> in_int32 (a * b) -> cdiv (int32 (a * b)) b = Done a.
Proof.
  intros Hb Ha Hab. unfold cdiv. rewrite (int32_small _ Hab).
  destruct (Z.eqb_spec b 0); [contradiction|].
  replace ((a * b =? INT_MIN) && (b =? -1)) with false.
  - now rewrite Z.quot_mul, (int32_small _ Ha).
  - symmetry. apply andb_false_iff.
    destruct (Z.eqb_spec b (-1)) as [-> |]; [left | now right].
    apply Z.eqb_neq. unfold in_int32, INT_MIN, INT_MAX in *. lia.
Qed.

Lemma obind_Done {A B} (c : outcome A) (f : A -> outcome B) (b : B) :
  c ≫= f = Done b -> exists a, c = Done a /\ f a = Done b.
Proof. destruct c as [a|u]; [eauto | discriminate]. Qed.

(** ** Monitor enumeration *)

Section Enumeration.

Lemma monitor_enum_stores (rg : registry) (d : display) :
  0 <= monitorsNum rg < MY_MAX_MONITORS ->
  monitor_enum rg d =
    Done (mkRegistry
            (<[Z.to_nat (monitorsNum rg) :=
                 mkMONITOR (mkRES (HORZRES d) (VERTRES d))
                           (mkRES (DESKTOPHORZRES d) (DESKTOPVERTRES d))
                           (lprcMonitor d)]> (monitors rg))
            (monitorsNum rg + 1)
            (UnionRect (rcCombined rg) (lprcMonitor d))).
Proof.
  unfold MY_MAX_MONITORS. intros Hn. unfold monitor_enum, monitor_store.
  replace ((0 <=? monitorsNum rg) && (monitorsNum rg <? MY_MAX_MONITORS))
    with true by (unfold MY_MAX_MONITORS; lia).
  cbn. rewrite int32_small; [reflexivity|].
  unfold in_int32, INT_MIN, INT_MAX. lia.
Qed.

Lemma monitor_enum_overflows (rg : registry) (d : display) :
  ~ 0 <= monitorsNum rg < MY_MAX_MONITORS ->
  monitor_enum rg d = Undefined (OutOfBounds (monitorsNum rg)).
Proof.
  intros Hn. unfold monitor_enum, monitor_store.
  replace ((0 <=? monitorsNum rg) && (monitorsNum rg <? MY_MAX_MONITORS))
    with false by lia.
  reflexivity.
Qed.

Lemma EnumDisplayMonitors_count (ds : list display) :
  forall rg : registry,
    0 <= monitorsNum rg <= MY_MAX_MONITORS ->
    (monitorsNum rg + Z.of_nat (length ds) <= MY_MAX_MONITORS ->
     exists rg', EnumDisplayMonitors ds rg = Done rg' /\
                 monitorsNum rg' = monitorsNum rg + Z.of_nat (length ds) /\
                 length (monitors rg') = length (monitors rg)) /\
    (MY_MAX_MONITORS < monitorsNum rg + Z.of_nat (length ds) ->
     EnumDisplayMonitors ds rg = Undefined (OutOfBounds MY_MAX_MONITORS)).
Proof.
  induction ds as [|d ds IH]; intros rg Hn; cbn [EnumDisplayMonitors length].
  - split; [intros _; exists rg; split; [reflexivity | split; [lia | reflexivity]] | lia].
  - destruct (Z.eq_dec (monitorsNum rg) MY_MAX_MONITORS) as [Hfull | Hroom].
    + rewrite monitor_enum_overflows by lia. split; [lia|].
      intros _. cbn. now rewrite Hfull.
    + rewrite monitor_enum_stores by lia. cbn.
      match goal with |- context [EnumDisplayMonitors ds ?r] => specialize (IH r) end.
      cbn in IH. destruct IH as [IHfit IHover]; [lia|].
      split; intros Hlen.
      * destruct IHfit as (rg' & Hrun & Hnum & Hlen'); [lia|].
        exists rg'. rewrite Hrun. split; [reflexivity|]. split; [lia|].
        rewrite Hlen'. apply length_insert.
      * apply IHover. lia.
Qed.

End Enumeration.

(** C10: the enumeration callback stores each monitor at index
    [monitorsNum] of the four-slot array with no bound check.  Started as
    [gdigrab_read_header] starts it ([monitorsNum = 0]), the enumeration
    stays inside the array exactly when at most four monitors are attached:
    it then ends with [monitorsNum] equal to their number; with more than
    four, the fifth call of the callback stores at index 4, outside the
    array. *)
Theorem enumeration_in_bounds_up_to_four_monitors (ds : list display) (rg : registry) :
  let start := mkRegistry (monitors rg) 0 SetRectEmpty in
  (Z.of_nat (length ds) <= MY_MAX_MONITORS ->
   exists rg', EnumDisplayMonitors ds start = Done rg' /\
               monitorsNum rg' = Z.of_nat (length ds)) /\
  (MY_MAX_MONITORS < Z.of_nat (length ds) ->
   EnumDisplayMonitors ds start = Undefined (OutOfBounds MY_MAX_MONITORS)) /\
  (forall (full : registry) (d : display),
     monitorsNum full = MY_MAX_MONITORS ->
     monitor_enum full d = Undefined (OutOfBounds MY_MAX_MONITORS)).
Proof.
  intros start.
  destruct (EnumDisplayMonitors_count ds start) as [Hfit Hover];
    [cbn; unfold MY_MAX_MONITORS; lia|].
  cbn in Hfit, Hover. split; [|split].
  - intros Hlen. destruct Hfit as (rg' & Hrun & Hnum & _); [lia|].
    exists rg'. split; [exact Hrun | lia].
  - intros Hlen. apply Hover. lia.
  - intros full d Hfull. rewrite monitor_enum_overflows by lia. now rewrite Hfull.
Qed.

(** ** Lookups and conversion *)

Section Lookups.

Variable rg : registry.
Hypothesis Hslots : length (monitors rg) = Z.to_nat MY_MAX_MONITORS.

Lemma monitor_at_slot (i : Z) :
  0 <= i < MY_MAX_MONITORS ->
  exists m, monitors rg !! Z.to_nat i = Some m /\ monitor_at rg i = Done m.
Proof.
  intros Hi. unfold monitor_at.
  replace ((0 <=? i) && (i <? MY_MAX_MONITORS)) with true by lia.
  destruct (monitors rg !! Z.to_nat i) as [m|] eqn:Hm; [eauto|].
  apply lookup_ge_None in Hm. unfold MY_MAX_MONITORS in *. lia.
Qed.

(** The loop answers [-1] when no slot it visits is hit, else the first
    slot that is. *)
Lemma scan_monitors_spec (hit : MONITOR -> bool) (todo : nat) :
  forall i : Z,
    0 <= i -> i + Z.of_nat todo <= MY_MAX_MONITORS ->
    exists j, scan_monitors hit rg i todo = Done j /\
      ((j = -1 /\
        forall k m, i <= k < i + Z.of_nat todo ->
                    monitors rg !! Z.to_nat k = Some m -> hit m = false) \/
       (i <= j < i + Z.of_nat todo /\
        exists m, monitors rg !! Z.to_nat j = Some m /\ hit m = true)).
Proof.
  induction todo as [|todo IH]; intros i Hi Hend; cbn [scan_monitors].
  - exists (-1). split; [reflexivity|]. left. split; [reflexivity|]. lia.
  - destruct (monitor_at_slot i) as (m & Hm & ->); [lia|]. cbn.
    destruct (hit m) eqn:Hhit.
    + exists i. split; [reflexivity|]. right. split; [lia|]. eauto.
    + destruct (IH (i + 1)) as (j & Hrun & Hj); [lia | lia |].
      exists j. split; [exact Hrun|].
      destruct Hj as [[-> Hnone] | [Hrange Hsome]].
      * left. split; [reflexivity|]. intros k m' Hk Hm'.
        destruct (Z.eq_dec k i) as [-> | Hne]; [congruence|].
        apply (Hnone k); [lia | exact Hm'].
      * right. split; [lia | exact Hsome].
Qed.

Hypothesis Hnum : 0 <= monitorsNum rg <= MY_MAX_MONITORS.

Lemma lookup_spec (hit : MONITOR -> bool) :
  exists j, scan_monitors hit rg 0 (Z.to_nat (monitorsNum rg)) = Done j /\
    ((j = -1 /\
      forall k m, 0 <= k < monitorsNum rg ->
                  monitors rg !! Z.to_nat k = Some m -> hit m = false) \/
     (0 <= j < monitorsNum rg /\
      exists m, monitors rg !! Z.to_nat j = Some m /\ hit m = true)).
Proof.
  destruct (scan_monitors_spec hit (Z.to_nat (monitorsNum rg)) 0) as (j & Hrun & Hj);
    [lia | lia |].
  exists j. split; [exact Hrun|]. rewrite Z2Nat.id in Hj by lia. exact Hj.
Qed.

(** A hit of the point lookup is a hit of both axis lookups. *)
Lemma point_found_axes_found (px py : Z) :
  found (get_monitor_id_by_logical_point rg px py) = true ->
  found (get_monitor_id_by_logical_x rg px) = true /\
  found (get_monitor_id_by_logical_y rg py) = true.
Proof.
  unfold get_monitor_id_by_logical_point, get_monitor_id_by_logical_x,
    get_monitor_id_by_logical_y.
  destruct (lookup_spec (hit_point px py)) as (j & -> & Hj).
  destruct (lookup_spec (hit_x px)) as (jx & -> & Hjx).
  destruct (lookup_spec (hit_y py)) as (jy & -> & Hjy).
  cbn. intros Hfound.
  destruct Hj as [[-> _] | [Hrange (m & Hm & Hhit)]]; [lia|].
  unfold hit_point in Hhit.
  split.
  - destruct Hjx as [[_ Hnone] | [Hr _]]; [|lia].
    specialize (Hnone j m Hrange Hm). unfold hit_x in Hnone. lia.
  - destruct Hjy as [[_ Hnone] | [Hr _]]; [|lia].
    specialize (Hnone j m Hrange Hm). unfold hit_y in Hnone. lia.
Qed.

(** The indices used for a corner are both found exactly when both of its
    coordinates resolve; an index that is not found is [-1]. *)
Lemma corner_indices_spec (px py : Z) :
  exists ix iy,
    corner_indices rg px py = Done (ix, iy) /\
    (ix = -1 \/ 0 <= ix < monitorsNum rg) /\
    (iy = -1 \/ 0 <= iy < monitorsNum rg) /\
    (0 <=? ix) = found (get_monitor_id_by_logical_x rg px) /\
    (0 <=? iy) = found (get_monitor_id_by_logical_y rg py).
Proof.
  pose proof (point_found_axes_found px py) as Haxes.
  unfold corner_indices.
  unfold get_monitor_id_by_logical_point, get_monitor_id_by_logical_x,
    get_monitor_id_by_logical_y in *.
  destruct (lookup_spec (hit_point px py)) as (j & Hp & Hj).
  destruct (lookup_spec (hit_x px)) as (jx & Hx & Hjx).
  destruct (lookup_spec (hit_y py)) as (jy & Hy & Hjy).
  rewrite Hp, Hx, Hy in *. cbn in *.
  destruct (0 <=? j) eqn:Hfound.
  - destruct Haxes as [Hfx Hfy]; [reflexivity|].
    exists j, j. rewrite Hfx, Hfy.
    repeat split; try lia; destruct Hj as [[-> _] | [Hr _]]; lia.
  - exists jx, jy. repeat split; try reflexivity.
    + destruct Hjx as [[-> _] | [Hr _]]; lia.
    + destruct Hjy as [[-> _] | [Hr _]]; lia.
Qed.

Lemma LOGICAL_TO_PHYSICAL_X_outside (val : Z) :
  LOGICAL_TO_PHYSICAL_X rg val (-1) = Undefined (OutOfBounds (-1)).
Proof. reflexivity. Qed.

Lemma LOGICAL_TO_PHYSICAL_Y_outside (val : Z) :
  LOGICAL_TO_PHYSICAL_Y rg val (-1) = Undefined (OutOfBounds (-1)).
Proof. reflexivity. Qed.

(** A corner whose x no monitor spans: the first scaling of the
    conversion reads [monitors[-1]]. *)
Lemma convert_outside_left (r : RECT) :
  get_monitor_id_by_logical_x rg (Rect.left r) = Done (-1) ->
  convert_logical_rect_to_physical rg r = Undefined (OutOfBounds (-1)).
Proof.
  intros Hlx. unfold convert_logical_rect_to_physical.
  destruct (corner_indices_spec (Rect.left r) (Rect.top r))
    as (ix & iy & -> & Hix & _ & Hfound & _).
  rewrite Hlx in Hfound. cbn in Hfound.
  destruct Hix as [-> | Hix]; [reflexivity | lia].
Qed.

Hypothesis Hpos : positive_resolution rg.

Lemma cdiv_positive (a b : Z) : 0 < b -> cdiv a b = Done (int32 (Z.quot a b)).
Proof.
  intros Hb. unfold cdiv.
  destruct (Z.eqb_spec b 0); [lia|]. destruct (Z.eqb_spec b (-1)); [lia|].
  now rewrite andb_false_r.
Qed.

Lemma LOGICAL_TO_PHYSICAL_X_inside (val i : Z) :
  0 <= i < monitorsNum rg -> exists z, LOGICAL_TO_PHYSICAL_X rg val i = Done z.
Proof.
  intros Hi. unfold LOGICAL_TO_PHYSICAL_X.
  destruct (monitor_at_slot i) as (m & Hm & ->); [lia|]. cbn.
  destruct (Hpos _ _ Hm) as [Hx _]; [lia|].
  rewrite (cdiv_positive _ _ Hx). eauto.
Qed.

Lemma LOGICAL_TO_PHYSICAL_Y_inside (val i : Z) :
  0 <= i < monitorsNum rg -> exists z, LOGICAL_TO_PHYSICAL_Y rg val i = Done z.
Proof.
  intros Hi. unfold LOGICAL_TO_PHYSICAL_Y.
  destruct (monitor_at_slot i) as (m & Hm & ->); [lia|]. cbn.
  destruct (Hpos _ _ Hm) as [_ Hy]; [lia|].
  rewrite (cdiv_positive _ _ Hy). eauto.
Qed.

Lemma convert_logical_rect_to_physical_spec (r : RECT) :
  if corners_resolve rg r
  then exists r', convert_logical_rect_to_physical rg r = Done r'
  else convert_logical_rect_to_physical rg r = Undefined (OutOfBounds (-1)).
Proof.
  unfold corners_resolve, convert_logical_rect_to_physical.
  destruct (corner_indices_spec (Rect.left r) (Rect.top r))
    as (ix & iy & -> & Hix & Hiy & <- & <-).
  destruct (corner_indices_spec (int32 (Rect.right r - 1)) (int32 (Rect.bottom r - 1)))
    as (jx & jy & -> & Hjx & Hjy & <- & <-).
  cbn.
  destruct Hix as [-> | Hix]; [reflexivity|].
  destruct (LOGICAL_TO_PHYSICAL_X_inside (Rect.left r) ix Hix) as (l & ->). cbn.
  replace (0 <=? ix) with true by lia. cbn.
  destruct Hiy as [-> | Hiy]; [reflexivity|].
  destruct (LOGICAL_TO_PHYSICAL_Y_inside (Rect.top r) iy Hiy) as (t & ->). cbn.
  replace (0 <=? iy) with true by lia. cbn.
  destruct Hjx as [-> | Hjx]; [reflexivity|].
  destruct (LOGICAL_TO_PHYSICAL_X_inside (Rect.right r) jx Hjx) as (rr & ->). cbn.
  replace (0 <=? jx) with true by lia. cbn.
  destruct Hjy as [-> | Hjy]; [reflexivity|].
  destruct (LOGICAL_TO_PHYSICAL_Y_inside (Rect.bottom r) jy Hjy) as (b & ->). cbn.
  replace (0 <=? jy) with true by lia. cbn. eauto.
Qed.

End Lookups.

Lemma lookup_outside (rg : registry) (hit : MONITOR -> bool) :
  registry_ok rg -> outside_every_span hit rg ->
  scan_monitors hit rg 0 (Z.to_nat (monitorsNum rg)) = Done (-1).
Proof.
  intros (Hslots & Hnum & _) Hout.
  destruct (lookup_spec rg Hslots Hnum hit) as (j & -> & [[-> _] | [Hr (m & Hm & Hhit)]]);
    [reflexivity|].
  rewrite (Hout (Z.to_nat j) m Hm) in Hhit by lia. discriminate.
Qed.

(** C9: the conversion of a rectangle to physical pixels is total exactly
    when each coordinate of its two corners lies in the span of some monitor
    in use (the monitors having a positive logical resolution, so that no
    division overflows).  Otherwise the point lookup and an axis lookup both
    answer [-1] and the scaling macro reads [monitors[-1]], outside the
    array; this is the case of every rectangle when the registry is empty,
    and of a corner whose x (or y) is outside the horizontal (or vertical)
    span of every monitor. *)
Theorem conversion_total_only_when_corners_resolve (rg : registry) (r : RECT) :
  registry_ok rg ->
  (positive_resolution rg -> corners_resolve rg r = true ->
   exists r', convert_logical_rect_to_physical rg r = Done r') /\
  (positive_resolution rg -> corners_resolve rg r = false ->
   convert_logical_rect_to_physical rg r = Undefined (OutOfBounds (-1))) /\
  (monitorsNum rg = 0 ->
   get_monitor_id_by_logical_point rg (Rect.left r) (Rect.top r) = Done (-1) /\
   get_monitor_id_by_logical_x rg (Rect.left r) = Done (-1) /\
   get_monitor_id_by_logical_y rg (Rect.top r) = Done (-1) /\
   convert_logical_rect_to_physical rg r = Undefined (OutOfBounds (-1))) /\
  (outside_every_span (hit_x (Rect.left r)) rg ->
   get_monitor_id_by_logical_point rg (Rect.left r) (Rect.top r) = Done (-1) /\
   get_monitor_id_by_logical_x rg (Rect.left r) = Done (-1) /\
   convert_logical_rect_to_physical rg r = Undefined (OutOfBounds (-1))) /\
  (outside_every_span (hit_y (Rect.top r)) rg ->
   get_monitor_id_by_logical_point rg (Rect.left r) (Rect.top r) = Done (-1) /\
   get_monitor_id_by_logical_y rg (Rect.top r) = Done (-1) /\
   (positive_resolution rg ->
    convert_logical_rect_to_physical rg r = Undefined (OutOfBounds (-1)))).
Proof.
  intros Hok. pose proof Hok as (Hslots & Hnum & Hres).
  pose proof (fun Hpos => convert_logical_rect_to_physical_spec rg Hslots Hnum Hpos r)
    as Hspec.
  assert (Hx : outside_every_span (hit_x (Rect.left r)) rg ->
               get_monitor_id_by_logical_point rg (Rect.left r) (Rect.top r) = Done (-1) /\
               get_monitor_id_by_logical_x rg (Rect.left r) = Done (-1) /\
               convert_logical_rect_to_physical rg r = Undefined (OutOfBounds (-1))).
  { intros Hout.
    assert (Hlx : get_monitor_id_by_logical_x rg (Rect.left r) = Done (-1))
      by (apply lookup_outside; assumption).
    split; [|split; [exact Hlx|]].
    - apply lookup_outside; [exact Hok|]. intros i m Hm Hi.
      specialize (Hout i m Hm Hi). unfold hit_point, hit_x in *. lia.
    - exact (convert_outside_left rg Hslots Hnum r Hlx). }
  assert (Hy : outside_every_span (hit_y (Rect.top r)) rg ->
               get_monitor_id_by_logical_point rg (Rect.left r) (Rect.top r) = Done (-1) /\
               get_monitor_id_by_logical_y rg (Rect.top r) = Done (-1) /\
               corners_resolve rg r = false).
  { intros Hout.
    assert (Hly : get_monitor_id_by_logical_y rg (Rect.top r) = Done (-1))
      by (apply lookup_outside; assumption).
    split; [|split; [exact Hly|]].
    - apply lookup_outside; [exact Hok|]. intros i m Hm Hi.
      specialize (Hout i m Hm Hi). unfold hit_point, hit_y in *. lia.
    - unfold corners_resolve. rewrite Hly. cbn. now rewrite andb_false_r. }
  split; [|split; [|split; [|split]]].
  - intros Hpos Hres'. specialize (Hspec Hpos). now rewrite Hres' in Hspec.
  - intros Hpos Hres'. specialize (Hspec Hpos). now rewrite Hres' in Hspec.
  - intros Hempty.
    assert (Hnone : forall hit, outside_every_span hit rg)
      by (intros hit i m _ Hi; lia).
    destruct (Hx (Hnone _)) as (Hp & Hlx & Hc).
    destruct (Hy (Hnone _)) as (_ & Hly & _). auto.
  - exact Hx.
  - intros Hout. destruct (Hy Hout) as (Hp & Hly & Hc).
    split; [exact Hp|]. split; [exact Hly|].
    intros Hpos. specialize (Hspec Hpos). now rewrite Hc in Hspec.
Qed.

(** ** Computations that leave the registry alone *)

Section Blind.

Lemma blind_ret {A} (a : A) : registry_blind (mret a).
Proof. intros R rg1 rg2 cs HR. cbn. auto. Qed.

Lemma blind_call (c : os_call) : registry_blind (call c).
Proof. intros R rg1 rg2 cs HR. cbn. auto. Qed.

Lemma blind_lift {A} (o : outcome A) : registry_blind (lift o).
Proof. intros R rg1 rg2 cs HR. destruct o; cbn; auto. Qed.

Lemma blind_bind {A B} (c : M A) (f : A -> M B) :
  registry_blind c -> (forall a, registry_blind (f a)) -> registry_blind (c ≫= f).
Proof.
  intros Hc Hf R rg1 rg2 cs HR. specialize (Hc R rg1 rg2 cs HR).
  unfold mbind, M_bind, related in *.
  destruct (c (mkProcess rg1 cs)) as [[a1 [r1 c1]]|u1],
           (c (mkProcess rg2 cs)) as [[a2 [r2 c2]]|u2]; try contradiction.
  - cbn in Hc. destruct Hc as (-> & -> & HR'). apply (Hf a2 R r1 r2 c2 HR').
  - exact Hc.
Qed.

Lemma blind_when (b : bool) (c : M unit) :
  registry_blind c -> registry_blind (when b c).
Proof. destruct b; [auto | intros _; apply blind_ret]. Qed.

(** What a blind computation returns and logs does not depend on the
    registry, which it hands back as it got it. *)
Lemma blind_frame {A} (c : M A) (rg : registry) (cs : list os_call) :
  registry_blind c ->
  match c (mkProcess rg cs) with
  | Done (_, p) => reg p = rg
  | Undefined _ => True
  end.
Proof.
  intros Hc. specialize (Hc (fun a _ => a = rg) rg rg cs eq_refl).
  unfold related in Hc.
  destruct (c (mkProcess rg cs)) as [[a p]|u]; [|exact I]. tauto.
Qed.

End Blind.

Ltac blind_step :=
  first
    [ apply blind_ret | apply blind_call | apply blind_lift
    | apply blind_when
    | apply blind_bind; [|intros ?]
    | match goal with
      | |- registry_blind (if ?b then _ else _) => destruct b
      | |- registry_blind (match ?v with _ => _ end) => destruct v
      end
    | solve [eauto] ].

Ltac blind := repeat blind_step.

Section BlindOperations.

Lemma blind_open_error ret wnd src dst bmp s1 :
  registry_blind (open_error ret wnd src dst bmp s1).
Proof. unfold open_error. blind. Qed.

Lemma blind_region_wnd_init env g : registry_blind (gdigrab_region_wnd_init env g).
Proof. unfold gdigrab_region_wnd_init, av_log. cbv zeta. blind. Qed.

Lemma blind_open_target env s1 : registry_blind (open_target env s1).
Proof. unfold open_target, av_log. cbv zeta. blind. Qed.

Lemma blind_open_capture env s1 wnd name src virtual_rect :
  registry_blind (open_capture env s1 wnd name src virtual_rect).
Proof.
  pose proof blind_open_error. pose proof blind_region_wnd_init.
  unfold open_capture, av_log. cbv zeta. blind.
Qed.

Lemma blind_CURSOR_ERROR what g : registry_blind (CURSOR_ERROR what g).
Proof. unfold CURSOR_ERROR, av_log. blind. Qed.

Lemma blind_icon_cleanup mask color icon : registry_blind (icon_cleanup mask color icon).
Proof. unfold icon_cleanup. blind. Qed.

Lemma blind_paint_mouse_pointer env g : registry_blind (paint_mouse_pointer env g).
Proof.
  pose proof blind_CURSOR_ERROR. pose proof blind_icon_cleanup.
  unfold paint_mouse_pointer. cbv zeta. blind.
Qed.

Lemma blind_wait_for_frame nonblock tb readings :
  forall tf, registry_blind (wait_for_frame nonblock tb tf readings).
Proof.
  induction readings as [|curtime later IH]; intros tf; cbn [wait_for_frame];
    cbv zeta; blind.
Qed.

Lemma blind_read_packet env s1 : registry_blind (gdigrab_read_packet env s1).
Proof.
  pose proof blind_wait_for_frame. pose proof blind_paint_mouse_pointer.
  unfold gdigrab_read_packet, gdigrab_region_wnd_update, av_log. cbv zeta. blind.
Qed.

Lemma blind_read_close s1 : registry_blind (gdigrab_read_close s1).
Proof. unfold gdigrab_read_close, gdigrab_region_wnd_destroy. blind. Qed.

End BlindOperations.

(** ** The registry is rebuilt by every open *)

Section SameView.

Variables a b : registry.
Hypothesis Hview : same_view a b.

Lemma monitor_at_same_view (i : Z) :
  i < 0 \/ i < monitorsNum a -> monitor_at a i = monitor_at b i.
Proof.
  destruct Hview as (_ & _ & _ & Hslots). intros Hi. unfold monitor_at.
  destruct ((0 <=? i) && (i <? MY_MAX_MONITORS)) eqn:Hin; [|reflexivity].
  rewrite Hslots by lia. reflexivity.
Qed.

Lemma scan_monitors_range (hit : MONITOR -> bool) (rg : registry) (todo : nat) :
  forall i j, scan_monitors hit rg i todo = Done j ->
              j = -1 \/ i <= j < i + Z.of_nat todo.
Proof.
  induction todo as [|todo IH]; intros i j; cbn [scan_monitors].
  - intros [= <-]. now left.
  - intros Hrun. apply obind_Done in Hrun as (m & _ & Hrun).
    destruct (hit m).
    + injection Hrun as <-. right. lia.
    + apply IH in Hrun. lia.
Qed.

Lemma scan_monitors_same_view (hit : MONITOR -> bool) (todo : nat) :
  forall i, 0 <= i -> i + Z.of_nat todo <= Z.max 0 (monitorsNum a) ->
            scan_monitors hit a i todo = scan_monitors hit b i todo.
Proof.
  induction todo as [|todo IH]; intros i Hi Hend; cbn [scan_monitors]; [reflexivity|].
  rewrite monitor_at_same_view by lia.
  destruct (monitor_at b i) as [m|u]; cbn; [|reflexivity].
  destruct (hit m); [reflexivity|]. apply IH; lia.
Qed.

Lemma lookup_same_view (hit : MONITOR -> bool) :
  scan_monitors hit a 0 (Z.to_nat (monitorsNum a)) =
  scan_monitors hit b 0 (Z.to_nat (monitorsNum b)).
Proof.
  destruct Hview as (_ & <- & _). apply scan_monitors_same_view; lia.
Qed.

Lemma lookup_range (hit : MONITOR -> bool) (j : Z) :
  scan_monitors hit a 0 (Z.to_nat (monitorsNum a)) = Done j ->
  j < 0 \/ j < monitorsNum a.
Proof. intros Hrun. apply scan_monitors_range in Hrun. lia. Qed.

Lemma LOGICAL_TO_PHYSICAL_X_same_view (val i : Z) :
  i < 0 \/ i < monitorsNum a ->
  LOGICAL_TO_PHYSICAL_X a val i = LOGICAL_TO_PHYSICAL_X b val i.
Proof.
  intros Hi. unfold LOGICAL_TO_PHYSICAL_X. now rewrite monitor_at_same_view.
Qed.

Lemma LOGICAL_TO_PHYSICAL_Y_same_view (val i : Z) :
  i < 0 \/ i < monitorsNum a ->
  LOGICAL_TO_PHYSICAL_Y a val i = LOGICAL_TO_PHYSICAL_Y b val i.
Proof.
  intros Hi. unfold LOGICAL_TO_PHYSICAL_Y. now rewrite monitor_at_same_view.
Qed.

Lemma corner_indices_same_view (px py : Z) :
  corner_indices a px py = corner_indices b px py /\
  forall ix iy, corner_indices a px py = Done (ix, iy) ->
                (ix < 0 \/ ix < monitorsNum a) /\ (iy < 0 \/ iy < monitorsNum a).
Proof.
  unfold corner_indices, get_monitor_id_by_logical_point,
    get_monitor_id_by_logical_x, get_monitor_id_by_logical_y.
  rewrite <- !lookup_same_view. split; [reflexivity|].
  intros ix iy Hrun.
  apply obind_Done in Hrun as (j & Hj & Hrun). apply lookup_range in Hj.
  destruct (0 <=? j).
  - injection Hrun as <- <-. lia.
  - apply obind_Done in Hrun as (jx & Hjx & Hrun). apply lookup_range in Hjx.
    apply obind_Done in Hrun as (jy & Hjy & Hrun). apply lookup_range in Hjy.
    injection Hrun as <- <-. lia.
Qed.

Lemma convert_same_view (r : RECT) :
  convert_logical_rect_to_physical a r = convert_logical_rect_to_physical b r.
Proof.
  unfold convert_logical_rect_to_physical.
  destruct (corner_indices_same_view (Rect.left r) (Rect.top r)) as [<- Hi].
  destruct (corner_indices a (Rect.left r) (Rect.top r)) as [[ix iy]|u];
    cbn; [|reflexivity].
  destruct (Hi ix iy eq_refl) as [Hix Hiy].
  rewrite <- LOGICAL_TO_PHYSICAL_X_same_view by exact Hix.
  destruct (LOGICAL_TO_PHYSICAL_X a (Rect.left r) ix) as [l|u]; cbn; [|reflexivity].
  rewrite <- LOGICAL_TO_PHYSICAL_Y_same_view by exact Hiy.
  destruct (LOGICAL_TO_PHYSICAL_Y a (Rect.top r) iy) as [t|u]; cbn; [|reflexivity].
  destruct (corner_indices_same_view (int32 (Rect.right r - 1))
              (int32 (Rect.bottom r - 1))) as [<- Hj].
  destruct (corner_indices a (int32 (Rect.right r - 1)) (int32 (Rect.bottom r - 1)))
    as [[jx jy]|u]; cbn; [|reflexivity].
  destruct (Hj jx jy eq_refl) as [Hjx Hjy].
  rewrite <- LOGICAL_TO_PHYSICAL_X_same_view by exact Hjx.
  destruct (LOGICAL_TO_PHYSICAL_X a (Rect.right r) jx) as [rr|u]; cbn; [|reflexivity].
  rewrite <- LOGICAL_TO_PHYSICAL_Y_same_view by exact Hjy.
  reflexivity.
Qed.

Lemma virtual_bounds_same_view (env : open_env) (wnd : Z) :
  virtual_bounds env a wnd = virtual_bounds env b wnd.
Proof.
  unfold virtual_bounds. destruct (nonzero wnd); [|apply convert_same_view].
  unfold get_monitor_id_by_logical_rectangle, get_monitor_id_by_logical_point.
  rewrite <- lookup_same_view.
  match goal with |- context [scan_monitors ?h a 0 ?n] =>
    pose proof (lookup_range h) as Hrange;
    destruct (scan_monitors h a 0 n) as [ind|u]; cbn; [|reflexivity]
  end.
  specialize (Hrange ind eq_refl).
  rewrite <- !LOGICAL_TO_PHYSICAL_X_same_view, <- !LOGICAL_TO_PHYSICAL_Y_same_view
    by exact Hrange.
  reflexivity.
Qed.

Lemma monitor_enum_same_view (d : display) :
  match monitor_enum a d, monitor_enum b d with
  | Done a', Done b' => same_view a' b'
  | Undefined u, Undefined v => u = v
  | _, _ => False
  end.
Proof.
  destruct Hview as (Hlen & Hnum & Hrc & Hslots).
  unfold monitor_enum, monitor_store. rewrite <- Hnum, <- Hrc.
  destruct ((0 <=? monitorsNum a) && (monitorsNum a <? MY_MAX_MONITORS)) eqn:Hin;
    cbn; [|reflexivity].
  rewrite int32_small by (unfold in_int32, INT_MIN, INT_MAX, MY_MAX_MONITORS in *; lia).
  repeat split; cbn.
  - now rewrite !length_insert.
  - intros i Hi.
    destruct (decide (i = Z.to_nat (monitorsNum a))) as [-> | Hne].
    + destruct (decide (Z.to_nat (monitorsNum a) < length (monitors a))%nat) as [Hlt | Hge].
      * rewrite !list_lookup_insert_eq by (rewrite <- ?Hlen; exact Hlt). reflexivity.
      * rewrite !list_insert_ge by (rewrite <- ?Hlen; lia).
        rewrite !(proj2 (lookup_ge_None _ _)) by (rewrite <- ?Hlen; lia). reflexivity.
    + rewrite !list_lookup_insert_ne by congruence. apply Hslots. lia.
Qed.

End SameView.

Lemma EnumDisplayMonitors_same_view (ds : list display) :
  forall a b : registry,
    same_view a b ->
    match EnumDisplayMonitors ds a, EnumDisplayMonitors ds b with
    | Done a', Done b' => same_view a' b'
    | Undefined u, Undefined v => u = v
    | _, _ => False
    end.
Proof.
  induction ds as [|d ds IH]; intros a b Hview; cbn [EnumDisplayMonitors].
  - exact Hview.
  - pose proof (monitor_enum_same_view a b Hview d) as Hstep.
    destruct (monitor_enum a d) as [a'|u], (monitor_enum b d) as [b'|v];
      cbn; try contradiction; [|exact Hstep].
    apply IH, Hstep.
Qed.

Lemma measure_target_rebuilds (env : open_env) (wnd : Z)
    (rg1 rg2 : registry) (cs : list os_call) :
  length (monitors rg1) = length (monitors rg2) ->
  related same_view (measure_target env wnd (mkProcess rg1 cs))
                    (measure_target env wnd (mkProcess rg2 cs)).
Proof.
  intros Hlen.
  unfold measure_target, get_registry, put_registry, lift, mbind, M_bind. cbn.
  assert (Hstart : same_view (mkRegistry (monitors rg1) 0 SetRectEmpty)
                             (mkRegistry (monitors rg2) 0 SetRectEmpty)).
  { repeat split; cbn; [exact Hlen | lia]. }
  pose proof (EnumDisplayMonitors_same_view (displays env) _ _ Hstart) as Henum.
  destruct (EnumDisplayMonitors (displays env) (mkRegistry (monitors rg1) 0 SetRectEmpty))
    as [a|u],
    (EnumDisplayMonitors (displays env) (mkRegistry (monitors rg2) 0 SetRectEmpty))
    as [b|v]; cbn; try contradiction; [|exact Henum].
  rewrite <- (virtual_bounds_same_view a b Henum).
  destruct (virtual_bounds env a wnd); cbn; auto.
Qed.

(** The registry between two sessions: whatever an earlier session left
    in the statics, an open returns the same value, leaves the same session
    and makes the same calls. *)
Lemma read_header_ignores_old_registry (env : open_env) (s1 : AVFormatContext)
    (rg1 rg2 : registry) (cs : list os_call) :
  length (monitors rg1) = length (monitors rg2) ->
  related (fun _ _ => True)
          (gdigrab_read_header env s1 (mkProcess rg1 cs))
          (gdigrab_read_header env s1 (mkProcess rg2 cs)).
Proof.
  intros Hlen. unfold gdigrab_read_header.
  pose proof (blind_open_target env s1 (fun x y => x = rg1 /\ y = rg2) rg1 rg2 cs
                (conj eq_refl eq_refl)) as Htarget.
  unfold mbind at 1 3. unfold M_bind at 1 3. unfold related in Htarget.
  destruct (open_target env s1 (mkProcess rg1 cs)) as [[t1 [r1 c1]]|u1],
           (open_target env s1 (mkProcess rg2 cs)) as [[t2 [r2 c2]]|u2];
    try contradiction; [|exact Htarget].
  cbn in Htarget. destruct Htarget as (-> & -> & -> & ->).
  destruct t2 as [[ret | [[wnd name] src]] s1t].
  - apply blind_open_error. exact I.
  - pose proof (measure_target_rebuilds env wnd rg1 rg2 c2 Hlen) as Hmeasure.
    unfold mbind, M_bind, related in *.
    destruct (measure_target env wnd (mkProcess rg1 c2)) as [[v1 [q1 d1]]|w1],
             (measure_target env wnd (mkProcess rg2 c2)) as [[v2 [q2 d2]]|w2];
      try contradiction; [|exact Hmeasure].
    cbn in Hmeasure. destruct Hmeasure as (-> & -> & _).
    apply (blind_open_capture env s1t wnd name src v2 (fun _ _ => True) q1 q2 d2 I).
Qed.

(** C7, as the code has it: the monitor registry is a table of the process,
    shared by its sessions.  Every open resets and rebuilds it before
    reading it, so what an open returns, the session it leaves and the calls
    it makes do not depend on what an earlier session left in the table;
    reading packets and closing never touch the table. *)
Theorem open_rebuilds_the_shared_registry (env : open_env) (s1 : AVFormatContext)
    (rg1 rg2 : registry) (cs : list os_call) :
  length (monitors rg1) = length (monitors rg2) ->
  match gdigrab_read_header env s1 (mkProcess rg1 cs),
        gdigrab_read_header env s1 (mkProcess rg2 cs) with
  | Done (r1, s1', p1), Done (r2, s2', p2) =>
      r1 = r2 /\ s1' = s2' /\ calls p1 = calls p2
  | Undefined u1, Undefined u2 => u1 = u2
  | _, _ => False
  end /\
  (forall renv s,
     match gdigrab_read_packet renv s (mkProcess rg1 cs) with
     | Done (_, p') => reg p' = rg1
     | Undefined _ => True
     end) /\
  (forall s,
     match gdigrab_read_close s (mkProcess rg1 cs) with
     | Done (_, p') => reg p' = rg1
     | Undefined _ => True
     end).
Proof.
  intros Hlen. split; [|split].
  - pose proof (read_header_ignores_old_registry env s1 rg1 rg2 cs Hlen) as Hrel.
    unfold related in Hrel.
    destruct (gdigrab_read_header env s1 (mkProcess rg1 cs)) as [[[r1 s1'] p1]|u1],
             (gdigrab_read_header env s1 (mkProcess rg2 cs)) as [[[r2 s2'] p2]|u2];
      try contradiction; [|exact Hrel].
    destruct Hrel as (Heq & Hcalls & _). injection Heq as -> ->. auto.
  - intros renv s. apply (blind_frame (gdigrab_read_packet renv s)), blind_read_packet.
  - intros s. apply (blind_frame (gdigrab_read_close s)), blind_read_close.
Qed.

(** C7, as the specification words it, fails: a session opens on two
    monitors, then another session of the process opens once the second
    monitor is gone, and the lookup of a point of the second monitor in the
    registry changes from 1 to -1. *)
Lemma registry_is_not_session_local : ~ registry_session_local.
Proof.
  intros Hlocal.
  pose (envA := Sample.desktop Sample.two_monitors 1600 600 32 Sample.bmp_4x2 5000000).
  pose (envB := Sample.desktop [Sample.monitor_800x600 1] 800 600 32 Sample.bmp_4x2 6000000).
  pose (s := Sample.request "desktop" 0 Sample.g_4x2).
  destruct (gdigrab_read_header envA s Sample.fresh) as [[[rA sA'] pA]|] eqn:HA;
    [|vm_compute in HA; discriminate].
  destruct (gdigrab_read_header envB s pA) as [[[rB sB'] pB]|] eqn:HB;
    [|vm_compute in HA; injection HA as <- <- <-; vm_compute in HB; discriminate].
  specialize (Hlocal envA envB s s sA' sB' Sample.fresh pA pB rA rB 900 100 HA HB).
  vm_compute in HA. injection HA as <- <- <-.
  vm_compute in HB. injection HB as <- <- <-.
  vm_compute in Hlocal. discriminate.
Qed.

Lemma open_rebuilds_the_shared_registry_witness :
  match gdigrab_read_header
          (Sample.desktop [Sample.monitor_800x600 1] 800 600 32 Sample.bmp_4x2 5000000)
          (Sample.request "desktop" 0 Sample.g_4x2)
          (mkProcess initial_registry []),
        gdigrab_read_header
          (Sample.desktop [Sample.monitor_800x600 1] 800 600 32 Sample.bmp_4x2 5000000)
          (Sample.request "desktop" 0 Sample.g_4x2)
          (mkProcess Sample.registry_800x600 []) with
  | Done (r1, s1', p1), Done (r2, s2', p2) =>
      r1 = r2 /\ s1' = s2' /\ calls p1 = calls p2
  | Undefined u1, Undefined u2 => u1 = u2
  | _, _ => False
  end.
Proof.
  apply (proj1 (open_rebuilds_the_shared_registry
           (Sample.desktop [Sample.monitor_800x600 1] 800 600 32 Sample.bmp_4x2 5000000)
           (Sample.request "desktop" 0 Sample.g_4x2)
           initial_registry Sample.registry_800x600 [] eq_refl)).
Defined.

Lemma enumeration_in_bounds_up_to_four_monitors_witness :
  EnumDisplayMonitors Sample.five_monitors
    (mkRegistry (monitors initial_registry) 0 SetRectEmpty)
  = Undefined (OutOfBounds MY_MAX_MONITORS).
Proof.
  apply (proj1 (proj2 (enumeration_in_bounds_up_to_four_monitors
                         Sample.five_monitors initial_registry))).
  vm_compute. reflexivity.
Defined.

Lemma registry_800x600_ok : registry_ok Sample.registry_800x600.
Proof.
  split; [reflexivity|]. split; [vm_compute; split; discriminate|].
  intros [|i] m Hm Hi; [|cbn in Hi; lia].
  injection Hm as <-. cbn. lia.
Qed.

Lemma registry_800x600_positive : positive_resolution Sample.registry_800x600.
Proof.
  intros [|i] m Hm Hi; [|cbn in Hi; lia].
  injection Hm as <-. cbn. lia.
Qed.

Lemma conversion_total_only_when_corners_resolve_witness :
  (exists r', convert_logical_rect_to_physical Sample.registry_800x600
                (mkRECT 0 0 800 600) = Done r') /\
  convert_logical_rect_to_physical Sample.registry_800x600 (mkRECT 0 0 1000 600)
  = Undefined (OutOfBounds (-1)).
Proof.
  split.
  - apply (proj1 (conversion_total_only_when_corners_resolve Sample.registry_800x600
                    (mkRECT 0 0 800 600) registry_800x600_ok)).
    + exact registry_800x600_positive.
    + reflexivity.
  - apply (proj1 (proj2 (conversion_total_only_when_corners_resolve
                           Sample.registry_800x600 (mkRECT 0 0 1000 600)
                           registry_800x600_ok))).
    + exact registry_800x600_positive.
    + reflexivity.
Defined.

(** A monitor whose device reports a logical resolution of -1: the
    product [65536 * 32768] wraps to [INT_MIN] and the division by -1
    overflows. *)
Example scaling_overflows_at_resolution_minus_one :
  LOGICAL_TO_PHYSICAL_X
    (mkRegistry
       (mkMONITOR (mkRES (-1) 600) (mkRES 32768 600) (mkRECT 0 0 100000 600)
        :: replicate 3 zero_MONITOR) 1 (mkRECT 0 0 100000 600))
    65536 0
  = Undefined DivisionOverflow.
Proof. reflexivity. Qed.

(** ** Closing *)

Ltac run_in H :=
  unfold mbind, M_bind, mret, M_ret, call, av_log, when, lift, get_registry,
    put_registry in H; cbn in H.

Ltac run :=
  unfold mbind, M_bind, mret, M_ret, call, av_log, when, lift, get_registry,
    put_registry; cbn.

(** A close returns 0 and clears the handle of the region window only:
    the device contexts and the bitmap stay in the session as they were. *)
Lemma close_keeps_the_released_handles (s1 : AVFormatContext) (p : process) :
  exists s2 p2,
    gdigrab_read_close s1 p = Done (0, s2, p2) /\
    source_hdc (priv_data s2) = source_hdc (priv_data s1) /\
    dest_hdc (priv_data s2) = dest_hdc (priv_data s1) /\
    hbmp (priv_data s2) = hbmp (priv_data s1) /\
    hwnd (priv_data s2) = hwnd (priv_data s1) /\
    show_region (priv_data s2) = show_region (priv_data s1) /\
    region_hwnd (priv_data s2) =
      (if nonzero (show_region (priv_data s1)) then 0
       else region_hwnd (priv_data s1)).
Proof.
  unfold gdigrab_read_close, gdigrab_region_wnd_destroy. run.
  destruct (nonzero (show_region (priv_data s1))); cbn;
    [destruct (nonzero (region_hwnd (priv_data s1))); cbn|];
    destruct (nonzero (source_hdc (priv_data s1))),
             (nonzero (dest_hdc (priv_data s1))),
             (nonzero (hbmp (priv_data s1))); cbn;
    eexists _, _; repeat split; reflexivity.
Qed.

(** C3, on the code: a session opened on the desktop and closed twice.
    Both closes return 0, but the second makes the four release calls of
    the first again, on handles that are no longer live; the first close
    itself deletes the source context it has just released.  After an open
    that fails at the region window, the session holds the handles the
    error path has released, and a close releases them again. *)
Theorem second_close_releases_the_handles_again :
  match Sample.opened_4x2 0 with
  | Done (_, s1, p) =>
      match gdigrab_read_close s1 p with
      | Done (r1, s2, p2) =>
          match gdigrab_read_close s2 p2 with
          | Done (r2, s3, p3) =>
              r1 = 0 /\ r2 = 0 /\
              calls_of (gdigrab_read_close s1) p =
                [CallReleaseDC 0 101; CallDeleteDC 102; CallDeleteObject 103;
                 CallDeleteDC 101] /\
              calls_of (gdigrab_read_close s2) p2 =
                [CallReleaseDC 0 101; CallDeleteDC 102; CallDeleteObject 103;
                 CallDeleteDC 101] /\
              invalid_releases ∅ (calls p2) = [CallDeleteDC 101] /\
              invalid_releases ∅ (calls p3) =
                [CallDeleteDC 101; CallReleaseDC 0 101; CallDeleteDC 102;
                 CallDeleteObject 103; CallDeleteDC 101]
          | Undefined _ => False
          end
      | Undefined _ => False
      end
  | Undefined _ => False
  end /\
  match Sample.failed_open with
  | Done (r, s1, p) =>
      r = AVERROR EIO /\
      source_hdc (priv_data s1) = 101 /\
      match gdigrab_read_close s1 p with
      | Done (r1, s2, p2) =>
          r1 = 0 /\
          calls_of (gdigrab_read_close s1) p =
            [CallReleaseDC 0 101; CallDeleteDC 102; CallDeleteObject 103;
             CallDeleteDC 101] /\
          invalid_releases ∅ (calls p2) =
            [CallDeleteDC 101; CallReleaseDC 0 101; CallDeleteDC 102;
             CallDeleteObject 103; CallDeleteDC 101]
      | Undefined _ => False
      end
  | Undefined _ => False
  end.
Proof. vm_compute. repeat split; reflexivity. Qed.

(** ** Opening *)

Lemma calls_of_app {A} (c : M A) (p : process) (a : A) (p' : process)
    (l : list os_call) :
  c p = Done (a, p') -> calls p' = calls p ++ l -> calls_of c p = l.
Proof.
  intros Hrun Hcalls. unfold calls_of. rewrite Hrun, Hcalls.
  now rewrite drop_app_length.
Qed.

(** When [open_target] hands out a target, its device context is not null,
    the calls it made create nothing for the back buffer, and the session
    is as before but for [show_region]. *)
Lemma open_target_resolved (env : open_env) (s1 : AVFormatContext) (p : process)
    (wnd : Z) (name : option string) (src : Z) (s1t : AVFormatContext) (p1 : process) :
  open_target env s1 p = Done (inr (wnd, name, src), s1t, p1) ->
  src <> 0 /\ reg p1 = reg p /\
  (exists l, calls p1 = calls p ++ l /\ existsb allocates_buffer l = false) /\
  buffer (priv_data s1t) = buffer (priv_data s1) /\
  hbmp (priv_data s1t) = hbmp (priv_data s1) /\
  dest_hdc (priv_data s1t) = dest_hdc (priv_data s1) /\
  width (priv_data s1t) = width (priv_data s1) /\
  height (priv_data s1t) = height (priv_data s1) /\
  offset_x (priv_data s1t) = offset_x (priv_data s1) /\
  offset_y (priv_data s1t) = offset_y (priv_data s1) /\
  framerate (priv_data s1t) = framerate (priv_data s1).
Proof.
  unfold open_target. run. intros Hrun.
  destruct (window_name (url s1)) as [n|].
  - destruct (FindWindow env n =? 0); cbn in Hrun; [discriminate|].
    destruct (nonzero (show_region (priv_data s1))); cbn in Hrun;
      destruct (Z.eqb_spec (GetDC env (FindWindow env n)) 0); cbn in Hrun;
      try discriminate; injection Hrun as <- <- <- <- <-;
      (split; [assumption|]); (split; [reflexivity|]); cbn;
      (split; [eexists; split; [rewrite <- ?app_assoc; reflexivity | reflexivity]|]);
      repeat split; reflexivity.
  - destruct (String.eqb (url s1) "desktop"); cbn in Hrun; [|discriminate].
    destruct (Z.eqb_spec (GetDC env 0) 0); cbn in Hrun; [discriminate|].
    injection Hrun as <- <- <- <- <-.
    (split; [assumption|]); (split; [reflexivity|]); cbn.
    (split; [eexists; split; [reflexivity | reflexivity]|]).
    repeat split; reflexivity.
Qed.

Lemma measure_target_calls (env : open_env) (wnd : Z) (p1 : process)
    (virt : RECT) (p2 : process) :
  measure_target env wnd p1 = Done (virt, p2) -> calls p2 = calls p1.
Proof.
  unfold measure_target. run. intros Hrun.
  destruct (EnumDisplayMonitors _ _) as [rg|]; cbn in Hrun; [|discriminate].
  destruct (virtual_bounds env rg wnd); cbn in Hrun; [|discriminate].
  now injection Hrun as <- <-.
Qed.

(** What the two tests of the open catch.  Once the target and its bounds
    are known, a clip rectangle that, as computed in [int] arithmetic, is
    not inside the bounds, or whose width or height so computed is not
    strictly positive, or a bit depth that is not a multiple of 8, makes
    the open fail: it logs the invalid area, returns [AVERROR(EIO)] (the
    only error the function has for it) and has made no call that creates
    the back buffer or its device context; the buffer, bitmap and
    destination context of the session are the ones it had before the
    open. *)
Theorem invalid_area_fails_before_any_allocation
    (env : open_env) (s1 : AVFormatContext) (p : process)
    (wnd : Z) (name : option string) (src : Z) (s1t : AVFormatContext)
    (p1 : process) (virt : RECT) (p2 : process) :
  open_target env s1 p = Done (inr (wnd, name, src), s1t, p1) ->
  measure_target env wnd p1 = Done (virt, p2) ->
  let clip := resolve_clip_rect (priv_data s1t) virt in
  ~ (Rect.left virt <= Rect.left clip /\ Rect.top virt <= Rect.top clip /\
     Rect.right clip <= Rect.right virt /\ Rect.bottom clip <= Rect.bottom virt) \/
  int32 (Rect.right clip - Rect.left clip) <= 0 \/
  int32 (Rect.bottom clip - Rect.top clip) <= 0 \/
  Z.rem (BITSPIXEL env) 8 <> 0 ->
  exists p3,
    gdigrab_read_header env s1 p = Done (AVERROR EIO, s1t, p3) /\
    (In (CallLog (CaptureAreaOutside clip virt))
        (calls_of (gdigrab_read_header env s1) p) \/
     In (CallLog InvalidProperties) (calls_of (gdigrab_read_header env s1) p)) /\
    existsb allocates_buffer (calls_of (gdigrab_read_header env s1) p) = false /\
    buffer (priv_data s1t) = buffer (priv_data s1) /\
    hbmp (priv_data s1t) = hbmp (priv_data s1) /\
    dest_hdc (priv_data s1t) = dest_hdc (priv_data s1).
Proof.
  intros Htarget Hmeasure clip Hbad.
  destruct (open_target_resolved _ _ _ _ _ _ _ _ Htarget)
    as (Hsrc & _ & (l & Hcalls1 & Hl) & Hbuf & Hbmp & Hdst & _).
  pose proof (measure_target_calls _ _ _ _ _ Hmeasure) as Hcalls2.
  assert (Hnz : nonzero src = true)
    by (unfold nonzero; destruct (Z.eqb_spec src 0); [contradiction | reflexivity]).
  assert (Hrun : exists logs,
             gdigrab_read_header env s1 p =
               Done (AVERROR EIO, s1t,
                     mkProcess (reg p2)
                       (calls p ++ l ++ logs ++ [CallReleaseDC wnd src; CallDeleteDC src])) /\
             existsb allocates_buffer logs = false /\
             (In (CallLog (CaptureAreaOutside clip virt)) logs \/
              In (CallLog InvalidProperties) logs)).
  { unfold gdigrab_read_header. unfold mbind at 1, M_bind at 1. rewrite Htarget.
    unfold mbind at 1, M_bind at 1. rewrite Hmeasure.
    unfold open_capture. fold clip.
    destruct (extends_outside clip virt) eqn:Hout.
    - exists [CallLog (CaptureAreaOutside clip virt)].
      unfold open_error. run. rewrite Hnz. cbn.
      rewrite Hcalls2, Hcalls1, <- !app_assoc. cbn.
      split; [reflexivity|]. split; [reflexivity|]. left. now left.
    - assert (Hprops : invalid_properties clip (BITSPIXEL env) = true).
      { unfold extends_outside in Hout. unfold invalid_properties, nonzero.
        destruct (Z.eqb_spec (Z.rem (BITSPIXEL env) 8) 0); lia. }
      eexists [CallLog _; CallLog InvalidProperties].
      unfold open_error. run. rewrite Hprops. cbn. rewrite Hnz. cbn.
      rewrite Hcalls2, Hcalls1, <- !app_assoc. cbn.
      split; [reflexivity|]. split; [reflexivity|]. right. right. now left. }
  destruct Hrun as (logs & Hrun & Hlogs & Hlogged).
  eexists. split; [exact Hrun|].
  rewrite (calls_of_app _ _ _ _ (l ++ logs ++ [CallReleaseDC wnd src; CallDeleteDC src])
             Hrun eq_refl).
  split; [|split; [|auto]].
  - destruct Hlogged as [Hin | Hin]; [left | right];
      apply in_or_app; right; apply in_or_app; left; exact Hin.
  - rewrite !existsb_app, Hl, Hlogs. reflexivity.
Qed.

Lemma invalid_area_fails_before_any_allocation_witness :
  exists p3,
    gdigrab_read_header
      (Sample.desktop [Sample.monitor_800x600 1] 800 600 32 Sample.bmp_4x2 5000000)
      (Sample.request "desktop" 0 Sample.g_900x50) Sample.fresh
    = Done (AVERROR EIO, Sample.request "desktop" 0 Sample.g_900x50, p3) /\
    existsb allocates_buffer
      (calls_of (gdigrab_read_header
                   (Sample.desktop [Sample.monitor_800x600 1] 800 600 32
                      Sample.bmp_4x2 5000000)
                   (Sample.request "desktop" 0 Sample.g_900x50)) Sample.fresh) = false /\
    buffer (priv_data (Sample.request "desktop" 0 Sample.g_900x50)) = 0.
Proof.
  destruct (invalid_area_fails_before_any_allocation
              (Sample.desktop [Sample.monitor_800x600 1] 800 600 32 Sample.bmp_4x2 5000000)
              (Sample.request "desktop" 0 Sample.g_900x50) Sample.fresh
              0 None 101 (Sample.request "desktop" 0 Sample.g_900x50)
              (mkProcess initial_registry [CallGetDC 0 101])
              (mkRECT 0 0 800 600)
              (mkProcess Sample.registry_800x600 [CallGetDC 0 101]))
    as (p3 & Hrun & _ & Hnone & Hbuf & _).
  - reflexivity.
  - reflexivity.
  - left. vm_compute. intros (_ & _ & Hright & _). apply Hright. reflexivity.
  - exists p3. split; [exact Hrun|]. split; [exact Hnone | reflexivity].
Defined.

(** C4, on the code: [video_size=2147483647x50] and [offset_x=1] on a
    desktop of 800x600.  The rectangle asked for ends at x = 2147483648,
    outside the bounds, but [width + offset_x] is computed as an [int] and
    wraps to [INT_MIN]: the test on the bounds passes, the width
    [INT_MIN - 1] wraps to [INT_MAX] and passes the test on the extents,
    and the open logs no invalid area, creates the destination context and
    the bitmap of the back buffer and returns 0.  Where the system refuses
    a bitmap of that width, the open fails on [CreateDIBSection], after the
    destination context was created, and not on the area. *)
Theorem overflowing_area_is_opened :
  virtual_bounds
    (Sample.desktop [Sample.monitor_800x600 1] 800 600 32 Sample.bmp_4x2 5000000)
    Sample.registry_800x600 0 = Done (mkRECT 0 0 800 600) /\
  offset_x Sample.g_wrapping + width Sample.g_wrapping = 2147483648 /\
  match gdigrab_read_header
          (Sample.desktop [Sample.monitor_800x600 1] 800 600 32 Sample.bmp_4x2 5000000)
          (Sample.request "desktop" 0 Sample.g_wrapping) Sample.fresh with
  | Done (ret, s1', p') =>
      ret = 0 /\
      clip_rect (priv_data s1') = mkRECT 1 0 INT_MIN 50 /\
      biWidth (bmi (priv_data s1')) = INT_MAX /\
      hbmp (priv_data s1') = 103 /\ buffer (priv_data s1') = 5000 /\
      calls p' =
        [CallGetDC 0 101; CallLog (CapturingDesktop INT_MAX 50 32 1 0);
         CallCreateCompatibleDC 101 102;
         CallCreateDIBSection 102 (bmi (priv_data s1')) 103 5000;
         CallSelectObject 102 103; CallNewStream] /\
      existsb allocates_buffer (calls p') = true
  | Undefined _ => False
  end /\
  match gdigrab_read_header (Sample.desktop_without_bitmap Sample.bmp_4x2)
          (Sample.request "desktop" 0 Sample.g_wrapping) Sample.fresh with
  | Done (ret, _, p') =>
      ret = AVERROR EIO /\
      calls p' =
        [CallGetDC 0 101; CallLog (CapturingDesktop INT_MAX 50 32 1 0);
         CallCreateCompatibleDC 101 102;
         CallCreateDIBSection 102
           (mkBIH 40 INT_MAX (-50) 1 32 0 0 0 0 0 0) 0 0;
         CallLog (Win32Error "Creating DIB Section");
         CallReleaseDC 0 101; CallDeleteDC 102; CallDeleteDC 101]
  | Undefined _ => False
  end.
Proof. vm_compute. repeat split; reflexivity. Qed.

(** A bit depth of 4 on a valid rectangle: the open logs the invalid
    properties and fails after the source context alone was acquired. *)
Example open_with_bit_depth_4 :
  match gdigrab_read_header
          (Sample.desktop [Sample.monitor_800x600 1] 800 600 4 Sample.bmp_4x2 5000000)
          (Sample.request "desktop" 0 Sample.g_4x2) Sample.fresh with
  | Done (r, s1', p') =>
      r = AVERROR EIO /\ s1' = Sample.request "desktop" 0 Sample.g_4x2 /\
      calls p' = [CallGetDC 0 101; CallLog (CapturingDesktop 4 2 4 0 0);
                  CallLog InvalidProperties; CallReleaseDC 0 101; CallDeleteDC 101]
  | Undefined _ => False
  end.
Proof. vm_compute. repeat split; reflexivity. Qed.

(** Whatever it returns, the creation of the region window changes no
    field of the session but [region_hwnd]. *)
Lemma region_wnd_init_fields (env : open_env) (g : gdigrab) (p : process)
    (failed : Z) (g' : gdigrab) (p' : process) :
  gdigrab_region_wnd_init env g p = Done (failed, g', p') ->
  g' = set_region_hwnd g (region_hwnd g').
Proof.
  unfold gdigrab_region_wnd_init. run. intros Hrun.
  destruct (CreateWindowEx env =? 0); cbn in Hrun;
    [injection Hrun as <- <- <-; destruct g; reflexivity|].
  destruct (SetWindowRgn env); cbn in Hrun;
    [injection Hrun as <- <- <-; destruct g; reflexivity|].
  repeat match type of Hrun with
         | context [if ?b then _ else _] => destruct b; cbn in Hrun
         end;
    injection Hrun as <- <- <-; destruct g; reflexivity.
Qed.

(** What a successful [open_capture] leaves in the session. *)
Lemma open_capture_success (env : open_env) (s1 : AVFormatContext)
    (wnd : Z) (name : option string) (src : Z) (virt : RECT)
    (p : process) (s1' : AVFormatContext) (p' : process) :
  open_capture env s1 wnd name src virt p = Done (0, s1', p') ->
  let g := priv_data s1 in
  let g' := priv_data s1' in
  extends_outside (resolve_clip_rect g virt) virt = false /\
  invalid_properties (resolve_clip_rect g virt) (BITSPIXEL env) = false /\
  clip_rect g' = resolve_clip_rect g virt /\
  header_size g' = dib_header_size (BITSPIXEL env) /\
  frame_size g' = dib_frame_size (GetObject env) /\
  time_base g' = av_inv_q (framerate g) /\
  biBitCount (bmi g') = BITSPIXEL env mod 2 ^ 16 /\
  source_hdc g' = src /\ dest_hdc g' = CreateCompatibleDC env /\
  hbmp g' = (CreateDIBSection env).1 /\ hwnd g' = wnd.
Proof.
  intros Hrun g g'. unfold open_capture, open_error in Hrun.
  destruct (extends_outside (resolve_clip_rect g virt) virt) eqn:Hout.
  { fold g in Hrun. rewrite Hout in Hrun. run_in Hrun.
    repeat match type of Hrun with
           | context [if ?b then _ else _] => destruct b; cbn in Hrun
           end; discriminate. }
  destruct (invalid_properties (resolve_clip_rect g virt) (BITSPIXEL env)) eqn:Hprops.
  { fold g in Hrun. rewrite Hout in Hrun. run_in Hrun. fold g in Hrun.
    rewrite Hprops in Hrun. cbn in Hrun.
    repeat match type of Hrun with
           | context [if ?b then _ else _] => destruct b; cbn in Hrun
           end; discriminate. }
  fold g in Hrun. rewrite Hout in Hrun. run_in Hrun. fold g in Hrun.
  rewrite Hprops in Hrun. cbn in Hrun.
  destruct (CreateCompatibleDC env =? 0); cbn in Hrun.
  { repeat match type of Hrun with
           | context [if ?b then _ else _] => destruct b; cbn in Hrun
           end; discriminate. }
  destruct ((CreateDIBSection env).1 =? 0); cbn in Hrun.
  { repeat match type of Hrun with
           | context [if ?b then _ else _] => destruct b; cbn in Hrun
           end; discriminate. }
  destruct (SelectObject env); cbn in Hrun.
  2:{ repeat match type of Hrun with
             | context [if ?b then _ else _] => destruct b; cbn in Hrun
             end; discriminate. }
  destruct (avformat_new_stream env); cbn in Hrun.
  2:{ repeat match type of Hrun with
             | context [if ?b then _ else _] => destruct b; cbn in Hrun
             end; discriminate. }
  destruct (nonzero (show_region g)) eqn:Hregion; cbn in Hrun.
  - match type of Hrun with
    | context [gdigrab_region_wnd_init ?e ?g0 ?p0] =>
        destruct (gdigrab_region_wnd_init e g0 p0) as [[[failed gr] pr]|] eqn:Hinit;
          [apply region_wnd_init_fields in Hinit | discriminate]
    end.
    cbn in Hrun. destruct (nonzero failed); cbn in Hrun.
    + repeat match type of Hrun with
             | context [if ?b then _ else _] => destruct b; cbn in Hrun
             end; discriminate.
    + injection Hrun as <- <-. subst g'. cbn. rewrite Hinit. cbn.
      repeat split; reflexivity.
  - injection Hrun as <- <-. subst g'. cbn. repeat split; reflexivity.
Qed.





(** The same request on a monitor without scaling: the same rectangle. *)
Example raw_pixels_at_scale_one :
  match gdigrab_read_header
          (Sample.desktop [Sample.monitor_800x600 1] 800 600 32 Sample.bmp_100x50 5000000)
          (Sample.request "desktop" 0 Sample.g_100x50) Sample.fresh with
  | Done (r, s1', _) => r = 0 /\ clip_rect (priv_data s1') = mkRECT 10 20 110 70
  | Undefined _ => False
  end.
Proof. vm_compute. split; reflexivity. Qed.

(** ** The cursor overlay *)

Lemma CURSOR_ERROR_run (what : string) (g : gdigrab) (p : process) :
  CURSOR_ERROR what g p =
    Done (if cursor_error_printed g =? 0 then set_cursor_error_printed g 1 else g,
          mkProcess (reg p)
            (calls p ++ if cursor_error_printed g =? 0
                        then [CallLog (Win32Error what)] else [])).
Proof.
  unfold CURSOR_ERROR. run. destruct (cursor_error_printed g =? 0); cbn.
  - reflexivity.
  - rewrite app_nil_r. now destruct p.
Qed.

Lemma icon_cleanup_run (mask color icon : Z) (p : process) :
  icon_cleanup mask color icon p =
    Done (tt, mkProcess (reg p)
                (calls p ++
                 (if nonzero mask then [CallDeleteObject mask] else []) ++
                 (if nonzero color then [CallDeleteObject color] else []) ++
                 (if nonzero icon then [CallDestroyCursor icon] else []))).
Proof.
  unfold icon_cleanup. run.
  destruct (nonzero mask), (nonzero color), (nonzero icon); cbn;
    rewrite <- ?app_assoc, ?app_nil_r; cbn; try reflexivity; now destruct p.
Qed.

#[local] Arguments icon_cleanup : simpl never.
#[local] Arguments CURSOR_ERROR : simpl never.

Lemma set_cursor_error_printed_same (g : gdigrab) :
  g = set_cursor_error_printed g (cursor_error_printed g).
Proof. now destruct g. Qed.

Ltac no_draw Hin :=
  repeat (apply in_app_or in Hin as [Hin | Hin]);
  repeat match type of Hin with
         | In _ (if ?b then _ else _) => destruct b
         end;
  cbn in Hin; repeat destruct Hin as [Hin | Hin]; try discriminate Hin;
  try contradiction.

(** The calls of [paint_mouse_pointer]: it changes nothing in the session
    but [cursor_error_printed], and a [DrawIcon] among its calls is made on
    the destination context, at the position computed from the cursor,
    which passed the test on the frame, the pointer being shown. *)
Lemma paint_mouse_pointer_calls (env : cursor_env) (g : gdigrab) (p : process)
    (g' : gdigrab) (p' : process) :
  paint_mouse_pointer env g p = Done (g', p') ->
  g' = set_cursor_error_printed g (cursor_error_printed g') /\
  reg p' = reg p /\
  exists l,
    calls p' = calls p ++ l /\
    forall dc px py icon,
      In (CallDrawIcon dc px py icon) l ->
      GetCursorInfo env = true /\
      ci_flags env = CURSOR_SHOWING /\
      dc = dest_hdc g /\
      within_frame (clip_rect g) (px, py) = true /\
      exists xHotspot yHotspot mask color,
        GetIconInfo env icon = Some (xHotspot, yHotspot, mask, color) /\
        cursor_pos env (clip_rect g)
          (if nonzero (hwnd g) then cur_GetWindowRect env else None)
          xHotspot yHotspot = Done (px, py).
Proof.
  unfold paint_mouse_pointer. intros Hrun.
  destruct (GetCursorInfo env) eqn:Hinfo.
  2:{ rewrite CURSOR_ERROR_run in Hrun. injection Hrun as <- <-. cbn.
      split; [destruct (cursor_error_printed g =? 0);
               [reflexivity | apply set_cursor_error_printed_same]|].
      split; [reflexivity|]. eexists. split; [reflexivity|].
      intros dc px py icon Hin. no_draw Hin. }
  run_in Hrun.
  destruct (Z.eqb_spec (ci_flags env) CURSOR_SHOWING) as [Hshow | Hhidden]; cbn in Hrun.
  2:{ injection Hrun as <- <-. cbn.
      split; [apply set_cursor_error_printed_same|]. split; [reflexivity|].
      eexists. split; [reflexivity|]. intros dc px py icon Hin. no_draw Hin. }
  match type of Hrun with
  | match (if ?b then _ else _) _ with _ => _ end = _ =>
      destruct b; cbn in Hrun
  end.
  all: match type of Hrun with
       | context [GetIconInfo ?e ?i] =>
           destruct (GetIconInfo e i) as [[[[xh yh] mask] color]|] eqn:Hicon;
             cbn in Hrun
       end.
  all: try (rewrite CURSOR_ERROR_run in Hrun; cbn in Hrun;
            rewrite icon_cleanup_run in Hrun; cbn in Hrun;
            injection Hrun as <- <-; cbn;
            (split; [match goal with
                     | |- context [cursor_error_printed ?g0 =? 0] =>
                         destruct (cursor_error_printed g0 =? 0)
                     end;
                     [reflexivity | apply set_cursor_error_printed_same]|]);
            (split; [reflexivity|]);
            rewrite <- ?app_assoc; eexists; (split; [reflexivity|]);
            intros dc px py icon Hin; no_draw Hin).
  all: match type of Hrun with
       | context [nonzero (hwnd ?g0) && ?b] =>
           destruct (nonzero (hwnd g0) && b); cbn in Hrun
       end.
  all: try (rewrite CURSOR_ERROR_run in Hrun; cbn in Hrun;
            rewrite icon_cleanup_run in Hrun; cbn in Hrun;
            injection Hrun as <- <-; cbn;
            (split; [match goal with
                     | |- context [cursor_error_printed ?g0 =? 0] =>
                         destruct (cursor_error_printed g0 =? 0)
                     end;
                     [reflexivity | apply set_cursor_error_printed_same]|]);
            (split; [reflexivity|]);
            rewrite <- ?app_assoc; eexists; (split; [reflexivity|]);
            intros dc px py icon Hin; no_draw Hin).
  all: match type of Hrun with
       | context [cursor_pos ?e ?c ?w ?a ?b] =>
           destruct (cursor_pos e c w a b) as [[px0 py0]|] eqn:Hpos; cbn in Hrun;
             [|discriminate]
       end.
  all: match type of Hrun with
       | context [within_frame ?c ?pos] =>
           destruct (within_frame c pos) eqn:Hin_frame; cbn in Hrun
       end.
  all: try match type of Hrun with
           | context [DrawIcon ?e] => destruct (DrawIcon e); cbn in Hrun
           end.
  all: try rewrite CURSOR_ERROR_run in Hrun; cbn in Hrun;
       rewrite icon_cleanup_run in Hrun; cbn in Hrun;
       injection Hrun as <- <-; cbn;
       (split; [try match goal with
                    | |- context [cursor_error_printed ?g0 =? 0] =>
                        destruct (cursor_error_printed g0 =? 0)
                    end;
                 first [reflexivity | apply set_cursor_error_printed_same]|]);
       (split; [reflexivity|]);
       rewrite <- ?app_assoc; eexists; (split; [reflexivity|]);
       intros dc px py icon Hin; no_draw Hin.
  all: injection Hin as <- <- <- <-; repeat split; eauto 10.
Qed.

(** What the test of the overlay lets through.  The overlay calls
    [DrawIcon] only when the pointer is in the showing state and the
    position computed for its top-left corner, from the hotspot of the icon
    and the rectangle of the window when there is one, passes the test
    [0 <= x <= width] and [0 <= y <= height], both ends included; it then
    draws at that position on the destination context.  When the pointer is
    not showing, no call of the overlay is a [DrawIcon]. *)
Theorem cursor_drawn_only_when_showing_and_inside
    (env : cursor_env) (g : gdigrab) (p : process) (g' : gdigrab) (p' : process) :
  paint_mouse_pointer env g p = Done (g', p') ->
  (forall dc px py icon,
     In (CallDrawIcon dc px py icon) (calls_of (paint_mouse_pointer env g) p) ->
     ci_flags env = CURSOR_SHOWING /\
     (exists xHotspot yHotspot mask color,
        GetIconInfo env icon = Some (xHotspot, yHotspot, mask, color) /\
        cursor_pos env (clip_rect g)
          (if nonzero (hwnd g) then cur_GetWindowRect env else None)
          xHotspot yHotspot = Done (px, py)) /\
     0 <= px <= int32 (Rect.right (clip_rect g) - Rect.left (clip_rect g)) /\
     0 <= py <= int32 (Rect.bottom (clip_rect g) - Rect.top (clip_rect g)) /\
     dc = dest_hdc g) /\
  (ci_flags env <> CURSOR_SHOWING ->
   forall dc px py icon,
     ~ In (CallDrawIcon dc px py icon) (calls_of (paint_mouse_pointer env g) p)).
Proof.
  intros Hrun.
  destruct (paint_mouse_pointer_calls _ _ _ _ _ Hrun) as (_ & _ & l & Hcalls & Hdraw).
  rewrite (calls_of_app _ _ _ _ l Hrun Hcalls).
  split.
  - intros dc px py icon Hin.
    destruct (Hdraw dc px py icon Hin) as (_ & Hshow & Hdc & Hframe & Hpos).
    unfold within_frame in Hframe. cbn in Hframe.
    repeat split; try assumption; lia.
  - intros Hhidden dc px py icon Hin.
    destruct (Hdraw dc px py icon Hin) as (_ & Hshow & _). contradiction.
Qed.

Lemma cursor_drawn_only_when_showing_and_inside_witness :
  In (CallDrawIcon 102 1 1 202)
     (calls_of (paint_mouse_pointer (Sample.arrow_at 1 1)
                  (priv_data (Sample.session_4x2 0))) Sample.fresh) /\
  ci_flags (Sample.arrow_at 1 1) = CURSOR_SHOWING /\
  0 <= 1 <= int32 (Rect.right (clip_rect (priv_data (Sample.session_4x2 0))) -
                   Rect.left (clip_rect (priv_data (Sample.session_4x2 0)))).
Proof.
  assert (Hin : In (CallDrawIcon 102 1 1 202)
                   (calls_of (paint_mouse_pointer (Sample.arrow_at 1 1)
                                (priv_data (Sample.session_4x2 0))) Sample.fresh))
    by (vm_compute; tauto).
  destruct (paint_mouse_pointer (Sample.arrow_at 1 1)
              (priv_data (Sample.session_4x2 0)) Sample.fresh)
    as [[g' p']|u] eqn:Hrun.
  - destruct (proj1 (cursor_drawn_only_when_showing_and_inside _ _ _ _ _ Hrun)
                102 1 1 202 Hin) as (Hshow & _ & Hx & _).
    split; [exact Hin|]. split; [exact Hshow | exact Hx].
  - vm_compute in Hrun. discriminate.
Defined.

(** C8, on the code: a back buffer of 4 by 2 pixels, columns 0 to 3 and
    rows 0 and 1, and the pointer showing.  With its top-left computed at
    (4, 1), one column past the last, the overlay calls [DrawIcon] at
    (4, 1); so it does at (1, 2), one row past the last.  The test of the
    overlay compares with [<=] where the lookups of this file take the
    right and bottom edges of a rectangle as excluded; only from (5, 1) on
    is nothing drawn. *)
Theorem cursor_is_drawn_one_past_the_last_column :
  clip_rect (priv_data (Sample.session_4x2 0)) = mkRECT 0 0 4 2 /\
  hwnd (priv_data (Sample.session_4x2 0)) = 0 /\
  GetIconInfo (Sample.arrow_at 4 1) 202 = Some (0, 0, 203, 204) /\
  cursor_pos (Sample.arrow_at 4 1) (mkRECT 0 0 4 2) None 0 0 = Done (4, 1) /\
  in_rect (mkRECT 0 0 4 2) 4 1 = false /\
  calls_of (paint_mouse_pointer (Sample.arrow_at 4 1)
              (priv_data (Sample.session_4x2 0))) Sample.fresh
  = [CallCopyCursor 202; CallGetIconInfo 202 203 204; CallDrawIcon 102 4 1 202;
     CallDeleteObject 203; CallDeleteObject 204; CallDestroyCursor 202] /\
  in_rect (mkRECT 0 0 4 2) 1 2 = false /\
  calls_of (paint_mouse_pointer (Sample.arrow_at 1 2)
              (priv_data (Sample.session_4x2 0))) Sample.fresh
  = [CallCopyCursor 202; CallGetIconInfo 202 203 204; CallDrawIcon 102 1 2 202;
     CallDeleteObject 203; CallDeleteObject 204; CallDestroyCursor 202] /\
  calls_of (paint_mouse_pointer (Sample.arrow_at 5 1)
              (priv_data (Sample.session_4x2 0))) Sample.fresh
  = [CallCopyCursor 202; CallGetIconInfo 202 203 204; CallDeleteObject 203;
     CallDeleteObject 204; CallDestroyCursor 202].
Proof. vm_compute. repeat split; reflexivity. Qed.

(** ** Reading *)

Lemma wait_for_frame_due (nonblock : bool) (tb : AVRational) (readings : list Z) :
  forall (tf : Z) (p : process) (curtime tf' : Z) (later : list Z) (p' : process),
    wait_for_frame nonblock tb tf readings p = Done (FrameDue curtime tf' later, p') ->
    In curtime readings /\
    frame_delay tb tf curtime <= 0 /\
    tf' = (if overdue tb (frame_delay tb tf curtime)
           then int64 (tf + 1000000) else tf).
Proof.
  induction readings as [|c rest IH]; intros tf p curtime tf' later p';
    cbn [wait_for_frame]; [discriminate|].
  destruct (Z.leb_spec (frame_delay tb tf c) 0) as [Hdue | Hearly].
  - intros [= <- <- <- <-]. split; [now left|]. split; [exact Hdue | reflexivity].
  - destruct nonblock; [discriminate|]. run. intros Hrun.
    apply IH in Hrun as (Hin & Hrest). split; [now right | exact Hrest].
Qed.

Lemma wait_for_frame_failed (nonblock : bool) (tb : AVRational) (readings : list Z) :
  forall (tf : Z) (p : process) (later : list Z) (p' : process),
    wait_for_frame nonblock tb tf readings p = Done (TryAgain later, p') ->
    nonblock = true.
Proof.
  induction readings as [|c rest IH]; intros tf p later p';
    cbn [wait_for_frame]; [discriminate|].
  destruct (frame_delay tb tf c <=? 0); [discriminate|].
  destruct nonblock; [reflexivity|]. run. apply IH.
Qed.

Lemma memcpy_length (dst : list Z) (off : Z) (src d : list Z) :
  memcpy dst off src = Done d -> length d = length dst.
Proof.
  unfold memcpy.
  destruct ((0 <=? off) && (off + Z.of_nat (length src) <=? Z.of_nat (length dst)))
    eqn:Hin; [|discriminate].
  intros [= <-]. rewrite !length_app, length_take, length_drop. lia.
Qed.

Lemma fill_packet_length (env : read_env) (g : gdigrab) (file_size : Z)
    (raw d : list Z) :
  fill_packet env g file_size raw = Done d -> length d = length raw.
Proof.
  unfold fill_packet. intros Hrun.
  apply obind_Done in Hrun as (d1 & H1 & Hrun). apply memcpy_length in H1.
  apply obind_Done in Hrun as (d2 & H2 & Hrun). apply memcpy_length in H2.
  apply obind_Done in Hrun as (d3 & H3 & Hrun).
  assert (length d3 = length d2)
    by (destruct (biBitCount (bmi g) <=? 8);
        [eapply memcpy_length; eassumption | congruence]).
  apply obind_Done in Hrun as (px & _ & Hrun). apply memcpy_length in Hrun.
  congruence.
Qed.

#[local] Arguments paint_mouse_pointer : simpl never.
#[local] Arguments wait_for_frame : simpl never.
#[local] Arguments fill_packet : simpl never.
#[local] Arguments frame_delay : simpl never.
#[local] Arguments overdue : simpl never.

(** The two ways [gdigrab_read_packet] returns: with an error and the
    session as it was, or through its last statement, with a packet of
    [header_size + frame_size] bytes stamped with the clock reading at which
    the frame was found due, and [time_frame] moved by one tick, or by two
    when the frame was late by more than one tick. *)
Lemma read_packet_returns (env : read_env) (s1 : AVFormatContext) (p : process)
    (ret : Z) (s2 : AVFormatContext) (pkt : option AVPacket) (later : list Z)
    (p' : process) :
  gdigrab_read_packet env s1 p = Done (Returns ret s2 pkt later, p') ->
  let g := priv_data s1 in
  let file_size := int32 (header_size g + frame_size g) in
  let tf := int64 (time_frame g + 1000000) in
  (s2 = s1 /\
   (ret = AVERROR EAGAIN \/ ret = AVERROR ENOMEM \/ ret = AVERROR EIO)) \/
  (exists (curtime : Z) (d : list Z) (printed : Z),
     pkt = Some (mkPacket curtime file_size d) /\
     ret = file_size /\
     length d = Z.to_nat file_size /\
     av_new_packet env file_size = true /\
     In curtime (clock env) /\
     frame_delay (time_base g) tf curtime <= 0 /\
     s2 = with_priv s1
            (set_time_frame (set_cursor_error_printed g printed)
               (if overdue (time_base g) (frame_delay (time_base g) tf curtime)
                then int64 (tf + 1000000) else tf))).
Proof.
  intros Hrun g file_size tf. unfold gdigrab_read_packet in Hrun.
  fold g in Hrun. fold file_size in Hrun. fold tf in Hrun.
  unfold gdigrab_region_wnd_update in Hrun. run_in Hrun.
  destruct (nonzero (show_region g)); cbn in Hrun.
  all: match type of Hrun with
       | context [wait_for_frame ?n ?tb ?t ?r ?q] =>
           destruct (wait_for_frame n tb t r q) as [[[curtime tf' rest | rest |] p1]|]
             eqn:Hwait; cbn in Hrun
       end.
  all: try discriminate.
  all: try (injection Hrun as <- <- <- <- <-; left; auto; fail).
  all: apply wait_for_frame_due in Hwait as (Hin & Hdue & ->).
  all: destruct (av_new_packet env file_size) eqn:Halloc; cbn in Hrun.
  all: try (injection Hrun as <- <- <- <- <-; left; auto; fail).
  all: destruct (BitBlt env); cbn in Hrun.
  all: try (injection Hrun as <- <- <- <- <-; left; auto; fail).
  all: destruct (nonzero (draw_mouse g)); cbn in Hrun.
  all: try match type of Hrun with
           | context [paint_mouse_pointer ?c ?g0 ?q] =>
               destruct (paint_mouse_pointer c g0 q) as [[g2 q2]|] eqn:Hpaint;
                 cbn in Hrun; [|discriminate];
                 apply paint_mouse_pointer_calls in Hpaint as (Hpaint & _)
           end.
  all: match type of Hrun with
       | context [fill_packet ?e ?g0 ?f ?r] =>
           destruct (fill_packet e g0 f r) as [d|] eqn:Hfill; cbn in Hrun;
             [|discriminate];
             apply fill_packet_length in Hfill; rewrite length_replicate in Hfill
       end.
  all: injection Hrun as <- <- <- <- <-; right.
  all: first [ exists curtime, d, (cursor_error_printed g2); rewrite Hpaint
             | exists curtime, d, (cursor_error_printed g);
               rewrite <- (set_cursor_error_printed_same g) ].
  all: cbn; repeat split; try assumption; reflexivity.
Qed.

(** C6: in non-blocking mode, a read that finds the next frame not yet due
    at its first clock reading returns [AVERROR(EAGAIN)] at once, without a
    packet, and leaves the session as it was, [time_frame] included; all it
    has done is run the message queue of the region window when there is
    one. *)
Theorem nonblocking_read_not_due_changes_nothing
    (env : read_env) (s1 : AVFormatContext) (p : process)
    (curtime : Z) (later : list Z) :
  let g := priv_data s1 in
  clock env = curtime :: later ->
  Z.land (flags s1) AVFMT_FLAG_NONBLOCK <> 0 ->
  0 < frame_delay (time_base g) (int64 (time_frame g + 1000000)) curtime ->
  gdigrab_read_packet env s1 p =
    Done (Returns (AVERROR EAGAIN) s1 None later,
          mkProcess (reg p)
            (calls p ++ if nonzero (show_region g)
                        then [CallPumpMessages (region_hwnd g)] else [])).
Proof.
  intros g Hclock Hflag Hearly. unfold gdigrab_read_packet. fold g.
  rewrite Hclock. unfold gdigrab_region_wnd_update, wait_for_frame. run.
  assert (Hnb : nonzero (Z.land (flags s1) AVFMT_FLAG_NONBLOCK) = true)
    by (unfold nonzero; destruct (Z.eqb_spec (Z.land (flags s1) AVFMT_FLAG_NONBLOCK) 0);
        [contradiction | reflexivity]).
  destruct (nonzero (show_region g)); cbn;
    destruct (Z.leb_spec (frame_delay (time_base g) (int64 (time_frame g + 1000000))
                            curtime) 0); try lia;
    rewrite Hnb; cbn; [reflexivity|].
  rewrite app_nil_r. now destruct p.
Qed.

(** The second read of the example of the specification: ten microseconds
    after a session of 10 frames per second was opened, non-blocking. *)
Lemma nonblocking_read_not_due_changes_nothing_witness :
  gdigrab_read_packet
    (Sample.reading [5000010] Sample.no_cursor (replicate 32 0))
    (Sample.session_4x2 4) Sample.fresh
  = Done (Returns (AVERROR EAGAIN) (Sample.session_4x2 4) None [], Sample.fresh).
Proof.
  apply (nonblocking_read_not_due_changes_nothing
           (Sample.reading [5000010] Sample.no_cursor (replicate 32 0))
           (Sample.session_4x2 4) Sample.fresh 5000010 []).
  - reflexivity.
  - vm_compute. discriminate.
  - vm_compute. reflexivity.
Defined.

(** ** Sessions *)








(** A device that reports a depth of -8: the depth passes the test
    [bpp % 8], the shift is by 24 and the header size stored is
    [54 + 4 * 2^24]. *)
Example open_with_bit_depth_minus_8 :
  match gdigrab_read_header
          (Sample.desktop [Sample.monitor_800x600 1] 800 600 (-8) Sample.bmp_4x2 5000000)
          (Sample.request "desktop" 0 Sample.g_4x2) Sample.fresh with
  | Done (r, s1', _) => r = 0 /\ header_size (priv_data s1') = 67108918
  | Undefined _ => False
  end.
Proof. vm_compute. split; reflexivity. Qed.

(** One read, seen from [time_frame]: a call that emits a packet moves it
    by one tick or by two; any other call leaves the session as it was. *)
Lemma read_advances_time_frame (env : read_env) (s1 : AVFormatContext) (p : process)
    (ret : Z) (s2 : AVFormatContext) (pkt : option AVPacket) (later : list Z)
    (p1 : process) :
  let g := priv_data s1 in
  in_int64 (time_frame g) ->
  time_frame g + 2 * TICK <= INT64_MAX ->
  0 <= int32 (header_size g + frame_size g) ->
  gdigrab_read_packet env s1 p = Done (Returns ret s2 pkt later, p1) ->
  (s2 = s1 /\ (pkt = None \/ ret < 0)) \/
  (exists pk,
     pkt = Some pk /\ 0 <= ret /\
     In (pts pk) (clock env) /\
     frame_delay (time_base g) (time_frame g + TICK) (pts pk) <= 0 /\
     time_frame (priv_data s2) =
       time_frame g +
       (if overdue (time_base g)
             (frame_delay (time_base g) (time_frame g + TICK) (pts pk))
        then 2 * TICK else TICK) /\
     header_size (priv_data s2) = header_size g /\
     frame_size (priv_data s2) = frame_size g /\
     time_base (priv_data s2) = time_base g).
Proof.
  intros g Hmin Hmax Hsize Hread.
  unfold in_int64, INT64_MIN, INT64_MAX, TICK in *.
  apply read_packet_returns in Hread
    as [[-> Herr] | (curtime & d & printed & -> & -> & _ & _ & Hin & Hdue & ->)].
  - left. split; [reflexivity|]. right.
    unfold AVERROR, EAGAIN, ENOMEM, EIO in Herr. lia.
  - right. fold g in Hdue |- *. eexists. split; [reflexivity|]. cbn.
    rewrite (int64_small (time_frame g + 1000000)) in *
      by (unfold in_int64, INT64_MIN, INT64_MAX; lia).
    split; [exact Hsize|]. split; [exact Hin|]. split; [exact Hdue|].
    split; [|repeat split; reflexivity].
    destruct (overdue (time_base g) _); [|lia].
    rewrite int64_small by (unfold in_int64, INT64_MIN, INT64_MAX; lia). lia.
Qed.

Lemma session_reads_paced (envs : list read_env) :
  forall (s1 : AVFormatContext) (p : process) (ems : list emission) (p' : process),
    in_int64 (time_frame (priv_data s1)) ->
    time_frame (priv_data s1) + 2 * TICK * Z.of_nat (length envs) <= INT64_MAX ->
    0 <= int32 (header_size (priv_data s1) + frame_size (priv_data s1)) ->
    session_reads envs s1 p = Done (ems, p') ->
    paced_from (time_frame (priv_data s1)) (map due ems).
Proof.
  induction envs as [|env envs IH]; intros s1 p ems p' Hmin Hmax Hsize;
    cbn [session_reads].
  - intros [= <- <-]. exact I.
  - unfold mbind at 1, M_bind at 1.
    destruct (gdigrab_read_packet env s1 p) as [[[ret s2 pkt later|] p1]|] eqn:Hread;
      [| intros [= <- <-]; exact I | discriminate].
    unfold mbind at 1, M_bind at 1.
    destruct (session_reads envs s2 p1) as [[rest p2]|] eqn:Hrest; [|discriminate].
    intros [= <- <-].
    cbn [length] in Hmax. unfold TICK in Hmax.
    apply read_advances_time_frame in Hread
      as [[-> Hnone] | (pk & -> & Hret & _ & _ & Hstep & Hh & Hf & _)];
      [| | exact Hmin | unfold TICK; lia | exact Hsize].
    + apply IH in Hrest; [|assumption | unfold TICK; lia | assumption].
      destruct Hnone as [-> | Hneg]; [exact Hrest|].
      destruct pkt as [pk|]; [|exact Hrest].
      destruct (Z.leb_spec 0 ret); [lia | exact Hrest].
    + destruct (Z.leb_spec 0 ret) as [_ | Hneg]; [|lia].
      cbn [map due paced_from]. unfold TICK in *.
      assert (Hchoice : time_frame (priv_data s2) - time_frame (priv_data s1) = 1000000
                        \/ time_frame (priv_data s2) - time_frame (priv_data s1)
                           = 2 * 1000000)
        by (destruct (overdue _ _) in Hstep; lia).
      split; [exact Hchoice|].
      apply (IH s2 p1 rest p2); [| | | exact Hrest].
      * unfold in_int64, INT64_MIN, INT64_MAX in *. lia.
      * unfold TICK. lia.
      * now rewrite Hh, Hf.
Qed.

(** C1, as the code has it: what moves by ticks is [time_frame], the
    counter of the next frame due, whose unit makes one tick 1000000.  In a
    session whose counter does not overflow (and whose packet size is not
    negative, so that every packet is handed to the caller), each emitted
    packet moves it by exactly one tick, or by exactly two when the read
    finds the frame late by more than one tick: one tick is skipped, never
    more in one call, and the counter never stays or goes back.  The
    timestamp of the packet is the clock reading at which the frame was
    found due. *)
Theorem time_frame_advances_by_one_tick_per_packet
    (envs : list read_env) (s1 : AVFormatContext) (p : process)
    (ems : list emission) (p' : process) :
  let g := priv_data s1 in
  in_int64 (time_frame g) ->
  time_frame g + 2 * TICK * Z.max 1 (Z.of_nat (length envs)) <= INT64_MAX ->
  0 <= int32 (header_size g + frame_size g) ->
  session_reads envs s1 p = Done (ems, p') ->
  paced_from (time_frame g) (map due ems) /\
  forall env ret s2 pk later p1,
    gdigrab_read_packet env s1 p = Done (Returns ret s2 (Some pk) later, p1) ->
    0 <= ret ->
    In (pts pk) (clock env) /\
    frame_delay (time_base g) (time_frame g + TICK) (pts pk) <= 0 /\
    time_frame (priv_data s2) =
      time_frame g +
      (if overdue (time_base g)
            (frame_delay (time_base g) (time_frame g + TICK) (pts pk))
       then 2 * TICK else TICK).
Proof.
  intros g Hmin Hmax Hsize Hreads. unfold TICK in Hmax. split.
  - apply (session_reads_paced envs s1 p ems p'); try assumption.
    fold g. unfold TICK. lia.
  - intros env ret s2 pk later p1 Hread Hret.
    apply read_advances_time_frame in Hread
      as [[_ [Hnone | Hneg]] | (pk' & [= <-] & _ & Hin & Hdue & Hstep & _)];
      try assumption; [discriminate | lia | | fold g; unfold TICK; lia].
    auto.
Qed.

Lemma time_frame_advances_by_one_tick_per_packet_witness :
  exists ems p',
    session_reads Sample.reads_with_stall (Sample.session_4x2 0) (Sample.process_4x2 0)
    = Done (ems, p') /\
    map due ems = [51000000; 53000000] /\
    paced_from (time_frame (priv_data (Sample.session_4x2 0))) (map due ems).
Proof.
  destruct (session_reads Sample.reads_with_stall (Sample.session_4x2 0)
              (Sample.process_4x2 0)) as [[ems p']|u] eqn:Hreads;
    [|vm_compute in Hreads; discriminate].
  exists ems, p'. split; [reflexivity|].
  destruct (time_frame_advances_by_one_tick_per_packet
              Sample.reads_with_stall (Sample.session_4x2 0) (Sample.process_4x2 0)
              ems p') as [Hpaced _].
  - vm_compute. split; discriminate.
  - vm_compute. discriminate.
  - vm_compute. discriminate.
  - exact Hreads.
  - split; [|exact Hpaced].
    vm_compute in Hreads. injection Hreads as <- _. reflexivity.
Defined.

(** C1, as the specification words it, fails on the timestamps of the
    packets.  At 10 frames per second a tick is 100000 microseconds.  A
    blocking read that sleeps and wakes 123 microseconds late stamps its
    packet 100123 microseconds after the previous one, while [time_frame]
    has moved by one tick; after a stall of nine ticks the stamps are 900000
    microseconds apart, while [time_frame] has moved by two ticks. *)
Lemma packet_timestamps_are_not_one_tick_apart :
  match session_reads Sample.two_reads (Sample.session_4x2 0) (Sample.process_4x2 0) with
  | Done (ems, _) =>
      map (fun e => pts (packet e)) ems = [5100000; 5200123] /\
      map due ems = [51000000; 52000000] /\
      ~ pts_one_tick_apart 100000 (map (fun e => pts (packet e)) ems)
  | Undefined _ => False
  end /\
  match session_reads Sample.reads_with_stall (Sample.session_4x2 0)
          (Sample.process_4x2 0) with
  | Done (ems, _) =>
      map (fun e => pts (packet e)) ems = [5100000; 6000000] /\
      map due ems = [51000000; 53000000] /\
      ~ pts_one_tick_apart 100000 (map (fun e => pts (packet e)) ems)
  | Undefined _ => False
  end.
Proof.
  vm_compute. repeat split; try reflexivity; intros [[H | H] _]; discriminate H.
Qed.

(** ** The two hazards, seen from an open *)

(** With no monitor enumerated, the open of the desktop reads
    [monitors[-1]]; with five monitors, it stores at [monitors[4]]. *)
Example open_without_monitors :
  gdigrab_read_header
    (Sample.desktop [] 800 600 32 Sample.bmp_4x2 5000000)
    (Sample.request "desktop" 0 Sample.g_4x2) Sample.fresh
  = Undefined (OutOfBounds (-1)).
Proof. vm_compute. reflexivity. Qed.

Example open_with_five_monitors :
  gdigrab_read_header
    (Sample.desktop Sample.five_monitors 4000 600 32 Sample.bmp_4x2 5000000)
    (Sample.request "desktop" 0 Sample.g_4x2) Sample.fresh
  = Undefined (OutOfBounds 4).
Proof. vm_compute. reflexivity. Qed.

(** * Further properties *)

(** ** The registry after an enumeration *)

Lemma scan_monitors_first (hit : MONITOR -> bool) (rg : registry) (todo : nat) :
  forall i j : Z,
    scan_monitors hit rg i todo = Done j -> 0 <= j ->
    forall k m, i <= k < j -> monitors rg !! Z.to_nat k = Some m -> hit m = false.
Proof.
  induction todo as [|todo IH]; intros i j; cbn [scan_monitors].
  - intros [= <-]. lia.
  - intros Hrun Hj k m Hk Hm.
    apply obind_Done in Hrun as (mi & Hmi & Hrun).
    destruct (hit mi) eqn:Hhit.
    + injection Hrun as <-. lia.
    + destruct (Z.eq_dec k i) as [-> | Hne].
      * unfold monitor_at in Hmi.
        destruct ((0 <=? i) && (i <? MY_MAX_MONITORS)); [|discriminate].
        rewrite Hm in Hmi. injection Hmi as <-. exact Hhit.
      * apply (IH (i + 1) j Hrun Hj k m); [lia | exact Hm].
Qed.

(** X1: on a registry as the enumeration leaves it, the lookup of a point
    answers the first monitor in use whose rectangle holds the point (left
    and top edges included, right and bottom excluded), and [-1] exactly
    when no monitor in use holds it. *)
Theorem point_lookup_answers_first_monitor (rg : registry) (px py : Z) :
  registry_ok rg ->
  exists j,
    get_monitor_id_by_logical_point rg px py = Done j /\
    ((j = -1 /\
      forall (i : nat) (m : MONITOR),
        monitors rg !! i = Some m -> Z.of_nat i < monitorsNum rg ->
        in_rect (rect m) px py = false) \/
     (0 <= j < monitorsNum rg /\
      (exists m, monitors rg !! Z.to_nat j = Some m /\ in_rect (rect m) px py = true) /\
      forall (i : nat) (m : MONITOR),
        monitors rg !! i = Some m -> Z.of_nat i < j ->
        in_rect (rect m) px py = false)).
Proof.
  intros (Hslots & Hnum & _). unfold get_monitor_id_by_logical_point.
  destruct (lookup_spec rg Hslots Hnum (hit_point px py)) as (j & Hrun & Hj).
  exists j. split; [exact Hrun|].
  destruct Hj as [[-> Hnone] | [Hrange Hhit]].
  - left. split; [reflexivity|]. intros i m Hm Hi.
    apply (Hnone (Z.of_nat i) m); [lia | now rewrite Nat2Z.id].
  - right. split; [exact Hrange|]. split; [exact Hhit|].
    intros i m Hm Hi.
    apply (scan_monitors_first _ _ _ _ _ Hrun (proj1 Hrange) (Z.of_nat i) m);
      [lia | now rewrite Nat2Z.id].
Qed.

Lemma point_lookup_answers_first_monitor_witness :
  exists j, get_monitor_id_by_logical_point Sample.registry_800x600 799 599 = Done j.
Proof.
  destruct (point_lookup_answers_first_monitor Sample.registry_800x600 799 599
              registry_800x600_ok) as (j & Hrun & _).
  exists j. exact Hrun.
Defined.

Lemma EnumDisplayMonitors_records (ds : list display) :
  forall rg : registry,
    length (monitors rg) = Z.to_nat MY_MAX_MONITORS ->
    0 <= monitorsNum rg ->
    monitorsNum rg + Z.of_nat (length ds) <= MY_MAX_MONITORS ->
    exists rg',
      EnumDisplayMonitors ds rg = Done rg' /\
      monitorsNum rg' = monitorsNum rg + Z.of_nat (length ds) /\
      length (monitors rg') = Z.to_nat MY_MAX_MONITORS /\
      (forall (i : nat) (d : display),
         ds !! i = Some d ->
         monitors rg' !! (Z.to_nat (monitorsNum rg) + i)%nat
         = Some (monitor_of_display d)) /\
      (forall k : nat,
         Z.of_nat k < monitorsNum rg -> monitors rg' !! k = monitors rg !! k).
Proof.
  induction ds as [|d ds IH]; intros rg Hslots Hn Hfit; cbn [EnumDisplayMonitors length] in *.
  - exists rg. split; [reflexivity|]. split; [lia|]. split; [exact Hslots|].
    split; [intros i d' Hd; discriminate | reflexivity].
  - rewrite monitor_enum_stores by (unfold MY_MAX_MONITORS in *; lia). cbn.
    match goal with |- context [EnumDisplayMonitors ds ?r] => specialize (IH r) end.
    cbn in IH.
    destruct IH as (rg' & Hrun & Hnum & Hslots' & Hnew & Hold);
      [now rewrite length_insert | lia | lia |].
    exists rg'. split; [exact Hrun|]. split; [lia|]. split; [exact Hslots'|].
    split.
    + intros [|i] d' Hd; cbn in Hd.
      * injection Hd as <-. rewrite Nat.add_0_r, Hold by lia.
        apply list_lookup_insert_eq. unfold MY_MAX_MONITORS in *. lia.
      * replace (Z.to_nat (monitorsNum rg) + S i)%nat
          with (Z.to_nat (monitorsNum rg + 1) + i)%nat by lia.
        apply Hnew, Hd.
    + intros k Hk. rewrite Hold by lia. apply list_lookup_insert_ne. lia.
Qed.

(** X2: started as an open starts it, the enumeration of at most four
    displays records them in the order the system reports them: slot [i]
    holds the rectangle and the logical and physical resolution of display
    [i], and [monitorsNum] is their number.  When every display has a
    non-zero logical resolution the registry is fit for the conversions. *)
Theorem enumeration_records_the_displays (ds : list display) (rg : registry) :
  length (monitors rg) = Z.to_nat MY_MAX_MONITORS ->
  Z.of_nat (length ds) <= MY_MAX_MONITORS ->
  exists rg',
    EnumDisplayMonitors ds (mkRegistry (monitors rg) 0 SetRectEmpty) = Done rg' /\
    monitorsNum rg' = Z.of_nat (length ds) /\
    (forall (i : nat) (d : display),
       ds !! i = Some d -> monitors rg' !! i = Some (monitor_of_display d)) /\
    ((forall d, In d ds -> HORZRES d <> 0 /\ VERTRES d <> 0) -> registry_ok rg').
Proof.
  intros Hslots Hfit.
  destruct (EnumDisplayMonitors_records ds (mkRegistry (monitors rg) 0 SetRectEmpty))
    as (rg' & Hrun & Hnum & Hslots' & Hnew & _); cbn; try lia; try exact Hslots.
  cbn in Hnum.
  assert (Hnew' : forall (i : nat) (d : display),
             ds !! i = Some d -> monitors rg' !! i = Some (monitor_of_display d))
    by exact Hnew.
  clear Hnew. rename Hnew' into Hnew.
  exists rg'. split; [exact Hrun|]. split; [lia|].
  split; [exact Hnew|].
  intros Hres. split; [exact Hslots'|]. split; [unfold MY_MAX_MONITORS in *; lia|].
  intros i m Hm Hi.
  destruct (ds !! i) as [d|] eqn:Hd.
  - rewrite (Hnew i d Hd) in Hm. injection Hm as <-. cbn.
    apply Hres. apply list_elem_of_In. eapply list_elem_of_lookup_2, Hd.
  - apply lookup_ge_None in Hd. lia.
Qed.

Lemma enumeration_records_the_displays_witness :
  exists rg',
    EnumDisplayMonitors Sample.two_monitors
      (mkRegistry (monitors initial_registry) 0 SetRectEmpty) = Done rg' /\
    monitorsNum rg' = 2.
Proof.
  destruct (enumeration_records_the_displays Sample.two_monitors initial_registry)
    as (rg' & Hrun & Hnum & _).
  - reflexivity.
  - vm_compute. discriminate.
  - exists rg'. split; [exact Hrun | exact Hnum].
Defined.

(** ** Conversion at a uniform scale *)

Lemma LOGICAL_TO_PHYSICAL_scaled (rg : registry) (k val i : Z) (m : MONITOR) :
  0 <= i < MY_MAX_MONITORS ->
  monitors rg !! Z.to_nat i = Some m ->
  in_int32 (k * val) ->
  (Res.x (logical m) <> 0 -> Res.x (physical m) = k * Res.x (logical m) ->
   in_int32 (val * Res.x (physical m)) ->
   LOGICAL_TO_PHYSICAL_X rg val i = Done (k * val)) /\
  (Res.y (logical m) <> 0 -> Res.y (physical m) = k * Res.y (logical m) ->
   in_int32 (val * Res.y (physical m)) ->
   LOGICAL_TO_PHYSICAL_Y rg val i = Done (k * val)).
Proof.
  intros Hi Hm Hk.
  assert (Hat : monitor_at rg i = Done m).
  { unfold monitor_at.
    replace ((0 <=? i) && (i <? MY_MAX_MONITORS)) with true by lia. now rewrite Hm. }
  split; intros Hnz Hscale Hfit;
    [unfold LOGICAL_TO_PHYSICAL_X | unfold LOGICAL_TO_PHYSICAL_Y];
    rewrite Hat; cbn; rewrite Hscale in Hfit |- *;
    match goal with
    | |- cdiv (int32 (val * (k * ?l))) ?l = _ =>
        replace (val * (k * l)) with (k * val * l) in Hfit |- * by ring
    end;
    now apply cdiv_scaled.
Qed.

(** X3: when every monitor in use has [k] physical pixels per logical
    pixel on both axes, the conversion of a rectangle whose corners resolve
    multiplies its four coordinates by [k] (as long as the products fit in
    32 bits); in particular it is the identity on monitors without
    scaling. *)
Theorem conversion_by_a_uniform_scale (rg : registry) (r : RECT) (k : Z) :
  registry_ok rg ->
  corners_resolve rg r = true ->
  (forall (i : nat) (m : MONITOR),
     monitors rg !! i = Some m -> Z.of_nat i < monitorsNum rg ->
     Res.x (physical m) = k * Res.x (logical m) /\
     Res.y (physical m) = k * Res.y (logical m) /\
     in_int32 (Rect.left r * Res.x (physical m)) /\
     in_int32 (Rect.right r * Res.x (physical m)) /\
     in_int32 (Rect.top r * Res.y (physical m)) /\
     in_int32 (Rect.bottom r * Res.y (physical m))) ->
  in_int32 (k * Rect.left r) -> in_int32 (k * Rect.top r) ->
  in_int32 (k * Rect.right r) -> in_int32 (k * Rect.bottom r) ->
  convert_logical_rect_to_physical rg r =
    Done (mkRECT (k * Rect.left r) (k * Rect.top r)
                 (k * Rect.right r) (k * Rect.bottom r)).
Proof.
  intros Hok Hcorners Hscale Hl Ht Hr Hb.
  pose proof Hok as (Hslots & Hnum & Hres).
  assert (Hconv : forall val i,
             0 <= i < monitorsNum rg -> in_int32 (k * val) ->
             ((forall (j : nat) (m : MONITOR),
                 monitors rg !! j = Some m -> Z.of_nat j < monitorsNum rg ->
                 in_int32 (val * Res.x (physical m))) ->
              LOGICAL_TO_PHYSICAL_X rg val i = Done (k * val)) /\
             ((forall (j : nat) (m : MONITOR),
                 monitors rg !! j = Some m -> Z.of_nat j < monitorsNum rg ->
                 in_int32 (val * Res.y (physical m))) ->
              LOGICAL_TO_PHYSICAL_Y rg val i = Done (k * val))).
  { intros val i Hi Hk.
    destruct (monitor_at_slot rg Hslots i) as (m & Hm & _);
      [unfold MY_MAX_MONITORS in *; lia|].
    assert (Hin : Z.of_nat (Z.to_nat i) < monitorsNum rg) by lia.
    destruct (Hscale _ _ Hm Hin) as (Hx & Hy & _).
    destruct (Hres _ _ Hm Hin) as (Hnx & Hny).
    destruct (LOGICAL_TO_PHYSICAL_scaled rg k val i m) as [HX HY];
      [unfold MY_MAX_MONITORS in *; lia | exact Hm | exact Hk |].
    split; intros Hfit; [apply HX | apply HY]; try assumption;
      apply (Hfit _ _ Hm Hin). }
  unfold corners_resolve in Hcorners. unfold convert_logical_rect_to_physical.
  destruct (corner_indices_spec rg Hslots Hnum (Rect.left r) (Rect.top r))
    as (ix & iy & -> & Hix & Hiy & Hfx & Hfy).
  destruct (corner_indices_spec rg Hslots Hnum (int32 (Rect.right r - 1))
              (int32 (Rect.bottom r - 1)))
    as (jx & jy & -> & Hjx & Hjy & Hgx & Hgy).
  rewrite <- Hfx, <- Hfy, <- Hgx, <- Hgy in Hcorners.
  cbn.
  rewrite (proj1 (Hconv (Rect.left r) ix ltac:(lia) Hl))
    by (intros j m Hm Hj; apply (Hscale j m Hm Hj)).
  cbn.
  rewrite (proj2 (Hconv (Rect.top r) iy ltac:(lia) Ht))
    by (intros j m Hm Hj; apply (Hscale j m Hm Hj)).
  cbn.
  rewrite (proj1 (Hconv (Rect.right r) jx ltac:(lia) Hr))
    by (intros j m Hm Hj; apply (Hscale j m Hm Hj)).
  cbn.
  rewrite (proj2 (Hconv (Rect.bottom r) jy ltac:(lia) Hb))
    by (intros j m Hm Hj; apply (Hscale j m Hm Hj)).
  reflexivity.
Qed.

Lemma conversion_by_a_uniform_scale_witness :
  convert_logical_rect_to_physical Sample.registry_800x600 (mkRECT 0 0 800 600)
  = Done (mkRECT 0 0 800 600).
Proof.
  apply (conversion_by_a_uniform_scale Sample.registry_800x600 (mkRECT 0 0 800 600) 1
           registry_800x600_ok).
  - reflexivity.
  - intros [|i] m Hm Hi; [|cbn in Hi; lia].
    injection Hm as <-. vm_compute. intuition discriminate.
  - vm_compute. split; discriminate.
  - vm_compute. split; discriminate.
  - vm_compute. split; discriminate.
  - vm_compute. split; discriminate.
Defined.

(** ** The painting of the region window *)

Ltac bool_to_prop :=
  rewrite ?andb_true_iff, ?andb_false_iff, ?negb_true_iff, ?negb_false_iff,
    ?Z.leb_le, ?Z.ltb_lt, ?Z.leb_gt, ?Z.ltb_ge in *.

(** X4: on [WM_PAINT] the window procedure answers 0 and its three frames
    cover exactly the shape that [gdigrab_region_wnd_init] gives the window
    (the client rectangle less its interior, three pixels in): no visible
    pixel is left unpainted and nothing is painted outside; the middle
    frame, one pixel in, is the white one.  Any other message is handed to
    [DefWindowProc] and paints nothing. *)
Theorem paint_covers_the_region_border
    (DefWindowProc : Z -> Z) (client : RECT) (px py : Z) :
  Rect.left client = 0 -> Rect.top client = 0 ->
  0 <= Rect.right client <= INT_MAX -> 0 <= Rect.bottom client <= INT_MAX ->
  let frames := (gdigrab_region_wnd_proc DefWindowProc client WM_PAINT).1 in
  (gdigrab_region_wnd_proc DefWindowProc client WM_PAINT).2 = 0 /\
  (painted frames px py = None <-> region_shape client px py = false) /\
  (painted frames px py = Some WHITE_BRUSH <->
   on_frame (shrink_rect client) px py = true) /\
  forall msg, msg <> WM_PAINT ->
              gdigrab_region_wnd_proc DefWindowProc client msg = ([], DefWindowProc msg).
Proof.
  intros Hl Ht Hr Hb frames. subst frames.
  unfold gdigrab_region_wnd_proc. rewrite Z.eqb_refl. cbn [fst snd painted].
  split; [reflexivity|].
  assert (Hshape : region_shape client px py =
                   in_rect (mkRECT 0 0 (Rect.right client) (Rect.bottom client)) px py &&
                   negb (in_rect (mkRECT 3 3 (Rect.right client - 3)
                                         (Rect.bottom client - 3)) px py)).
  { unfold region_shape, REGION_WND_BORDER. rewrite Hl, Ht, !Z.sub_0_r.
    rewrite !(int32_small (Rect.right client)), !(int32_small (Rect.bottom client))
      by (unfold in_int32, INT_MIN, INT_MAX in *; lia).
    rewrite !int32_small by (unfold in_int32, INT_MIN, INT_MAX in *; lia).
    reflexivity. }
  assert (H1 : shrink_rect client =
               mkRECT 1 1 (Rect.right client - 1) (Rect.bottom client - 1)).
  { unfold shrink_rect. rewrite Hl, Ht.
    rewrite !int32_small by (unfold in_int32, INT_MIN, INT_MAX in *; lia).
    reflexivity. }
  assert (H2 : shrink_rect (shrink_rect client) =
               mkRECT 2 2 (Rect.right client - 2) (Rect.bottom client - 2)).
  { rewrite H1. unfold shrink_rect. cbn.
    rewrite !int32_small by (unfold in_int32, INT_MIN, INT_MAX in *; lia).
    f_equal; lia. }
  rewrite Hshape, H2, H1. clear Hshape H1 H2.
  destruct client as [l t r b]. cbn in *. subst l t.
  unfold on_frame, in_rect. cbn.
  split; [|split].
  - destruct ((2 <=? px) && (px <? r - 2) && (2 <=? py) && (py <? b - 2) &&
              negb ((2 + 1 <=? px) && (px <? r - 2 - 1) && (2 + 1 <=? py) &&
                    (py <? b - 2 - 1))) eqn:E2;
      [|destruct ((1 <=? px) && (px <? r - 1) && (1 <=? py) && (py <? b - 1) &&
                  negb ((1 + 1 <=? px) && (px <? r - 1 - 1) && (1 + 1 <=? py) &&
                        (py <? b - 1 - 1))) eqn:E1;
        [|destruct ((0 <=? px) && (px <? r) && (0 <=? py) && (py <? b) &&
                    negb ((0 + 1 <=? px) && (px <? r - 1) && (0 + 1 <=? py) &&
                          (py <? b - 1))) eqn:E0]];
      (split; [intros H; try discriminate H | intros H; try reflexivity; exfalso]);
      bool_to_prop; lia.
  - destruct ((2 <=? px) && (px <? r - 2) && (2 <=? py) && (py <? b - 2) &&
              negb ((2 + 1 <=? px) && (px <? r - 2 - 1) && (2 + 1 <=? py) &&
                    (py <? b - 2 - 1))) eqn:E2;
      [|destruct ((1 <=? px) && (px <? r - 1) && (1 <=? py) && (py <? b - 1) &&
                  negb ((1 + 1 <=? px) && (px <? r - 1 - 1) && (1 + 1 <=? py) &&
                        (py <? b - 1 - 1))) eqn:E1;
        [|destruct ((0 <=? px) && (px <? r) && (0 <=? py) && (py <? b) &&
                    negb ((0 + 1 <=? px) && (px <? r - 1) && (0 + 1 <=? py) &&
                          (py <? b - 1))) eqn:E0]];
      (split; [intros H; try discriminate H; try reflexivity
              | intros H; try reflexivity; exfalso]);
      bool_to_prop; lia.
  - intros msg Hmsg. destruct (Z.eqb_spec msg WM_PAINT); [contradiction | reflexivity].
Qed.

Lemma paint_covers_the_region_border_witness :
  painted (gdigrab_region_wnd_proc (fun _ => 0) (mkRECT 0 0 106 56) WM_PAINT).1 1 1
  = Some WHITE_BRUSH.
Proof.
  apply (paint_covers_the_region_border (fun _ => 0) (mkRECT 0 0 106 56) 1 1).
  - reflexivity.
  - reflexivity.
  - vm_compute. split; discriminate.
  - vm_compute. split; discriminate.
  - reflexivity.
Defined.

(** ** What a computation calls *)

Section Emits.

Variable ok : os_call -> bool.

Lemma emits_ret {A} (a : A) : emits ok (mret a).
Proof. intros p. cbn. exists []. now rewrite app_nil_r. Qed.

Lemma emits_call (c : os_call) : ok c = true -> emits ok (call c).
Proof. intros Hc p. cbn. exists [c]. cbn. now rewrite Hc. Qed.

Lemma emits_lift {A} (o : outcome A) : emits ok (lift o).
Proof. intros p. destruct o; cbn; [|exact I]. exists []. now rewrite app_nil_r. Qed.

Lemma emits_bind {A B} (c : M A) (f : A -> M B) :
  emits ok c -> (forall a, emits ok (f a)) -> emits ok (c ≫= f).
Proof.
  intros Hc Hf p. specialize (Hc p). unfold mbind, M_bind.
  destruct (c p) as [[a p1]|]; [|exact I].
  destruct Hc as (l1 & Hl1 & Hok1). specialize (Hf a p1).
  destruct (f a p1) as [[b p2]|]; [|exact I].
  destruct Hf as (l2 & Hl2 & Hok2).
  exists (l1 ++ l2). rewrite Hl2, Hl1, app_assoc. split; [reflexivity|].
  now rewrite forallb_app, Hok1, Hok2.
Qed.

Lemma emits_when (b : bool) (c : M unit) : emits ok c -> emits ok (when b c).
Proof. destruct b; [auto | intros _; apply emits_ret]. Qed.

End Emits.

Ltac emits_step :=
  first
    [ apply emits_ret | apply emits_lift
    | apply emits_call; reflexivity
    | apply emits_when
    | apply emits_bind; [|intros ?]
    | match goal with
      | |- emits _ (if ?b then _ else _) => destruct b
      | |- emits _ (match ?v with _ => _ end) => destruct v
      end
    | solve [eauto] ].

Ltac emits_all := repeat emits_step.

(** What a computation that emits calls has added to the log. *)
Lemma emits_calls_of {A} (ok : os_call -> bool) (c : M A) (p : process)
    (a : A) (p' : process) :
  emits ok c -> c p = Done (a, p') -> forallb ok (calls_of c p) = true.
Proof.
  intros Hc Hrun. specialize (Hc p). rewrite Hrun in Hc.
  destruct Hc as (l & Hl & Hok). now rewrite (calls_of_app c p a p' l Hrun Hl).
Qed.

Section ReadCalls.

Lemma emits_CURSOR_ERROR ok what g :
  (forall m, ok (CallLog m) = true) -> emits ok (CURSOR_ERROR what g).
Proof.
  intros Hlog. unfold CURSOR_ERROR, av_log.
  destruct (cursor_error_printed g =? 0); [|apply emits_ret].
  apply emits_bind; [apply emits_call, Hlog | intros _; apply emits_ret].
Qed.

Lemma emits_icon_cleanup ok mask color icon :
  (forall h, ok (CallDeleteObject h) = true) ->
  (forall h, ok (CallDestroyCursor h) = true) ->
  emits ok (icon_cleanup mask color icon).
Proof.
  intros Hdel Hdes. unfold icon_cleanup.
  repeat first [ apply emits_bind; [|intros ?] | apply emits_when
               | apply emits_call; solve [auto] ].
Qed.

Lemma emits_paint_mouse_pointer ok env g :
  (forall m, ok (CallLog m) = true) ->
  (forall h, ok (CallDeleteObject h) = true) ->
  (forall h, ok (CallDestroyCursor h) = true) ->
  (forall h, ok (CallCopyCursor h) = true) ->
  (forall a b c, ok (CallGetIconInfo a b c) = true) ->
  (forall a b c d, ok (CallDrawIcon a b c d) = true) ->
  emits ok (paint_mouse_pointer env g).
Proof.
  intros Hlog Hdel Hdes Hcopy Hinfo Hdraw.
  pose proof (emits_CURSOR_ERROR ok) as Herr.
  pose proof (emits_icon_cleanup ok) as Hclean.
  unfold paint_mouse_pointer. cbv zeta.
  repeat first
    [ apply emits_ret | apply emits_lift
    | apply emits_call; solve [auto]
    | apply Herr; assumption
    | apply Hclean; assumption
    | apply emits_when
    | apply emits_bind; [|intros ?]
    | match goal with
      | |- emits _ (if ?b then _ else _) => destruct b
      | |- emits _ (match ?v with _ => _ end) => destruct v
      end ].
Qed.

Lemma wait_for_frame_step (nonblock : bool) (tb : AVRational) (tf curtime : Z)
    (later : list Z) :
  wait_for_frame nonblock tb tf (curtime :: later) =
    if frame_delay tb tf curtime <=? 0 then
      mret (FrameDue curtime
              (if overdue tb (frame_delay tb tf curtime)
               then int64 (tf + 1000000) else tf) later)
    else if nonblock then mret (TryAgain later)
    else call (CallUsleep (uint32 (frame_delay tb tf curtime)));;
         wait_for_frame nonblock tb tf later.
Proof. reflexivity. Qed.

Lemma emits_wait_for_frame ok nonblock tb readings :
  (forall d, ok (CallUsleep d) = true) ->
  forall tf, emits ok (wait_for_frame nonblock tb tf readings).
Proof.
  intros Hsleep.
  induction readings as [|curtime later IH]; intros tf; [apply emits_ret|].
  rewrite wait_for_frame_step.
  destruct (frame_delay tb tf curtime <=? 0); [apply emits_ret|].
  destruct nonblock; [apply emits_ret|].
  apply emits_bind; [apply emits_call, Hsleep | intros _; apply IH].
Qed.

End ReadCalls.

(** Whatever it returns, a read makes no other calls than the message
    pump, the sleep, the allocation of the packet, the blit, the calls of
    the cursor overlay and the log. *)
Lemma read_emits_read_calls (env : read_env) (s1 : AVFormatContext) :
  emits read_call (gdigrab_read_packet env s1).
Proof.
  pose proof (emits_wait_for_frame read_call) as Hwait.
  pose proof (emits_paint_mouse_pointer read_call) as Hpaint.
  unfold gdigrab_read_packet, gdigrab_region_wnd_update, av_log. cbv zeta.
  repeat first
    [ apply emits_ret | apply emits_lift
    | apply emits_call; reflexivity
    | apply emits_when
    | apply Hwait; reflexivity
    | apply Hpaint; reflexivity
    | apply emits_bind; [|intros ?]
    | match goal with
      | |- emits _ (if ?b then _ else _) => destruct b
      | |- emits _ (match ?v with _ => _ end) => destruct v
      end ].
Qed.

(** ** Handles acquired and released *)

#[local] Arguments open_error : simpl never.
#[local] Arguments gdigrab_region_wnd_init : simpl never.

Lemma in_acquired (h : Z) (c : os_call) :
  In h (acquired c) ->
  h <> 0 /\
  In h match c with
       | CallGetDC _ r | CallCreateCompatibleDC _ r | CallCreateDIBSection _ _ r _
       | CallCreateWindowEx _ _ _ _ r | CallCreateRectRgn _ r | CallCopyCursor r => [r]
       | CallGetIconInfo _ mask color => [mask; color]
       | _ => []
       end.
Proof.
  unfold acquired. intros Hin. apply list_elem_of_In in Hin.
  apply list_elem_of_filter in Hin as [Hnz Hin]. apply list_elem_of_In in Hin.
  split; [exact Hnz | exact Hin].
Qed.

(** Every handle that the calls [l] hand out is one that they give back. *)
Ltac leak_free :=
  let h := fresh "h" in
  let Hin := fresh "Hin" in
  let c := fresh "c" in
  let Hc := fresh "Hc" in
  let Hnz := fresh "Hnz" in
  intros h Hin; unfold handles_acquired in Hin;
  apply in_flat_map in Hin as (c & Hc & Hin);
  apply in_acquired in Hin as (Hnz & Hin);
  cbn in Hc;
  repeat (destruct Hc as [Hc | Hc]; [subst c; cbn in Hin|]);
  try contradiction;
  repeat (destruct Hin as [Hin | Hin]; [subst h|]);
  try contradiction; try congruence;
  unfold handles_released; cbn; tauto.

Lemma open_error_run (ret wnd src dst bmp : Z) (s1 : AVFormatContext) (p : process) :
  open_error ret wnd src dst bmp s1 p =
    Done (ret, s1,
          mkProcess (reg p)
            (calls p ++
             (if nonzero src then [CallReleaseDC wnd src] else []) ++
             (if nonzero dst then [CallDeleteDC dst] else []) ++
             (if nonzero bmp then [CallDeleteObject bmp] else []) ++
             (if nonzero src then [CallDeleteDC src] else []))).
Proof.
  unfold open_error. run.
  destruct (nonzero src), (nonzero dst), (nonzero bmp); cbn;
    rewrite <- ?app_assoc, ?app_nil_r; cbn; try reflexivity; now destruct p.
Qed.

Lemma nonzero_true (z : Z) : z <> 0 -> nonzero z = true.
Proof. unfold nonzero. now destruct (Z.eqb_spec z 0). Qed.

Lemma nonzero_false (z : Z) : z = 0 -> nonzero z = false.
Proof. now intros ->. Qed.

(** X6: the creation of the region window answers 0 exactly when the
    window was created and its shape was set; it then stores the window in
    the session, has deleted the interior region and leaves the window and
    its shape alive.  Otherwise it answers 1, leaves the session as it was
    and has destroyed or deleted every window and region it created. *)
Theorem region_window_is_created_or_cleaned_up
    (env : open_env) (g : gdigrab) (p : process) :
  exists l,
    gdigrab_region_wnd_init env g p =
      Done (if nonzero (CreateWindowEx env) && SetWindowRgn env
            then (0, set_region_hwnd g (CreateWindowEx env)) else (1, g),
            mkProcess (reg p) (calls p ++ l)) /\
    (nonzero (CreateWindowEx env) && SetWindowRgn env = false ->
     incl (handles_acquired l) (handles_released l)) /\
    (nonzero (CreateWindowEx env) && SetWindowRgn env = true ->
     In (CallShowWindow (CreateWindowEx env)) l /\
     forall h, ~ In (CallDestroyWindow h) l).
Proof.
  unfold gdigrab_region_wnd_init. run.
  destruct (Z.eqb_spec (CreateWindowEx env) 0) as [Hnone | Hwnd];
    [rewrite (nonzero_false _ Hnone) | rewrite (nonzero_true _ Hwnd)]; cbn.
  - eexists. split; [rewrite <- !app_assoc; reflexivity|].
    split; [intros _; leak_free | discriminate].
  - destruct (SetWindowRgn env); cbn.
    + eexists. split; [rewrite <- !app_assoc; reflexivity|].
      split; [discriminate|]. intros _. cbn. split; [tauto|].
      intros h Hin. repeat destruct Hin as [Hin | Hin]; try discriminate Hin.
      exact Hin.
    + match goal with
      | |- context [CreateRectRgn env ?o] =>
          destruct (Z.eqb_spec (CreateRectRgn env o) 0) as [Ho | Ho];
            [rewrite (nonzero_false _ Ho) | rewrite (nonzero_true _ Ho)]
      end;
      match goal with
      | |- context [nonzero (CreateRectRgn env ?i)] =>
          destruct (Z.eqb_spec (CreateRectRgn env i) 0) as [Hi | Hi];
            [rewrite (nonzero_false _ Hi) | rewrite (nonzero_true _ Hi)]
      end; cbn;
      (eexists; split; [rewrite <- !app_assoc; reflexivity|]);
      (split; [intros _; leak_free | discriminate]).
Qed.

Lemma av_inv_q_involutive (q : AVRational) : av_inv_q (av_inv_q q) = q.
Proof. now destruct q. Qed.

(** The run of [gdigrab_region_wnd_init], with the calls of a success
    written out. *)
Lemma region_wnd_init_run (env : open_env) (g : gdigrab) (p : process) :
  exists l,
    gdigrab_region_wnd_init env g p =
      Done (if nonzero (CreateWindowEx env) && SetWindowRgn env
            then (0, set_region_hwnd g (CreateWindowEx env)) else (1, g),
            mkProcess (reg p) (calls p ++ l)) /\
    if nonzero (CreateWindowEx env) && SetWindowRgn env then
      exists a b c d outer inner,
        l = [CallCreateWindowEx a b c d (CreateWindowEx env);
             CallCreateRectRgn outer (CreateRectRgn env outer);
             CallCreateRectRgn inner (CreateRectRgn env inner);
             CallSetWindowRgn (CreateWindowEx env) (CreateRectRgn env outer);
             CallDeleteObject (CreateRectRgn env inner);
             CallShowWindow (CreateWindowEx env)]
    else incl (handles_acquired l) (handles_released l).
Proof.
  unfold gdigrab_region_wnd_init. run.
  destruct (Z.eqb_spec (CreateWindowEx env) 0) as [Hnone | Hwnd];
    [rewrite (nonzero_false _ Hnone) | rewrite (nonzero_true _ Hwnd)]; cbn.
  - eexists. split; [rewrite <- !app_assoc; reflexivity | leak_free].
  - destruct (SetWindowRgn env); cbn.
    + eexists. split; [rewrite <- !app_assoc; reflexivity|].
      eexists _, _, _, _, _, _. reflexivity.
    + match goal with
      | |- context [CreateRectRgn env ?o] =>
          destruct (Z.eqb_spec (CreateRectRgn env o) 0) as [Ho | Ho];
            [rewrite (nonzero_false _ Ho) | rewrite (nonzero_true _ Ho)]
      end;
      match goal with
      | |- context [nonzero (CreateRectRgn env ?i)] =>
          destruct (Z.eqb_spec (CreateRectRgn env i) 0) as [Hi | Hi];
            [rewrite (nonzero_false _ Hi) | rewrite (nonzero_true _ Hi)]
      end; cbn;
      (eexists; split; [rewrite <- !app_assoc; reflexivity | leak_free]).
Qed.

Ltac failed_leaf Hrun :=
  rewrite open_error_run in Hrun; cbn in Hrun;
  repeat match type of Hrun with
         | context [nonzero ?z] =>
             first [ rewrite (nonzero_true z ltac:(assumption)) in Hrun
                   | rewrite (nonzero_false z ltac:(assumption)) in Hrun ]
         end;
  cbn in Hrun;
  injection Hrun as <- <- <-; cbn;
  eexists; (split; [rewrite <- ?app_assoc; reflexivity|]);
  (split; [reflexivity|]); right;
  (split; [auto|]);
  (split; [leak_free | unfold handles_released; cbn; tauto]).

(** The two ways [open_capture] ends: with 0, a session that holds the
    handles it acquired and the calls written out, or with an error once
    everything acquired, the source context included, has been released. *)
Lemma open_capture_outcome (env : open_env) (s1 : AVFormatContext)
    (wnd : Z) (name : option string) (src : Z) (virt : RECT)
    (p : process) (ret : Z) (s1' : AVFormatContext) (p' : process) :
  src <> 0 ->
  open_capture env s1 wnd name src virt p = Done (ret, s1', p') ->
  let g := priv_data s1 in
  let g' := priv_data s1' in
  let clip := resolve_clip_rect g virt in
  exists l,
    calls p' = calls p ++ l /\ reg p' = reg p /\
    ((ret = 0 /\
      CreateCompatibleDC env <> 0 /\ (CreateDIBSection env).1 <> 0 /\
      g' = mkGdigrab (dib_frame_size (GetObject env)) (dib_header_size (BITSPIXEL env))
             (av_inv_q (framerate g))
             (Dbl.to_int64 (Dbl.of_int (av_gettime env)
                            / av_q2d (av_inv_q (framerate g)))%float)
             (draw_mouse g) (show_region g) (framerate g) (width g) (height g)
             (offset_x g) (offset_y g) wnd src (CreateCompatibleDC env)
             (mkBIH sizeof_BITMAPINFOHEADER
                (int32 (Rect.right clip - Rect.left clip))
                (int32 (- int32 (Rect.bottom clip - Rect.top clip))) 1
                (BITSPIXEL env mod 2 ^ 16) 0 0 0 0 0 0)
             (CreateDIBSection env).1 (CreateDIBSection env).2 clip
             (if nonzero (show_region g) then CreateWindowEx env else region_hwnd g)
             0 /\
      (nonzero (show_region g) = true -> CreateWindowEx env <> 0) /\
      url s1' = url s1 /\ flags s1' = flags s1 /\
      (exists st, streams s1' = streams s1 ++ [st] /\
                  st_time_base st = Q.mk 1 1000000 /\
                  avg_frame_rate st = framerate g /\
                  codec_is_bmp_video st = true /\ pts_wrap_bits st = 64) /\
      exists msg lr,
        l = [CallLog msg;
             CallCreateCompatibleDC src (CreateCompatibleDC env);
             CallCreateDIBSection (CreateCompatibleDC env) (bmi g')
               (CreateDIBSection env).1 (CreateDIBSection env).2;
             CallSelectObject (CreateCompatibleDC env) (CreateDIBSection env).1;
             CallNewStream] ++ lr /\
        if nonzero (show_region g) then
          exists a b c d outer inner,
            lr = [CallCreateWindowEx a b c d (CreateWindowEx env);
                  CallCreateRectRgn outer (CreateRectRgn env outer);
                  CallCreateRectRgn inner (CreateRectRgn env inner);
                  CallSetWindowRgn (CreateWindowEx env) (CreateRectRgn env outer);
                  CallDeleteObject (CreateRectRgn env inner);
                  CallShowWindow (CreateWindowEx env)]
        else lr = []) \/
     ((ret = AVERROR EIO \/ ret = AVERROR ENOMEM) /\
      incl (handles_acquired l) (handles_released l) /\
      In src (handles_released l))).
Proof.
  intros Hsrc Hrun g g' clip. unfold open_capture in Hrun.
  fold g in Hrun. fold clip in Hrun.
  destruct (extends_outside clip virt) eqn:Hout.
  { run_in Hrun. failed_leaf Hrun. }
  run_in Hrun. fold g clip in Hrun.
  destruct (invalid_properties clip (BITSPIXEL env)) eqn:Hprops; cbn in Hrun.
  { failed_leaf Hrun. }
  destruct (Z.eqb_spec (CreateCompatibleDC env) 0) as [Hdst | Hdst]; cbn in Hrun.
  { failed_leaf Hrun. }
  destruct (Z.eqb_spec (CreateDIBSection env).1 0) as [Hbmp | Hbmp]; cbn in Hrun.
  { failed_leaf Hrun. }
  destruct (SelectObject env); cbn in Hrun.
  2:{ failed_leaf Hrun. }
  destruct (avformat_new_stream env); cbn in Hrun.
  2:{ failed_leaf Hrun. }
  destruct (nonzero (show_region g)) eqn:Hregion; cbn in Hrun.
  - match type of Hrun with
    | context [gdigrab_region_wnd_init ?e ?g0 ?p0] =>
        destruct (region_wnd_init_run e g0 p0) as (lr & Hinit & Hlr);
          rewrite Hinit in Hrun; clear Hinit
    end.
    destruct (nonzero (CreateWindowEx env) && SetWindowRgn env) eqn:Hcreated;
      cbn in Hrun.
    + injection Hrun as <- <- <-. cbn.
      eexists. split; [rewrite <- ?app_assoc; reflexivity|]. split; [reflexivity|].
      left. subst g' clip g. cbn.
      apply andb_true_iff in Hcreated as [Hwnd _].
      repeat split; try assumption; try reflexivity.
      * intros _ Hnone. now rewrite Hnone in Hwnd.
      * eexists. repeat split; try reflexivity. cbn. apply av_inv_q_involutive.
      * eexists _, lr. split; [reflexivity | exact Hlr].
    + rewrite open_error_run in Hrun; cbn in Hrun.
      rewrite (nonzero_true _ Hsrc), (nonzero_true _ Hdst), (nonzero_true _ Hbmp) in Hrun.
      cbn in Hrun. injection Hrun as <- <- <-. cbn.
      eexists. split; [rewrite <- ?app_assoc; reflexivity|]. split; [reflexivity|].
      right. split; [auto|]. split.
      * intros h Hin. unfold handles_acquired, handles_released in *.
        rewrite !flat_map_app in *. cbn in Hin |- *.
        rewrite !in_app_iff in *. cbn.
        pose proof (Hlr h) as Hback.
        repeat destruct (decide _); cbn in Hin; intuition (subst; auto).
      * unfold handles_released. rewrite !flat_map_app. cbn.
        rewrite !in_app_iff. cbn. tauto.
  - injection Hrun as <- <- <-. cbn.
    eexists. split; [rewrite <- ?app_assoc; reflexivity|]. split; [reflexivity|].
    left. subst g' clip g. cbn.
    repeat split; try assumption; try reflexivity; try discriminate.
    + eexists. repeat split; try reflexivity. cbn. apply av_inv_q_involutive.
    + eexists _, []. split; reflexivity.
Qed.

Lemma logs_hold_no_handle (logs : list os_call) :
  forallb is_log logs = true ->
  handles_acquired logs = [] /\ handles_released logs = [].
Proof.
  induction logs as [|c logs IH]; [auto|]. cbn. intros Hlogs.
  apply andb_true_iff in Hlogs as [Hc Hrest].
  destruct c; try discriminate Hc. cbn. now apply IH.
Qed.

(** The two ways [open_target] ends: with [AVERROR(EIO)] and no handle
    held, or with the window (0 for the desktop), its name and its device
    context, the only handle acquired; it has cleared [show_region] when
    the target is a window. *)
Lemma open_target_outcome (env : open_env) (s1 : AVFormatContext) (p : process)
    (t : Z + Z * option string * Z) (s1t : AVFormatContext) (p1 : process) :
  open_target env s1 p = Done (t, s1t, p1) ->
  reg p1 = reg p /\
  url s1t = url s1 /\ flags s1t = flags s1 /\ streams s1t = streams s1 /\
  exists l,
    calls p1 = calls p ++ l /\ handles_released l = [] /\
    match t with
    | inl ret => ret = AVERROR EIO /\ handles_acquired l = []
    | inr (wnd, name, src) =>
        name = window_name (url s1) /\
        wnd = match name with Some n => FindWindow env n | None => 0 end /\
        src = GetDC env wnd /\ src <> 0 /\
        (exists logs, l = logs ++ [CallGetDC wnd src] /\ forallb is_log logs = true) /\
        (priv_data s1t = priv_data s1 \/
         wnd <> 0 /\ priv_data s1t = set_show_region (priv_data s1) 0) /\
        (wnd <> 0 -> show_region (priv_data s1t) = 0)
    end.
Proof.
  unfold open_target. run. intros Hrun.
  destruct (window_name (url s1)) as [n|].
  - destruct (Z.eqb_spec (FindWindow env n) 0) as [Hnone | Hwnd]; cbn in Hrun.
    { injection Hrun as <- <- <-. cbn. repeat split.
      exists [CallLog (CantFindWindow n)]. repeat split. }
    destruct (Z.eqb_spec (show_region (priv_data s1)) 0) as [Hhidden | Hshown];
      [rewrite (nonzero_false _ Hhidden) in Hrun
      | rewrite (nonzero_true _ Hshown) in Hrun]; cbn in Hrun;
      destruct (Z.eqb_spec (GetDC env (FindWindow env n)) 0) as [Hz | Hsrc];
      cbn in Hrun; injection Hrun as <- <- <-; cbn; repeat split;
      (eexists; split; [rewrite <- ?app_assoc; reflexivity|]); cbn;
      try (rewrite Hz; repeat split; fail);
      repeat split; try assumption; try tauto.
    + exists []. split; reflexivity.
    + exists [CallLog CantShowRegion]. split; reflexivity.
  - destruct (String.eqb (url s1) "desktop"); cbn in Hrun.
    + destruct (Z.eqb_spec (GetDC env 0) 0) as [Hz | Hsrc];
        cbn in Hrun; injection Hrun as <- <- <-; cbn; repeat split;
        (eexists; split; [rewrite <- ?app_assoc; reflexivity|]); cbn;
        try (rewrite Hz; repeat split; fail);
        repeat split; try assumption; try tauto; try contradiction.
      exists []. split; reflexivity.
    + injection Hrun as <- <- <-. cbn. repeat split.
      exists [CallLog BadTarget]. repeat split.
Qed.

(** [gdigrab_read_header] ends in [open_target] or goes through the three
    steps. *)
Lemma read_header_steps (env : open_env) (s1 : AVFormatContext) (p : process)
    (ret : Z) (s1' : AVFormatContext) (p' : process) :
  gdigrab_read_header env s1 p = Done (ret, s1', p') ->
  (exists p1, open_target env s1 p = Done (inl ret, s1', p1) /\
              calls p' = calls p1 /\ reg p' = reg p1) \/
  (exists wnd name src s1t p1 virt p2,
     open_target env s1 p = Done (inr (wnd, name, src), s1t, p1) /\
     measure_target env wnd p1 = Done (virt, p2) /\
     open_capture env s1t wnd name src virt p2 = Done (ret, s1', p')).
Proof.
  unfold gdigrab_read_header. unfold mbind at 1, M_bind at 1. intros Hrun.
  destruct (open_target env s1 p) as [[[[r | [[wnd name] src]] s1t] p1]|] eqn:Htarget;
    [| |discriminate].
  - left. rewrite open_error_run in Hrun. cbn in Hrun.
    injection Hrun as <- <- <-. exists p1. cbn. rewrite !app_nil_r. auto.
  - right. unfold mbind at 1, M_bind at 1 in Hrun.
    destruct (measure_target env wnd p1) as [[virt p2]|] eqn:Hmeasure; [|discriminate].
    eexists _, _, _, _, _, _, _. eauto.
Qed.

(** X7: an open that does not return 0 returns [AVERROR(EIO)] or
    [AVERROR(ENOMEM)], and every handle that its calls handed out (device
    contexts, bitmap, window, regions) was given back before it returned. *)
Theorem failed_open_releases_what_it_acquired
    (env : open_env) (s1 : AVFormatContext) (p : process)
    (ret : Z) (s1' : AVFormatContext) (p' : process) :
  gdigrab_read_header env s1 p = Done (ret, s1', p') ->
  ret <> 0 ->
  (ret = AVERROR EIO \/ ret = AVERROR ENOMEM) /\
  exists l,
    calls p' = calls p ++ l /\
    incl (handles_acquired l) (handles_released l).
Proof.
  intros Hrun Hret.
  destruct (read_header_steps _ _ _ _ _ _ Hrun)
    as [(p1 & Htarget & Hcalls & _)
       | (wnd & name & src & s1t & p1 & virt & p2 & Htarget & Hmeasure & Hcapture)].
  - apply open_target_outcome in Htarget
      as (_ & _ & _ & _ & l & Hl & _ & -> & Hnone).
    split; [now left|]. exists l. rewrite Hcalls. split; [exact Hl|].
    rewrite Hnone. intros h [].
  - apply open_target_outcome in Htarget
      as (_ & _ & _ & _ & l1 & Hl1 & _ & _ & _ & _ & Hsrc & (logs & -> & Hlogs) & _).
    apply measure_target_calls in Hmeasure.
    destruct (open_capture_outcome _ _ _ _ _ _ _ _ _ _ Hsrc Hcapture)
      as (l2 & Hl2 & _ & [(Hzero & _) | (Herr & Hback & Hsource)]);
      [contradiction|].
    split; [exact Herr|].
    exists ((logs ++ [CallGetDC wnd src]) ++ l2).
    split; [rewrite Hl2, Hmeasure, Hl1, <- !app_assoc; reflexivity|].
    destruct (logs_hold_no_handle logs Hlogs) as [Hacq Hrel].
    intros h. unfold handles_acquired, handles_released in *.
    rewrite !flat_map_app, !in_app_iff, Hacq, Hrel. cbn.
    intros [[[] | Hin] | Hin].
    + right. apply in_app_or in Hin as [Hin | []].
      destruct (decide (src <> 0)); [|contradiction].
      destruct Hin as [<- | []]. exact Hsource.
    + right. now apply Hback.
Qed.

Lemma failed_open_releases_what_it_acquired_witness :
  exists ret s1' l,
    Sample.failed_open = Done (ret, s1', mkProcess Sample.registry_800x600 l) /\
    ret = AVERROR EIO /\
    incl (handles_acquired l) (handles_released l).
Proof.
  destruct Sample.failed_open as [[[ret s1'] p']|] eqn:Hrun.
  - pose proof Hrun as Hval. vm_compute in Hval.
    assert (Hret : ret <> 0) by (injection Hval as <- _ _; discriminate).
    destruct (failed_open_releases_what_it_acquired _ _ _ _ _ _ Hrun Hret)
      as (_ & l & Hl & Hback).
    exists ret, s1', l. cbn in Hl. subst l.
    injection Hval as <- <- <-. repeat split. exact Hback.
  - vm_compute in Hrun. discriminate Hrun.
Defined.

Lemma top_down_height (h : Z) : 0 < int32 h -> int32 (- int32 h) = - int32 h.
Proof.
  intros Hpos. pose proof (int32_range h) as Hrange.
  apply int32_small. unfold in_int32, INT_MIN, INT_MAX in *. lia.
Qed.

(** X8: an open that returns 0 leaves a session ready to be read.  Its
    source context, destination context and bitmap are not null and are the
    ones the calls of the open returned, the bitmap being selected into the
    destination context.  The open has released no context and destroyed no
    window, and the only handle it has given back is the interior region of
    the region window, which it created itself: no handle of the session
    was released unless the system handed it out again for that region.
    When the region is still to be shown the target is the desktop and the
    region window exists and was shown.  The bitmap header describes a
    top-down image of the size of the clip rectangle, the time base is the
    inverse of the frame rate, no cursor error is recorded yet and one BMP
    video stream with timestamps in microseconds was added. *)
Theorem successful_open_leaves_a_ready_session
    (env : open_env) (s1 : AVFormatContext) (p : process)
    (s1' : AVFormatContext) (p' : process) :
  gdigrab_read_header env s1 p = Done (0, s1', p') ->
  let g := priv_data s1 in
  let g' := priv_data s1' in
  let l := calls_of (gdigrab_read_header env s1) p in
  (source_hdc g' <> 0 /\ dest_hdc g' <> 0 /\ hbmp g' <> 0 /\
   In (CallGetDC (hwnd g') (source_hdc g')) l /\
   In (CallCreateCompatibleDC (source_hdc g') (dest_hdc g')) l /\
   In (CallCreateDIBSection (dest_hdc g') (bmi g') (hbmp g') (buffer g')) l /\
   In (CallSelectObject (dest_hdc g') (hbmp g')) l) /\
  (show_region g' <> 0 ->
   hwnd g' = 0 /\ region_hwnd g' <> 0 /\ In (CallShowWindow (region_hwnd g')) l) /\
  ((forall w h, ~ In (CallReleaseDC w h) l) /\
   (forall h, ~ In (CallDeleteDC h) l) /\
   (forall h, ~ In (CallDestroyWindow h) l) /\
   (forall h, In h (handles_released l) ->
      show_region g' <> 0 /\
      exists inner, h = CreateRectRgn env inner /\
                    In (CallCreateRectRgn inner h) l /\ In (CallDeleteObject h) l) /\
   (forall h, (forall r, CreateRectRgn env r <> h) -> ~ In h (handles_released l))) /\
  (biSize (bmi g') = sizeof_BITMAPINFOHEADER /\ biPlanes (bmi g') = 1 /\
   biCompression (bmi g') = 0 /\
   biWidth (bmi g') = int32 (Rect.right (clip_rect g') - Rect.left (clip_rect g')) /\
   0 < biWidth (bmi g') /\
   biHeight (bmi g') = - int32 (Rect.bottom (clip_rect g') - Rect.top (clip_rect g')) /\
   biHeight (bmi g') < 0) /\
  (time_base g' = av_inv_q (framerate g) /\ framerate g' = framerate g /\
   cursor_error_printed g' = 0) /\
  url s1' = url s1 /\ flags s1' = flags s1 /\
  exists st,
    streams s1' = streams s1 ++ [st] /\
    st_time_base st = Q.mk 1 1000000 /\ pts_wrap_bits st = 64 /\
    avg_frame_rate st = framerate g /\ codec_is_bmp_video st = true.
Proof.
  intros Hrun g g' l. subst g'.
  destruct (read_header_steps _ _ _ _ _ _ Hrun)
    as [(p1 & Htarget & _)
       | (wnd & name & src & s1t & p1 & virt & p2 & Htarget & Hmeasure & Hcapture)].
  { apply open_target_outcome in Htarget as (_ & _ & _ & _ & _ & _ & _ & Hret & _).
    discriminate Hret. }
  apply open_target_outcome in Htarget
    as (_ & Hurl & Hflags & Hstreams & l1 & Hl1 & _ & _ & _ & Hdc & Hsrc &
        (logs & -> & Hlogs) & Hpriv & Hwindow).
  apply measure_target_calls in Hmeasure.
  destruct (open_capture_success _ _ _ _ _ _ _ _ _ Hcapture)
    as (_ & Hprops & Hclip & _).
  destruct (open_capture_outcome _ _ _ _ _ _ _ _ _ _ Hsrc Hcapture)
    as (l2 & Hl2 & _ & [Hok | ([Herr | Herr] & _)]); try discriminate Herr.
  destruct Hok as (_ & Hdst & Hbmp & Hsession & Hregion & Hurl' & Hflags' &
                   (st & Hst & Htb & Hrate & Hcodec & Hbits) & msg & lr & -> & Hlr).
  assert (Hframerate : framerate (priv_data s1t) = framerate g)
    by (destruct Hpriv as [-> | [_ ->]]; reflexivity).
  assert (Hl : l = (logs ++ [CallGetDC wnd src]) ++
                   [CallLog msg; CallCreateCompatibleDC src (CreateCompatibleDC env);
                    CallCreateDIBSection (CreateCompatibleDC env) (bmi (priv_data s1'))
                      (CreateDIBSection env).1 (CreateDIBSection env).2;
                    CallSelectObject (CreateCompatibleDC env) (CreateDIBSection env).1;
                    CallNewStream] ++ lr).
  { apply (calls_of_app _ _ _ _ _ Hrun).
    rewrite Hl2, Hmeasure, Hl1, <- !app_assoc. reflexivity. }
  clearbody l. subst l.
  unfold invalid_properties in Hprops. rewrite <- Hclip in Hprops.
  apply orb_false_iff in Hprops as [Hprops _].
  apply orb_false_iff in Hprops as [Hwidth Hheight].
  apply Z.leb_gt in Hwidth, Hheight.
  assert (Hfields :
            source_hdc (priv_data s1') = src /\ dest_hdc (priv_data s1') = CreateCompatibleDC env /\
            hbmp (priv_data s1') = (CreateDIBSection env).1 /\ buffer (priv_data s1') = (CreateDIBSection env).2 /\
            hwnd (priv_data s1') = wnd /\ show_region (priv_data s1') = show_region (priv_data s1t) /\
            region_hwnd (priv_data s1') = (if nonzero (show_region (priv_data s1t))
                              then CreateWindowEx env
                              else region_hwnd (priv_data s1t)) /\
            biSize (bmi (priv_data s1')) = sizeof_BITMAPINFOHEADER /\ biPlanes (bmi (priv_data s1')) = 1 /\
            biCompression (bmi (priv_data s1')) = 0 /\
            biWidth (bmi (priv_data s1')) =
              int32 (Rect.right (clip_rect (priv_data s1')) - Rect.left (clip_rect (priv_data s1'))) /\
            biHeight (bmi (priv_data s1')) =
              int32 (- int32 (Rect.bottom (clip_rect (priv_data s1')) - Rect.top (clip_rect (priv_data s1')))) /\
            time_base (priv_data s1') = av_inv_q (framerate (priv_data s1t)) /\
            framerate (priv_data s1') = framerate (priv_data s1t) /\
            cursor_error_printed (priv_data s1') = 0)
    by (rewrite Hsession; cbn; repeat split; reflexivity).
  destruct Hfields as (Es & Ed & Eb & Ebuf & Ew & Eshow & Eregion & Esize & Eplanes &
                       Ecomp & Ewidth & Eheight & Etb & Erate & Eprinted).
  rewrite Es, Ed, Eb, Ebuf, Ew, Eshow, Eregion, Esize, Eplanes, Ecomp, Ewidth, Eheight,
    Etb, Erate, Eprinted, Hframerate, (top_down_height _ Hheight).
  split; [|split; [|split; [|split; [|split]]]].
  - repeat split; try assumption;
      rewrite !in_app_iff; cbn; tauto.
  - intros Hshown.
    assert (Hdesktop : wnd = 0).
    { destruct (Z.eq_dec wnd 0) as [Hz | Hnz]; [exact Hz|].
      now apply Hwindow in Hnz. }
    rewrite (nonzero_true _ Hshown) in Hlr |- *.
    destruct Hlr as (a & b & c & d & outer & inner & ->).
    split; [exact Hdesktop|]. split; [now apply Hregion, nonzero_true|].
    rewrite !in_app_iff. cbn. tauto.
  - assert (Hkeeps : forallb (fun c => match c with
                                       | CallReleaseDC _ _ | CallDeleteDC _
                                       | CallDestroyWindow _ => false
                                       | _ => true
                                       end) lr = true).
    { destruct (nonzero (show_region (priv_data s1t)));
        [destruct Hlr as (a & b & c & d & outer & inner & ->) | subst lr]; reflexivity. }
    rewrite forallb_forall in Hkeeps.
    assert (Hlogs' : forall c, In c logs -> is_log c = true)
      by (now apply forallb_forall).
    assert (Hgiven : forall h,
               In h (handles_released
                       ((logs ++ [CallGetDC wnd src]) ++
                        [CallLog msg;
                         CallCreateCompatibleDC src (CreateCompatibleDC env);
                         CallCreateDIBSection (CreateCompatibleDC env)
                           (bmi (priv_data s1'))
                           (CreateDIBSection env).1 (CreateDIBSection env).2;
                         CallSelectObject (CreateCompatibleDC env)
                           (CreateDIBSection env).1;
                         CallNewStream] ++ lr)) ->
               nonzero (show_region (priv_data s1t)) = true /\
               exists inner, h = CreateRectRgn env inner /\
                             In (CallCreateRectRgn inner h) lr /\
                             In (CallDeleteObject h) lr).
    { intros h. unfold handles_released. rewrite !flat_map_app.
      destruct (logs_hold_no_handle logs Hlogs) as [_ Hnone].
      unfold handles_released in Hnone. rewrite Hnone. cbn.
      destruct (nonzero (show_region (priv_data s1t)));
        [destruct Hlr as (a & b & c & d & outer & inner & ->) | subst lr]; cbn;
        [|tauto].
      intros [<- | []]. split; [reflexivity|]. exists inner. tauto. }
    split; [|split; [|split; [|split]]].
    1-3: intros; intros Hin;
      repeat (apply in_app_or in Hin as [Hin | Hin]); cbn in Hin;
      try (apply Hlogs' in Hin; discriminate Hin);
      try (apply Hkeeps in Hin; discriminate Hin);
      repeat destruct Hin as [Hin | Hin]; try discriminate Hin; try contradiction.
    + intros h Hin. destruct (Hgiven h Hin) as (Hshown & inner & -> & Hmade & Hgone).
      split.
      { intros Hzero. now rewrite Hzero in Hshown. }
      exists inner. rewrite !in_app_iff. auto.
    + intros h Hfresh Hin. destruct (Hgiven h Hin) as (_ & inner & -> & _).
      now apply (Hfresh inner).
  - repeat split; try reflexivity; lia.
  - repeat split.
  - split; [congruence|]. split; [congruence|].
    exists st. rewrite Hst, Hstreams, Hrate, Hframerate. auto.
Qed.

Lemma successful_open_leaves_a_ready_session_witness :
  exists s1' p',
    gdigrab_read_header
      (Sample.desktop [Sample.monitor_800x600 1] 800 600 32 Sample.bmp_4x2 5000000)
      (Sample.request "desktop" 0 (Sample.fresh_gdigrab (Q.mk 10 1) 4 2 0 0 1))
      Sample.fresh
    = Done (0, s1', p') /\
    source_hdc (priv_data s1') = 101 /\
    region_hwnd (priv_data s1') = 104 /\
    In (CallShowWindow 104) (calls p') /\
    biHeight (bmi (priv_data s1')) = -2 /\
    forall h, ~ In (CallDeleteDC h) (calls p').
Proof.
  destruct (gdigrab_read_header
              (Sample.desktop [Sample.monitor_800x600 1] 800 600 32 Sample.bmp_4x2 5000000)
              (Sample.request "desktop" 0 (Sample.fresh_gdigrab (Q.mk 10 1) 4 2 0 0 1))
              Sample.fresh) as [[[ret s1'] p']|] eqn:Hrun.
  - pose proof Hrun as Hval. vm_compute in Hval.
    assert (Hret : ret = 0) by (injection Hval as <- _ _; reflexivity).
    subst ret.
    destruct (successful_open_leaves_a_ready_session _ _ _ _ _ Hrun)
      as (_ & Hregion & (_ & Hkept & _) & _).
    unfold calls_of in Hregion, Hkept. rewrite Hrun in Hregion, Hkept.
    cbn [Sample.fresh calls length drop] in Hregion, Hkept.
    assert (Hs : region_hwnd (priv_data s1') = 104 /\ show_region (priv_data s1') <> 0 /\
                 source_hdc (priv_data s1') = 101 /\
                 biHeight (bmi (priv_data s1')) = -2)
      by (injection Hval as <- _; repeat split; discriminate).
    destruct Hs as (Hwnd & Hshown & Hsource & Hheight).
    destruct (Hregion Hshown) as (_ & _ & Hshow). rewrite Hwnd in Hshow.
    exists s1', p'. repeat split; assumption.
  - vm_compute in Hrun. discriminate Hrun.
Defined.

(** ** Opening and closing *)

Lemma read_close_run (s1 : AVFormatContext) (p : process) :
  let g := priv_data s1 in
  gdigrab_read_close s1 p =
    Done (0, with_priv s1 (if nonzero (show_region g) then set_region_hwnd g 0 else g),
          mkProcess (reg p)
            (calls p ++
             (if nonzero (show_region g) && nonzero (region_hwnd g)
              then [CallDestroyWindow (region_hwnd g)] else []) ++
             (if nonzero (source_hdc g)
              then [CallReleaseDC (hwnd g) (source_hdc g)] else []) ++
             (if nonzero (dest_hdc g) then [CallDeleteDC (dest_hdc g)] else []) ++
             (if nonzero (hbmp g) then [CallDeleteObject (hbmp g)] else []) ++
             (if nonzero (source_hdc g) then [CallDeleteDC (source_hdc g)] else []))).
Proof.
  intros g. subst g. unfold gdigrab_read_close, gdigrab_region_wnd_destroy. run.
  destruct (nonzero (show_region (priv_data s1))); cbn;
    [destruct (nonzero (region_hwnd (priv_data s1))); cbn|];
    destruct (nonzero (source_hdc (priv_data s1))),
             (nonzero (dest_hdc (priv_data s1))),
             (nonzero (hbmp (priv_data s1))); cbn;
    rewrite <- ?app_assoc, ?app_nil_r; cbn; try reflexivity; now destruct p.
Qed.

(** The calls of an open that returns 0 and the handles it leaves in the
    session. *)
Lemma read_header_ok (env : open_env) (s1 : AVFormatContext) (p : process)
    (s1' : AVFormatContext) (p' : process) :
  gdigrab_read_header env s1 p = Done (0, s1', p') ->
  let g' := priv_data s1' in
  exists logs msg lr,
    calls p' =
      calls p ++ (logs ++ [CallGetDC (hwnd g') (source_hdc g')]) ++
      [CallLog msg;
       CallCreateCompatibleDC (source_hdc g') (dest_hdc g');
       CallCreateDIBSection (dest_hdc g') (bmi g') (hbmp g') (buffer g');
       CallSelectObject (dest_hdc g') (hbmp g');
       CallNewStream] ++ lr /\
    forallb is_log logs = true /\
    (if nonzero (show_region g') then
       exists a b c d outer inner,
         lr = [CallCreateWindowEx a b c d (region_hwnd g');
               CallCreateRectRgn outer (CreateRectRgn env outer);
               CallCreateRectRgn inner (CreateRectRgn env inner);
               CallSetWindowRgn (region_hwnd g') (CreateRectRgn env outer);
               CallDeleteObject (CreateRectRgn env inner);
               CallShowWindow (region_hwnd g')]
     else lr = [] /\ region_hwnd g' = region_hwnd (priv_data s1)) /\
    source_hdc g' <> 0 /\ dest_hdc g' <> 0 /\ hbmp g' <> 0 /\
    (nonzero (show_region g') = true -> region_hwnd g' <> 0) /\
    hwnd g' = match window_name (url s1) with
              | Some n => FindWindow env n
              | None => 0
              end /\
    (hwnd g' <> 0 -> show_region g' = 0).
Proof.
  intros Hrun g'. subst g'.
  destruct (read_header_steps _ _ _ _ _ _ Hrun)
    as [(p1 & Htarget & _)
       | (wnd & name & src & s1t & p1 & virt & p2 & Htarget & Hmeasure & Hcapture)].
  { apply open_target_outcome in Htarget as (_ & _ & _ & _ & _ & _ & _ & Hret & _).
    discriminate Hret. }
  apply open_target_outcome in Htarget
    as (_ & _ & _ & _ & l1 & Hl1 & _ & -> & Hwnd & _ & Hsrc &
        (logs & -> & Hlogs) & Hpriv & Hwindow).
  apply measure_target_calls in Hmeasure.
  destruct (open_capture_outcome _ _ _ _ _ _ _ _ _ _ Hsrc Hcapture)
    as (l2 & Hl2 & _ & [Hok | ([Herr | Herr] & _)]); try discriminate Herr.
  destruct Hok as (_ & Hdst & Hbmp & Hsession & Hregion & _ & _ & _ &
                   msg & lr & -> & Hlr).
  assert (Hfields :
            source_hdc (priv_data s1') = src /\
            dest_hdc (priv_data s1') = CreateCompatibleDC env /\
            hbmp (priv_data s1') = (CreateDIBSection env).1 /\
            buffer (priv_data s1') = (CreateDIBSection env).2 /\
            hwnd (priv_data s1') = wnd /\
            show_region (priv_data s1') = show_region (priv_data s1t) /\
            region_hwnd (priv_data s1') =
              (if nonzero (show_region (priv_data s1t))
               then CreateWindowEx env else region_hwnd (priv_data s1t)))
    by (rewrite Hsession; cbn; repeat split; reflexivity).
  destruct Hfields as (Es & Ed & Eb & Ebuf & Ew & Eshow & Eregion).
  exists logs, msg, lr.
  rewrite Es, Ed, Eb, Ebuf, Ew, Eshow, Eregion.
  split; [rewrite Hl2, Hmeasure, Hl1, <- !app_assoc; reflexivity|].
  split; [exact Hlogs|].
  split.
  { destruct (nonzero (show_region (priv_data s1t))); [exact Hlr|].
    split; [exact Hlr|]. destruct Hpriv as [-> | [_ ->]]; reflexivity. }
  repeat split; try assumption.
  intros Hshown. rewrite Hshown. now apply Hregion.
Qed.

(** X9: closing a session that an open has just left returns 0 and makes
    exactly these calls: the region window is destroyed when the region is
    shown, then the source context is released, the destination context and
    the bitmap are deleted, and the source context is deleted.  Every handle
    the open acquired is given back by the open itself or by the close, or
    is the region handed to the region window as its shape; and the close
    gives back nothing that the open did not acquire. *)
Theorem close_gives_back_what_open_holds
    (env : open_env) (s1 : AVFormatContext) (p : process)
    (s1' : AVFormatContext) (p' : process) :
  gdigrab_read_header env s1 p = Done (0, s1', p') ->
  let g' := priv_data s1' in
  let lo := calls_of (gdigrab_read_header env s1) p in
  let lc := calls_of (gdigrab_read_close s1') p' in
  (exists s2 p2, gdigrab_read_close s1' p' = Done (0, s2, p2)) /\
  lc = (if nonzero (show_region g') then [CallDestroyWindow (region_hwnd g')] else []) ++
       [CallReleaseDC (hwnd g') (source_hdc g'); CallDeleteDC (dest_hdc g');
        CallDeleteObject (hbmp g'); CallDeleteDC (source_hdc g')] /\
  (forall h, In h (handles_acquired lo) ->
     In h (handles_released lo) \/ In h (handles_released lc) \/
     exists w, In (CallSetWindowRgn w h) lo) /\
  incl (handles_released lc) (handles_acquired lo).
Proof.
  intros Hrun g' lo lc. subst g'.
  destruct (read_header_ok _ _ _ _ _ Hrun)
    as (logs & msg & lr & Hopen & Hlogs & Hlr & Hsrc & Hdst & Hbmp & Hwnd & _).
  pose proof (read_close_run s1' p') as Hclose. cbv zeta in Hclose.
  assert (Hlo : lo = (logs ++ [CallGetDC (hwnd (priv_data s1')) (source_hdc (priv_data s1'))]) ++
                     [CallLog msg;
                      CallCreateCompatibleDC (source_hdc (priv_data s1'))
                        (dest_hdc (priv_data s1'));
                      CallCreateDIBSection (dest_hdc (priv_data s1')) (bmi (priv_data s1'))
                        (hbmp (priv_data s1')) (buffer (priv_data s1'));
                      CallSelectObject (dest_hdc (priv_data s1')) (hbmp (priv_data s1'));
                      CallNewStream] ++ lr)
    by (apply (calls_of_app _ _ _ _ _ Hrun); exact Hopen).
  assert (Hlc : lc = (if nonzero (show_region (priv_data s1'))
                      then [CallDestroyWindow (region_hwnd (priv_data s1'))] else []) ++
                     [CallReleaseDC (hwnd (priv_data s1')) (source_hdc (priv_data s1'));
                      CallDeleteDC (dest_hdc (priv_data s1'));
                      CallDeleteObject (hbmp (priv_data s1'));
                      CallDeleteDC (source_hdc (priv_data s1'))]).
  { apply (calls_of_app _ _ _ _ _ Hclose). cbn [calls].
    rewrite (nonzero_true _ Hsrc), (nonzero_true _ Hdst), (nonzero_true _ Hbmp).
    destruct (nonzero (show_region (priv_data s1'))); cbn; [|reflexivity].
    now rewrite (nonzero_true _ (Hwnd eq_refl)). }
  clearbody lo lc. subst lo lc.
  split; [eauto|]. split; [reflexivity|].
  destruct (logs_hold_no_handle logs Hlogs) as [Hacq Hrel].
  unfold handles_acquired, handles_released in *.
  split.
  - intros h. rewrite !flat_map_app, !in_app_iff, Hacq. cbn.
    repeat destruct (decide _); cbn; try contradiction.
    destruct (nonzero (show_region (priv_data s1'))).
    + destruct Hlr as (a & b & c & d & outer & inner & ->). cbn.
      repeat destruct (decide _); cbn;
        intuition (subst; auto);
        right; right; exists (region_hwnd (priv_data s1'));
        rewrite !in_app_iff; right; right; cbn; tauto.
    + destruct Hlr as [-> _]. cbn. intuition (subst; auto).
  - intros h. rewrite !flat_map_app, !in_app_iff, Hacq. cbn.
    repeat destruct (decide _); cbn; try contradiction.
    destruct (nonzero (show_region (priv_data s1'))) eqn:Hshown.
    + destruct Hlr as (a & b & c & d & outer & inner & ->). cbn.
      specialize (Hwnd eq_refl).
      destruct (decide (region_hwnd (priv_data s1') <> 0)); [|contradiction].
      cbn. intuition (subst; auto).
    + cbn. intuition (subst; auto).
Qed.

Lemma close_gives_back_what_open_holds_witness :
  exists s1' p',
    gdigrab_read_header
      (Sample.desktop [Sample.monitor_800x600 1] 800 600 32 Sample.bmp_4x2 5000000)
      (Sample.request "desktop" 0 (Sample.fresh_gdigrab (Q.mk 10 1) 4 2 0 0 1))
      Sample.fresh
    = Done (0, s1', p') /\
    calls_of (gdigrab_read_close s1') p' =
      [CallDestroyWindow 104; CallReleaseDC 0 101; CallDeleteDC 102;
       CallDeleteObject 103; CallDeleteDC 101] /\
    incl (handles_released (calls_of (gdigrab_read_close s1') p'))
         (handles_acquired (calls p')).
Proof.
  destruct (gdigrab_read_header
              (Sample.desktop [Sample.monitor_800x600 1] 800 600 32 Sample.bmp_4x2 5000000)
              (Sample.request "desktop" 0 (Sample.fresh_gdigrab (Q.mk 10 1) 4 2 0 0 1))
              Sample.fresh) as [[[ret s1'] p']|] eqn:Hrun.
  - pose proof Hrun as Hval. vm_compute in Hval.
    assert (Hret : ret = 0) by (injection Hval as <- _ _; reflexivity).
    subst ret.
    destruct (close_gives_back_what_open_holds _ _ _ _ _ Hrun)
      as (_ & Hclose & _ & Hback).
    unfold calls_of at 2 in Hback. rewrite Hrun in Hback.
    cbn [Sample.fresh calls length drop] in Hback.
    exists s1', p'. split; [reflexivity|]. split; [|exact Hback].
    rewrite Hclose. injection Hval as <- _. reflexivity.
  - vm_compute in Hrun. discriminate Hrun.
Defined.

(** ** Window targets *)

Lemma open_target_window (env : open_env) (s1 : AVFormatContext) (p : process)
    (n : string) (t : Z + Z * option string * Z) (s1t : AVFormatContext)
    (p1 : process) :
  window_name (url s1) = Some n ->
  open_target env s1 p = Done (t, s1t, p1) ->
  if FindWindow env n =? 0 then
    t = inl (AVERROR EIO) /\ s1t = s1 /\
    calls p1 = calls p ++ [CallLog (CantFindWindow n)]
  else
    show_region (priv_data s1t) = 0 /\
    region_hwnd (priv_data s1t) = region_hwnd (priv_data s1) /\
    (exists rest,
       calls p1 =
         calls p ++
         (if nonzero (show_region (priv_data s1)) then [CallLog CantShowRegion] else []) ++
         CallGetDC (FindWindow env n) (GetDC env (FindWindow env n)) :: rest /\
       forallb is_log rest = true) /\
    match t with
    | inl ret => ret = AVERROR EIO
    | inr (wnd, _, src) =>
        wnd = FindWindow env n /\ src = GetDC env wnd /\ src <> 0
    end.
Proof.
  intros Hname. unfold open_target. rewrite Hname. run. intros Hrun.
  destruct (FindWindow env n =? 0); cbn in Hrun.
  { injection Hrun as <- <- <-. auto. }
  destruct (Z.eqb_spec (show_region (priv_data s1)) 0) as [Hhidden | Hshown];
    [rewrite (nonzero_false _ Hhidden) in Hrun |- *
    | rewrite (nonzero_true _ Hshown) in Hrun |- *]; cbn in Hrun;
    destruct (Z.eqb_spec (GetDC env (FindWindow env n)) 0) as [Hz | Hsrc];
    cbn in Hrun; injection Hrun as <- <- <-; cbn;
    (split; [try assumption; reflexivity|]); (split; [reflexivity|]);
    (split; [eexists; rewrite <- ?app_assoc; cbn; split; reflexivity | auto]).
Qed.

Lemma open_capture_without_region (env : open_env) (s1 : AVFormatContext)
    (wnd : Z) (name : option string) (src : Z) (virt : RECT) :
  show_region (priv_data s1) = 0 ->
  emits (fun c => negb (is_region_call c)) (open_capture env s1 wnd name src virt).
Proof.
  intros Hhidden. unfold open_capture, open_error, av_log. cbv zeta.
  cbn [show_region]. rewrite Hhidden. cbn [nonzero Z.eqb negb].
  emits_all.
Qed.

(** X10: with a target [title=name] the region window is never shown.
    Whatever the open returns, it makes no call that concerns a region
    window.  When no window has that name it returns [AVERROR(EIO)] with
    the session untouched, and its only call logs that the window was not
    found.  When the window exists and [show_region] was asked for, the
    open logs that the region cannot be shown; and an open that returns 0
    has stored the window found, cleared [show_region] and left
    [region_hwnd] as it was. *)
Theorem window_capture_shows_no_region
    (env : open_env) (s1 : AVFormatContext) (p : process) (n : string)
    (ret : Z) (s1' : AVFormatContext) (p' : process) :
  window_name (url s1) = Some n ->
  gdigrab_read_header env s1 p = Done (ret, s1', p') ->
  let l := calls_of (gdigrab_read_header env s1) p in
  forallb (fun c => negb (is_region_call c)) l = true /\
  (FindWindow env n = 0 ->
   ret = AVERROR EIO /\ s1' = s1 /\ l = [CallLog (CantFindWindow n)]) /\
  (FindWindow env n <> 0 -> show_region (priv_data s1) <> 0 ->
   In (CallLog CantShowRegion) l) /\
  (ret = 0 ->
   FindWindow env n <> 0 /\ hwnd (priv_data s1') = FindWindow env n /\
   show_region (priv_data s1') = 0 /\
   region_hwnd (priv_data s1') = region_hwnd (priv_data s1)).
Proof.
  intros Hname Hrun l.
  destruct (read_header_steps _ _ _ _ _ _ Hrun)
    as [(p1 & Htarget & Hcalls & _)
       | (wnd & name & src & s1t & p1 & virt & p2 & Htarget & Hmeasure & Hcapture)].
  - pose proof (open_target_window _ _ _ _ _ _ _ Hname Htarget) as Hwindow.
    destruct (Z.eqb_spec (FindWindow env n) 0) as [Hnone | Hwnd].
    + destruct Hwindow as (Hret & -> & Hl). injection Hret as ->.
      assert (Hlog : l = [CallLog (CantFindWindow n)])
        by (apply (calls_of_app _ _ _ _ _ Hrun); now rewrite Hcalls).
      rewrite Hlog.
      repeat split; try reflexivity; try contradiction;
        match goal with H : AVERROR EIO = 0 |- _ => discriminate H end.
    + destruct Hwindow as (_ & _ & (rest & Hl & Hrest) & ->).
      assert (Hlog : l = (if nonzero (show_region (priv_data s1))
                          then [CallLog CantShowRegion] else []) ++
                         CallGetDC (FindWindow env n) (GetDC env (FindWindow env n))
                         :: rest)
        by (apply (calls_of_app _ _ _ _ _ Hrun); now rewrite Hcalls).
      rewrite Hlog.
      repeat split; try contradiction;
        try match goal with H : AVERROR EIO = 0 |- _ => discriminate H end.
      * rewrite forallb_app. apply andb_true_iff. split.
        { now destruct (nonzero (show_region (priv_data s1))). }
        cbn. apply forallb_forall. intros c Hc.
        rewrite forallb_forall in Hrest. apply Hrest in Hc. now destruct c.
      * intros _ Hshown. rewrite (nonzero_true _ Hshown). now left.
  - pose proof (open_target_window _ _ _ _ _ _ _ Hname Htarget) as Hwindow.
    destruct (Z.eqb_spec (FindWindow env n) 0) as [Hnone | Hwnd].
    { destruct Hwindow as (Hret & _). discriminate Hret. }
    destruct Hwindow as (Hhidden & Hregion & (rest & Hl & Hrest) & -> & -> & Hsrc).
    pose proof (open_capture_without_region env s1t (FindWindow env n) name
                  (GetDC env (FindWindow env n)) virt Hhidden p2) as Hquiet.
    rewrite Hcapture in Hquiet. destruct Hquiet as (l2 & Hl2 & Hquiet).
    apply measure_target_calls in Hmeasure.
    assert (Hlog : l = ((if nonzero (show_region (priv_data s1))
                         then [CallLog CantShowRegion] else []) ++
                        CallGetDC (FindWindow env n) (GetDC env (FindWindow env n))
                        :: rest) ++ l2).
    { apply (calls_of_app _ _ _ _ _ Hrun).
      rewrite Hl2, Hmeasure, Hl, <- !app_assoc. reflexivity. }
    rewrite Hlog. split; [|split; [|split]].
    + rewrite !forallb_app, Hquiet. cbn. rewrite andb_true_r.
      apply andb_true_iff. split.
      { now destruct (nonzero (show_region (priv_data s1))). }
      apply forallb_forall. intros c Hc.
      rewrite forallb_forall in Hrest. apply Hrest in Hc. now destruct c.
    + contradiction.
    + intros _ Hshown. rewrite (nonzero_true _ Hshown). now left.
    + intros ->.
      destruct (open_capture_outcome _ _ _ _ _ _ _ _ _ _ Hsrc Hcapture)
        as (l3 & _ & _ & [Hok | ([Herr | Herr] & _)]); try discriminate Herr.
      destruct Hok as (_ & _ & _ & Hsession & _).
      rewrite Hsession. cbn. rewrite Hhidden. cbn. auto.
Qed.

Lemma window_capture_shows_no_region_witness :
  exists s1' p',
    gdigrab_read_header (Sample.desktop_with_window Sample.bmp_4x2)
      (Sample.request "title=Editor" 0 (Sample.fresh_gdigrab (Q.mk 10 1) 4 2 0 0 1))
      Sample.fresh
    = Done (0, s1', p') /\
    hwnd (priv_data s1') = 77 /\ show_region (priv_data s1') = 0 /\
    In (CallLog CantShowRegion) (calls p') /\
    forallb (fun c => negb (is_region_call c)) (calls p') = true.
Proof.
  destruct (gdigrab_read_header (Sample.desktop_with_window Sample.bmp_4x2)
              (Sample.request "title=Editor" 0
                 (Sample.fresh_gdigrab (Q.mk 10 1) 4 2 0 0 1))
              Sample.fresh) as [[[ret s1'] p']|] eqn:Hrun.
  - pose proof Hrun as Hval. vm_compute in Hval.
    assert (Hret : ret = 0) by (injection Hval as <- _ _; reflexivity).
    subst ret.
    destruct (window_capture_shows_no_region
                (Sample.desktop_with_window Sample.bmp_4x2)
                (Sample.request "title=Editor" 0
                   (Sample.fresh_gdigrab (Q.mk 10 1) 4 2 0 0 1))
                Sample.fresh "Editor" 0 s1' p' eq_refl Hrun)
      as (Hquiet & _ & Hlogged & Hsession).
    unfold calls_of in Hquiet, Hlogged. rewrite Hrun in Hquiet, Hlogged.
    cbn [Sample.fresh calls length drop] in Hquiet, Hlogged.
    destruct (Hsession eq_refl) as (_ & Hwnd & Hhidden & _).
    exists s1', p'. repeat split; try assumption.
    apply Hlogged; discriminate.
  - vm_compute in Hrun. discriminate Hrun.
Defined.

Lemma substring_all (s : string) : String.substring 0 (String.length s) s = s.
Proof. induction s as [|c s IH]; cbn; [reflexivity | now rewrite IH]. Qed.

Lemma prefix_empty (s : string) : String.prefix EmptyString s = true.
Proof. now destruct s. Qed.

(** X11: the target names a window exactly when it starts with [title=],
    and the name looked up is all that follows these six characters, empty
    or not; any other target is the desktop or an error. *)
Theorem title_target_names_the_window (filename n : string) :
  window_name filename = Some n <-> filename = (title_prefix ++ n)%string.
Proof.
  unfold window_name, title_prefix. split.
  - destruct filename as [|c1 [|c2 [|c3 [|c4 [|c5 [|c6 rest]]]]]];
      cbn -[ascii_dec];
      repeat match goal with
             | |- context [ascii_dec ?a ?b] =>
                 destruct (ascii_dec a b) as [<- |]; cbn -[ascii_dec]
             end;
      try discriminate.
    rewrite ?Nat.sub_0_r, substring_all, prefix_empty. intros Hname.
    injection Hname as Hname. now rewrite Hname.
  - intros ->. cbv [String.append]. cbn. now rewrite ?Nat.sub_0_r, substring_all, prefix_empty.
Qed.

(** ** The cursor overlay, call by call *)

(** Every way through [paint_mouse_pointer], with the run [Hrun] reduced
    to the session and the calls it ends with. *)
Ltac paint_leaves Hrun :=
  unfold paint_mouse_pointer in Hrun;
  match type of Hrun with
  | context [GetCursorInfo ?e] => destruct (GetCursorInfo e) eqn:Hinfo
  end;
  [run_in Hrun;
   match type of Hrun with
   | context [ci_flags ?e =? CURSOR_SHOWING] =>
       destruct (Z.eqb_spec (ci_flags e) CURSOR_SHOWING) as [Hshow | Hhidden];
         cbn in Hrun
   end;
   [match type of Hrun with
    | context [CopyCursor ?e (ci_hCursor ?e) =? 0] =>
        destruct (Z.eqb_spec (CopyCursor e (ci_hCursor e)) 0) as [Hnone | Hicon];
          cbn in Hrun
    end;
    (match type of Hrun with
     | context [GetIconInfo ?e ?i] =>
         destruct (GetIconInfo e i) as [[[[xh yh] mask] color]|]; cbn in Hrun
     end;
     [match type of Hrun with
      | context [nonzero (hwnd ?g0) && ?b] =>
          destruct (nonzero (hwnd g0) && b); cbn in Hrun
      end;
      [|match type of Hrun with
        | context [cursor_pos ?e ?c ?w ?a ?b] =>
            destruct (cursor_pos e c w a b) as [[px0 py0]|]; cbn in Hrun;
              [|discriminate Hrun]
        end;
        match type of Hrun with
        | context [within_frame ?c ?pos] =>
            destruct (within_frame c pos); cbn in Hrun
        end;
        [match type of Hrun with
         | context [DrawIcon ?e] => destruct (DrawIcon e); cbn in Hrun
         end|]]
     |])
   |]
  |];
  repeat (first [rewrite CURSOR_ERROR_run in Hrun | rewrite icon_cleanup_run in Hrun];
          cbn in Hrun);
  injection Hrun as <- <-.

(** The calls a computation has added, once its run is known. *)
Ltac calls_are Hrun0 :=
  match goal with
  | |- context [calls_of ?c ?p] =>
      erewrite (calls_of_app c p _ _ _ Hrun0);
        [|cbn [calls]; rewrite <- ?app_assoc; reflexivity]
  end.

(** X12: a run of the cursor overlay logs nothing and leaves the session
    as it was, or it logs one error and records it in
    [cursor_error_printed], which was 0: once an error of the overlay has
    been logged, no later frame of the session logs one. *)
Theorem cursor_error_is_logged_once
    (env : cursor_env) (g : gdigrab) (p : process) (g' : gdigrab) (p' : process) :
  paint_mouse_pointer env g p = Done (g', p') ->
  let logs := List.filter is_log (calls_of (paint_mouse_pointer env g) p) in
  (logs = [] /\ g' = g) \/
  (cursor_error_printed g = 0 /\ g' = set_cursor_error_printed g 1 /\
   exists what, logs = [CallLog (Win32Error what)]).
Proof.
  intros Hrun logs. subst logs. pose proof Hrun as Hrun0.
  paint_leaves Hrun; calls_are Hrun0;
    destruct (Z.eqb_spec (cursor_error_printed g) 0) as [Hfirst | Hprinted];
    repeat match goal with
           | |- context [nonzero ?z] => destruct (nonzero z)
           end;
    cbn; eauto 6.
Qed.

Lemma cursor_error_is_logged_once_witness :
  exists g' p',
    paint_mouse_pointer
      (mkCursorEnv false 0 0 (0, 0) (fun h => h) 0 (fun _ => None)
         800 600 800 600 None true)
      Sample.g_4x2 Sample.fresh = Done (g', p') /\
    cursor_error_printed g' = 1 /\
    length (List.filter is_log (calls p')) = 1%nat.
Proof.
  destruct (paint_mouse_pointer
              (mkCursorEnv false 0 0 (0, 0) (fun h => h) 0 (fun _ => None)
                 800 600 800 600 None true)
              Sample.g_4x2 Sample.fresh) as [[g' p']|] eqn:Hrun.
  - pose proof Hrun as Hval. vm_compute in Hval.
    destruct (cursor_error_is_logged_once _ _ _ _ _ Hrun)
      as [[Hlogs _] | (_ & Hprinted & what & Hlogs)];
      unfold calls_of in Hlogs; rewrite Hrun in Hlogs;
      change (drop _ (calls p')) with (calls p') in Hlogs.
    + injection Hval as _ <-. discriminate Hlogs.
    + exists g', p'. split; [reflexivity|]. rewrite Hprinted, Hlogs. split; reflexivity.
  - vm_compute in Hrun. discriminate Hrun.
Defined.

Ltac decide_nonzero :=
  repeat match goal with
         | |- context [nonzero ?z] =>
             destruct (Z.eqb_spec z 0);
               [rewrite (nonzero_false z) by assumption
               |rewrite (nonzero_true z) by assumption]
         | |- context [cursor_error_printed ?g =? 0] =>
             destruct (cursor_error_printed g =? 0)
         end.

(** X13: the overlay gives back every handle it acquires (the copy of the
    cursor, the mask and the colour bitmap of the icon) when the pointer is
    showing or its state cannot be read.  When the pointer is hidden the
    overlay returns right after [CopyCursor]: the copy is its only call and
    is not destroyed. *)
Theorem cursor_copy_is_destroyed_only_when_showing
    (env : cursor_env) (g : gdigrab) (p : process) (g' : gdigrab) (p' : process) :
  paint_mouse_pointer env g p = Done (g', p') ->
  let l := calls_of (paint_mouse_pointer env g) p in
  (GetCursorInfo env = false \/ ci_flags env = CURSOR_SHOWING ->
   incl (handles_acquired l) (handles_released l)) /\
  (GetCursorInfo env = true -> ci_flags env <> CURSOR_SHOWING ->
   l = [CallCopyCursor (CopyCursor env (ci_hCursor env))] /\
   handles_released l = []).
Proof.
  intros Hrun l. subst l. pose proof Hrun as Hrun0.
  paint_leaves Hrun; calls_are Hrun0;
    (split;
     [intros [Hoff | Hon]; try congruence; try contradiction;
      decide_nonzero; cbn [app]; leak_free
     |intros Hread Hoff; try congruence; try contradiction; auto]).
Qed.

Lemma cursor_copy_is_destroyed_only_when_showing_witness :
  exists g' p',
    paint_mouse_pointer
      (mkCursorEnv true 0 201 (0, 0) (fun h => h + 1) 200 (fun _ => None)
         800 600 800 600 None true)
      Sample.g_4x2 Sample.fresh = Done (g', p') /\
    calls p' = [CallCopyCursor 202] /\
    handles_acquired (calls p') = [202] /\ handles_released (calls p') = [].
Proof.
  destruct (paint_mouse_pointer
              (mkCursorEnv true 0 201 (0, 0) (fun h => h + 1) 200 (fun _ => None)
                 800 600 800 600 None true)
              Sample.g_4x2 Sample.fresh) as [[g' p']|] eqn:Hrun.
  - destruct (cursor_copy_is_destroyed_only_when_showing _ _ _ _ _ Hrun)
      as [_ Hhidden].
    destruct Hhidden as [Hcalls Hkept]; [reflexivity | discriminate |].
    unfold calls_of in Hcalls, Hkept. rewrite Hrun in Hcalls, Hkept.
    change (drop _ (calls p')) with (calls p') in Hcalls, Hkept.
    exists g', p'. split; [reflexivity|]. split; [exact Hcalls|].
    split; [now rewrite Hcalls | exact Hkept].
  - vm_compute in Hrun. discriminate Hrun.
Defined.
(** ** What a read gives back *)

Section Own.

Lemma own_ret {A} (a : A) : releases_its_own (mret a).
Proof. intros p. cbn. exists []. rewrite app_nil_r. split; [reflexivity | intros h []]. Qed.

Lemma own_call (c : os_call) : released c = [] -> releases_its_own (call c).
Proof.
  intros Hc p. cbn. exists [c]. split; [reflexivity|].
  unfold handles_released. cbn. rewrite Hc. intros h [].
Qed.

Lemma own_lift {A} (o : outcome A) : releases_its_own (lift o).
Proof.
  intros p. destruct o; cbn; [|exact I].
  exists []. rewrite app_nil_r. split; [reflexivity | intros h []].
Qed.

Lemma own_bind {A B} (c : M A) (f : A -> M B) :
  releases_its_own c -> (forall a, releases_its_own (f a)) ->
  releases_its_own (c ≫= f).
Proof.
  intros Hc Hf p. specialize (Hc p). unfold mbind, M_bind.
  destruct (c p) as [[a p1]|]; [|exact I].
  destruct Hc as (l1 & Hl1 & Hown1). specialize (Hf a p1).
  destruct (f a p1) as [[b p2]|]; [|exact I].
  destruct Hf as (l2 & Hl2 & Hown2).
  exists (l1 ++ l2). rewrite Hl2, Hl1, app_assoc. split; [reflexivity|].
  unfold handles_released, handles_acquired in *. rewrite !flat_map_app.
  intros h Hin. apply in_app_or in Hin as [Hin | Hin]; apply in_or_app; auto.
Qed.

Lemma own_when (b : bool) (c : M unit) :
  releases_its_own c -> releases_its_own (when b c).
Proof. destruct b; [auto | intros _; apply own_ret]. Qed.

Lemma own_wait_for_frame nonblock tb readings :
  forall tf, releases_its_own (wait_for_frame nonblock tb tf readings).
Proof.
  induction readings as [|curtime later IH]; intros tf; [apply own_ret|].
  rewrite wait_for_frame_step.
  destruct (frame_delay tb tf curtime <=? 0); [apply own_ret|].
  destruct nonblock; [apply own_ret|].
  apply own_bind; [now apply own_call | intros _; apply IH].
Qed.

(** The overlay destroys the copy of the cursor it made and deletes the
    two bitmaps [GetIconInfo] gave it, and nothing else. *)
Lemma own_paint_mouse_pointer env g : releases_its_own (paint_mouse_pointer env g).
Proof.
  intros p. destruct (paint_mouse_pointer env g p) as [[g' p']|] eqn:Hrun; [|exact I].
  paint_leaves Hrun;
    (eexists; split; [cbn [calls]; rewrite <- ?app_assoc; reflexivity|]);
    decide_nonzero; cbn [app];
    intros h Hin; unfold handles_released, handles_acquired in *; cbn in Hin |- *;
    repeat destruct Hin as [Hin | Hin]; subst; try contradiction;
    repeat (destruct (decide _)); cbn; tauto.
Qed.

End Own.

(** X5: whatever it returns, a read makes no other calls than the message
    pump, the sleep, the allocation of the packet, the blit, the calls of
    the cursor overlay and the log: it creates and selects nothing, adds no
    stream, releases no context and destroys no window.  The handles it
    gives back are handles that its own calls handed out, the copy of the
    cursor and the two bitmaps of the icon: a handle of the session (the
    bitmap of the back buffer, a context, the region window) is never given
    back by a read unless the system hands it out again during that
    read. *)
Theorem read_makes_only_read_calls
    (env : read_env) (s1 : AVFormatContext) (p : process)
    (r : read_result) (p' : process) :
  gdigrab_read_packet env s1 p = Done (r, p') ->
  let l := calls_of (gdigrab_read_packet env s1) p in
  forallb read_call l = true /\
  incl (handles_released l) (handles_acquired l) /\
  (forall h, In h (handles_released l) ->
     In (CallCopyCursor h) l \/
     exists icon mask color,
       In (CallGetIconInfo icon mask color) l /\ (h = mask \/ h = color)) /\
  (forall h, ~ In h (handles_acquired l) ->
     ~ In (CallDeleteObject h) l /\ ~ In (CallDestroyCursor h) l).
Proof.
  intros Hrun l.
  assert (Hcalls : forallb read_call l = true)
    by (exact (emits_calls_of _ _ _ _ _ (read_emits_read_calls env s1) Hrun)).
  assert (Hown : incl (handles_released l) (handles_acquired l)).
  { assert (Hread : releases_its_own (gdigrab_read_packet env s1)).
    { pose proof own_wait_for_frame as Hwait.
      pose proof own_paint_mouse_pointer as Hpaint.
      unfold gdigrab_read_packet, gdigrab_region_wnd_update, av_log. cbv zeta.
      repeat first
        [ apply own_ret | apply own_lift
        | apply own_call; reflexivity
        | apply own_when
        | apply Hwait
        | apply Hpaint
        | apply own_bind; [|intros ?]
        | match goal with
          | |- releases_its_own (if ?b then _ else _) => destruct b
          | |- releases_its_own (match ?v with _ => _ end) => destruct v
          end ]. }
    specialize (Hread p). rewrite Hrun in Hread. destruct Hread as (l' & Hl' & Hown).
    subst l. now rewrite (calls_of_app _ _ _ _ _ Hrun Hl'). }
  split; [exact Hcalls|]. split; [exact Hown|]. split.
  - intros h Hin. apply Hown in Hin. unfold handles_acquired in Hin.
    apply in_flat_map in Hin as (c & Hc & Hin).
    apply in_acquired in Hin as (_ & Hin).
    rewrite forallb_forall in Hcalls. pose proof (Hcalls c Hc) as Hkind.
    destruct c; try discriminate Hkind; cbn in Hin; try contradiction.
    + destruct Hin as [<- | []]. now left.
    + right.
      match type of Hc with
      | In (CallGetIconInfo ?i ?m ?c0) _ => exists i, m, c0
      end.
      split; [exact Hc|]. destruct Hin as [<- | [<- | []]]; auto.
  - intros h Hfresh. split; intros Hin; apply Hfresh, Hown;
      unfold handles_released; apply in_flat_map; eexists; (split; [exact Hin|]);
      now left.
Qed.

Lemma read_makes_only_read_calls_witness :
  exists r p',
    gdigrab_read_packet (Sample.reading [5100000] (Sample.arrow_at 1 1) (replicate 32 7))
      (Sample.session_4x2 0) Sample.fresh = Done (r, p') /\
    handles_released (calls p') = [203; 204; 202] /\
    incl (handles_released (calls p')) (handles_acquired (calls p')) /\
    hbmp (priv_data (Sample.session_4x2 0)) = 103 /\
    ~ In (CallDeleteObject 103) (calls p').
Proof.
  destruct (gdigrab_read_packet
              (Sample.reading [5100000] (Sample.arrow_at 1 1) (replicate 32 7))
              (Sample.session_4x2 0) Sample.fresh) as [[r p']|] eqn:Hrun.
  - destruct (read_makes_only_read_calls _ _ _ _ _ Hrun) as (_ & Hown & _ & Hkept).
    unfold calls_of in Hown, Hkept. rewrite Hrun in Hown, Hkept.
    change (drop _ (calls p')) with (calls p') in Hown, Hkept.
    pose proof Hrun as Hval. vm_compute in Hval.
    assert (Hgiven : handles_released (calls p') = [203; 204; 202] /\
                     handles_acquired (calls p') = [202; 203; 204])
      by (injection Hval as _ <-; split; reflexivity).
    destruct Hgiven as [Hgiven Htaken].
    exists r, p'. split; [reflexivity|]. split; [exact Hgiven|].
    split; [exact Hown|]. split; [reflexivity|].
    apply (Hkept 103). rewrite Htaken. cbn. intuition discriminate.
  - vm_compute in Hrun. discriminate Hrun.
Defined.


(** ** Waiting for the frame *)

Lemma wait_for_frame_blocking (tb : AVRational) (tf : Z) (early : list Z)
    (curtime : Z) (later : list Z) :
  Forall (fun t => 0 < frame_delay tb tf t) early ->
  frame_delay tb tf curtime <= 0 ->
  forall p : process,
    wait_for_frame false tb tf (early ++ curtime :: later) p =
      Done (FrameDue curtime
              (if overdue tb (frame_delay tb tf curtime)
               then int64 (tf + 1000000) else tf) later,
            mkProcess (reg p)
              (calls p ++
               map (fun t => CallUsleep (uint32 (frame_delay tb tf t))) early)).
Proof.
  intros Hearly Hdue. induction Hearly as [|t early Ht _ IH]; intros p.
  - cbn [app map]. rewrite wait_for_frame_step, app_nil_r.
    destruct (Z.leb_spec (frame_delay tb tf curtime) 0); [|lia].
    now destruct p.
  - cbn [app map]. rewrite wait_for_frame_step.
    destruct (Z.leb_spec (frame_delay tb tf t) 0); [lia|].
    unfold mbind, M_bind, call. rewrite IH. cbn [reg calls].
    now rewrite <- app_assoc.
Qed.

Lemma wait_for_frame_nonblocking (tb : AVRational) (tf curtime : Z) (later : list Z)
    (p : process) :
  wait_for_frame true tb tf (curtime :: later) p =
    Done (if frame_delay tb tf curtime <=? 0
          then FrameDue curtime
                 (if overdue tb (frame_delay tb tf curtime)
                  then int64 (tf + 1000000) else tf) later
          else TryAgain later, p).
Proof.
  rewrite wait_for_frame_step. now destruct (frame_delay tb tf curtime <=? 0).
Qed.

(** What a read does once the frame is due at [curtime], the readings
    [later] being left: it asks for the packet and, whatever follows,
    neither sleeps nor runs the message queue again, and a packet it
    returns is stamped [curtime]. *)
Lemma read_after_waiting (env : read_env) (s1 : AVFormatContext)
    (curtime tf : Z) (later : list Z) (q : process) (r : read_result) (p' : process) :
  let g := priv_data s1 in
  let clip := clip_rect g in
  let file_size := int32 (header_size g + frame_size g) in
  (call (CallNewPacket file_size);;
   if negb (av_new_packet env file_size) then
     mret (Returns (AVERROR ENOMEM) s1 None later)
   else
     let raw := replicate (Z.to_nat file_size) 0 in
     call (CallBitBlt (dest_hdc g)
             (int32 (Rect.right clip - Rect.left clip))
             (int32 (Rect.bottom clip - Rect.top clip))
             (source_hdc g) (Rect.left clip) (Rect.top clip));;
     if negb (BitBlt env) then
       av_log (Win32Error "Failed to capture image");;
       mret (Returns (AVERROR EIO) s1 (Some (mkPacket curtime file_size raw)) later)
     else
       g ← (if nonzero (draw_mouse g) then paint_mouse_pointer (cursor env) g
            else mret g);
       d ← lift (fill_packet env g file_size raw);
       let g := set_time_frame g tf in
       mret (Returns (int32 (header_size g + frame_size g)) (with_priv s1 g)
                     (Some (mkPacket curtime file_size d)) later)) q = Done (r, p') ->
  (exists ret s2 pkt,
     r = Returns ret s2 pkt later /\
     (pkt = None -> ret = AVERROR ENOMEM /\ s2 = s1) /\
     (forall pk, pkt = Some pk -> pts pk = curtime)) /\
  exists rest,
    calls p' = calls q ++ CallNewPacket file_size :: rest /\
    forallb (fun c => negb (is_usleep c) && negb (is_pump c)) rest = true.
Proof.
  intros g clip file_size Hrun. run_in Hrun. fold g file_size clip in Hrun.
  destruct (av_new_packet env file_size); cbn in Hrun.
  2:{ injection Hrun as <- <-. cbn. split.
      - eexists _, _, _. split; [reflexivity|]. split; [auto | discriminate].
      - exists []. split; reflexivity. }
  destruct (BitBlt env); cbn in Hrun.
  2:{ injection Hrun as <- <-. cbn. split.
      - eexists _, _, _. split; [reflexivity|]. split; [discriminate|].
        now intros pk [= <-].
      - eexists. rewrite <- !app_assoc. cbn. split; reflexivity. }
  destruct (nonzero (draw_mouse g)); cbn in Hrun.
  - match type of Hrun with
    | context [paint_mouse_pointer ?ce ?g0 ?q0] =>
        pose proof (emits_paint_mouse_pointer
                      (fun c => negb (is_usleep c) && negb (is_pump c)) ce g0
                      ltac:(reflexivity) ltac:(reflexivity) ltac:(reflexivity)
                      ltac:(reflexivity) ltac:(reflexivity) ltac:(reflexivity) q0)
          as Hpaint;
        destruct (paint_mouse_pointer ce g0 q0) as [[g2 q2]|]; cbn in Hrun;
          [|discriminate Hrun]
    end.
    destruct Hpaint as (lp & Hlp & Hquiet). cbn in Hlp.
    match type of Hrun with
    | context [fill_packet ?e ?g0 ?f ?raw] =>
        destruct (fill_packet e g0 f raw) as [d|]; cbn in Hrun; [|discriminate Hrun]
    end.
    injection Hrun as <- <-. split.
    + eexists _, _, _. split; [reflexivity|]. split; [discriminate|].
      now intros pk [= <-].
    + eexists. rewrite Hlp, <- !app_assoc. cbn. split; [reflexivity|]. exact Hquiet.
  - match type of Hrun with
    | context [fill_packet ?e ?g0 ?f ?raw] =>
        destruct (fill_packet e g0 f raw) as [d|]; cbn in Hrun; [|discriminate Hrun]
    end.
    injection Hrun as <- <-. split.
    + eexists _, _, _. split; [reflexivity|]. split; [discriminate|].
      now intros pk [= <-].
    + eexists. cbn. rewrite <- !app_assoc. cbn. split; reflexivity.
Qed.

(** X14: a blocking read whose clock readings are first too early, then
    due: it runs the message queue once when the region is shown, sleeps the
    remaining delay before each early reading, asks for the packet at the
    first reading that is due and neither sleeps nor runs the queue after
    that.  It returns with the readings that follow left unread; without a
    packet it returns [AVERROR(ENOMEM)] and the session as it was, and a
    packet it returns is stamped with the reading that was due. *)
Theorem blocking_read_sleeps_until_due
    (env : read_env) (s1 : AVFormatContext) (p : process)
    (early : list Z) (curtime : Z) (later : list Z)
    (r : read_result) (p' : process) :
  let g := priv_data s1 in
  let tf := int64 (time_frame g + 1000000) in
  Z.land (flags s1) AVFMT_FLAG_NONBLOCK = 0 ->
  clock env = early ++ curtime :: later ->
  Forall (fun t => 0 < frame_delay (time_base g) tf t) early ->
  frame_delay (time_base g) tf curtime <= 0 ->
  gdigrab_read_packet env s1 p = Done (r, p') ->
  (exists ret s2 pkt,
     r = Returns ret s2 pkt later /\
     (pkt = None -> ret = AVERROR ENOMEM /\ s2 = s1) /\
     (forall pk, pkt = Some pk -> pts pk = curtime)) /\
  exists rest,
    calls_of (gdigrab_read_packet env s1) p =
      (if nonzero (show_region g) then [CallPumpMessages (region_hwnd g)] else []) ++
      map (fun t => CallUsleep (uint32 (frame_delay (time_base g) tf t))) early ++
      CallNewPacket (int32 (header_size g + frame_size g)) :: rest /\
    forallb (fun c => negb (is_usleep c) && negb (is_pump c)) rest = true.
Proof.
  intros g tf Hblock Hclock Hearly Hdue Hrun. pose proof Hrun as Hrun0.
  unfold gdigrab_read_packet in Hrun. fold g in Hrun. fold tf in Hrun.
  rewrite Hblock, Hclock in Hrun. change (nonzero 0) with false in Hrun.
  unfold mbind at 1, M_bind at 1 in Hrun.
  unfold when at 1, gdigrab_region_wnd_update, call at 1 in Hrun.
  unfold mbind at 1, M_bind at 1 in Hrun.
  destruct (nonzero (show_region g)); cbn [mret M_ret] in Hrun;
    rewrite (wait_for_frame_blocking _ _ _ _ _ Hearly Hdue) in Hrun;
    apply read_after_waiting in Hrun as (Hret & rest & Hcalls & Hquiet);
    (split; [exact Hret|]); exists rest; (split; [|exact Hquiet]);
    apply (calls_of_app _ _ _ _ _ Hrun0); rewrite Hcalls; cbn [calls];
    rewrite <- ?app_assoc; reflexivity.
Qed.

Lemma blocking_read_sleeps_until_due_witness :
  exists r p',
    gdigrab_read_packet
      (Sample.reading [5000010; 5100005] Sample.no_cursor (replicate 32 7))
      (Sample.session_4x2 0) Sample.fresh = Done (r, p') /\
    (exists ret s2 pk, r = Returns ret s2 (Some pk) [] /\ pts pk = 5100005) /\
    exists rest, calls p' = CallUsleep 99990 :: CallNewPacket 86 :: rest.
Proof.
  destruct (gdigrab_read_packet
              (Sample.reading [5000010; 5100005] Sample.no_cursor (replicate 32 7))
              (Sample.session_4x2 0) Sample.fresh) as [[r p']|] eqn:Hrun.
  - destruct (blocking_read_sleeps_until_due
                (Sample.reading [5000010; 5100005] Sample.no_cursor (replicate 32 7))
                (Sample.session_4x2 0) Sample.fresh [5000010] 5100005 [] r p')
      as ((ret & s2 & pkt & Hr & Hnone & Hstamp) & rest & Hcalls & _).
    + reflexivity.
    + reflexivity.
    + repeat constructor.
    + vm_compute. discriminate.
    + exact Hrun.
    + unfold calls_of in Hcalls. rewrite Hrun in Hcalls.
      change (drop _ (calls p')) with (calls p') in Hcalls.
      pose proof Hrun as Hval. vm_compute in Hval.
      exists r, p'. split; [reflexivity|]. split.
      * destruct pkt as [pk|].
        { exists ret, s2, pk. split; [exact Hr | now apply Hstamp]. }
        destruct (Hnone eq_refl) as [-> _]. subst r.
        injection Hval as Hret _. discriminate Hret.
      * exists rest. exact Hcalls.
  - vm_compute in Hrun. discriminate Hrun.
Defined.

(** X15: a non-blocking read takes exactly one clock reading and never
    sleeps: it returns with all later readings left unread, and a packet it
    returns is stamped with that one reading, at which the frame was
    due. *)
Theorem nonblocking_read_takes_one_reading
    (env : read_env) (s1 : AVFormatContext) (p : process)
    (curtime : Z) (later : list Z) (r : read_result) (p' : process) :
  let g := priv_data s1 in
  let tf := int64 (time_frame g + 1000000) in
  Z.land (flags s1) AVFMT_FLAG_NONBLOCK <> 0 ->
  clock env = curtime :: later ->
  gdigrab_read_packet env s1 p = Done (r, p') ->
  (exists ret s2 pkt,
     r = Returns ret s2 pkt later /\
     forall pk, pkt = Some pk ->
                pts pk = curtime /\ frame_delay (time_base g) tf curtime <= 0) /\
  forallb (fun c => negb (is_usleep c)) (calls_of (gdigrab_read_packet env s1) p) = true.
Proof.
  intros g tf Hflag Hclock Hrun. pose proof Hrun as Hrun0.
  unfold gdigrab_read_packet in Hrun. fold g in Hrun. fold tf in Hrun.
  rewrite (nonzero_true _ Hflag), Hclock in Hrun.
  unfold mbind at 1, M_bind at 1 in Hrun.
  unfold when at 1, gdigrab_region_wnd_update, call at 1 in Hrun.
  unfold mbind at 1, M_bind at 1 in Hrun.
  destruct (nonzero (show_region g)); cbn [mret M_ret] in Hrun;
    rewrite wait_for_frame_nonblocking in Hrun;
    destruct (Z.leb_spec (frame_delay (time_base g) tf curtime) 0) as [Hdue | Hearly].
  all: try (apply read_after_waiting in Hrun
              as ((ret & s2 & pkt & Hr & _ & Hstamp) & rest & Hcalls & Hquiet);
            split; [exists ret, s2, pkt; split; [exact Hr|]; intros pk Hpk;
                    split; [now apply Hstamp | exact Hdue]|];
            erewrite (calls_of_app _ _ _ _ _ Hrun0);
              [|rewrite Hcalls; cbn [calls]; rewrite <- ?app_assoc; reflexivity];
            rewrite ?forallb_app; cbn; apply forallb_forall; intros c Hc;
            rewrite forallb_forall in Hquiet; apply Hquiet in Hc;
            now apply andb_true_iff in Hc as [Hc _]).
  all: injection Hrun as <- <-;
    (split; [eexists _, _, _; split; [reflexivity | discriminate]|]);
    erewrite (calls_of_app _ _ _ _ _ Hrun0);
      [|cbn [calls]; try reflexivity; symmetry; apply app_nil_r]; reflexivity.
Qed.

Lemma nonblocking_read_takes_one_reading_witness :
  exists r p',
    gdigrab_read_packet
      (Sample.reading [5100005; 5100006] Sample.no_cursor (replicate 32 7))
      (Sample.session_4x2 4) Sample.fresh = Done (r, p') /\
    (exists ret s2 pkt, r = Returns ret s2 pkt [5100006]) /\
    forallb (fun c => negb (is_usleep c)) (calls p') = true.
Proof.
  destruct (gdigrab_read_packet
              (Sample.reading [5100005; 5100006] Sample.no_cursor (replicate 32 7))
              (Sample.session_4x2 4) Sample.fresh) as [[r p']|] eqn:Hrun.
  - destruct (nonblocking_read_takes_one_reading
                (Sample.reading [5100005; 5100006] Sample.no_cursor (replicate 32 7))
                (Sample.session_4x2 4) Sample.fresh 5100005 [5100006] r p')
      as ((ret & s2 & pkt & Hr & _) & Hquiet).
    + vm_compute. discriminate.
    + reflexivity.
    + exact Hrun.
    + unfold calls_of in Hquiet. rewrite Hrun in Hquiet.
      change (drop _ (calls p')) with (calls p') in Hquiet.
      exists r, p'. split; [reflexivity|]. split; [eauto | exact Hquiet].
  - vm_compute in Hrun. discriminate Hrun.
Defined.

(** ** The bytes of a packet *)

Lemma memcpy_at (a b c src : list Z) (off : Z) :
  off = Z.of_nat (length a) -> length src = length b ->
  memcpy (a ++ b ++ c) off src = Done (a ++ src ++ c).
Proof.
  intros -> Hlen. unfold memcpy. rewrite !length_app, Nat2Z.id.
  replace ((0 <=? Z.of_nat (length a)) &&
           (Z.of_nat (length a) + Z.of_nat (length src) <=?
            Z.of_nat (length a + (length b + length c))))
    with true by (symmetry; apply andb_true_iff; split; apply Z.leb_le; lia).
  rewrite take_app_length. do 3 f_equal.
  rewrite Hlen, app_assoc, <- length_app. apply drop_app_length.
Qed.

Lemma le_bytes_length (n : nat) (z : Z) : length (le_bytes n z) = n.
Proof. revert z. induction n as [|n IH]; intros z; cbn; [reflexivity | now rewrite IH]. Qed.

(** The bytes [fill_packet] writes into a packet of zeros of the right
    size: the two headers, the palette when the depth is at most 8 bits, and
    the first [frame_size] bytes of the back buffer. *)
Lemma fill_packet_layout (env : read_env) (g : gdigrab) (file_size : Z) :
  let palette := if biBitCount (bmi g) <=? 8
                 then GetDIBColorTable env (int32 (Z.shiftl 1 (biBitCount (bmi g))))
                 else [] in
  header_size g =
    sizeof_BITMAPFILEHEADER + sizeof_BITMAPINFOHEADER + Z.of_nat (length palette) ->
  0 <= frame_size g <= Z.of_nat (length (DIB_bits env)) ->
  file_size = header_size g + frame_size g ->
  fill_packet env g file_size (replicate (Z.to_nat file_size) 0) =
    Done (bytes_BITMAPFILEHEADER 19778 file_size 0 0 (header_size g) ++
          bytes_BITMAPINFOHEADER (bmi g) ++ palette ++
          take (Z.to_nat (frame_size g)) (DIB_bits env)).
Proof.
  intros palette Hheader Hframe Hsize. unfold fill_packet.
  unfold sizeof_BITMAPFILEHEADER, sizeof_BITMAPINFOHEADER in *.
  assert (Hraw : replicate (Z.to_nat file_size) 0 =
                 [] ++ replicate 14 0 ++ replicate 40 0 ++
                 replicate (length palette) 0 ++
                 replicate (Z.to_nat (frame_size g)) 0).
  { rewrite <- !replicate_add. cbn [app]. f_equal. lia. }
  rewrite Hraw.
  rewrite memcpy_at; [|reflexivity | now rewrite length_replicate].
  cbn [mbind option_bind]. unfold mbind, outcome_bind.
  set (fh := bytes_BITMAPFILEHEADER 19778 file_size 0 0 (header_size g)).
  set (ih := bytes_BITMAPINFOHEADER (bmi g)).
  cbn [app].
  rewrite (memcpy_at fh (replicate 40 0) _ ih 14);
    [|reflexivity | now rewrite length_replicate].
  assert (Hpalette :
            (if biBitCount (bmi g) <=? 8
             then memcpy (fh ++ ih ++ replicate (length palette) 0 ++
                          replicate (Z.to_nat (frame_size g)) 0) (14 + 40)
                    (GetDIBColorTable env (int32 (Z.shiftl 1 (biBitCount (bmi g)))))
             else Done (fh ++ ih ++ replicate (length palette) 0 ++
                        replicate (Z.to_nat (frame_size g)) 0)) =
            Done (fh ++ ih ++ palette ++ replicate (Z.to_nat (frame_size g)) 0)).
  { subst palette. destruct (biBitCount (bmi g) <=? 8); [|reflexivity].
    rewrite (app_assoc fh ih).
    rewrite memcpy_at;
      [now rewrite <- app_assoc
      |rewrite length_app; subst fh ih; reflexivity
      |now rewrite length_replicate]. }
  rewrite Hpalette.
  unfold read_bytes.
  replace ((0 <=? frame_size g) && (frame_size g <=? Z.of_nat (length (DIB_bits env))))
    with true by (symmetry; apply andb_true_iff; split; apply Z.leb_le; lia).
  rewrite (app_assoc fh ih), (app_assoc (fh ++ ih) palette).
  rewrite <- (app_nil_r (replicate (Z.to_nat (frame_size g)) 0)).
  rewrite memcpy_at.
  - now rewrite app_nil_r, <- !app_assoc.
  - rewrite !length_app. subst fh ih.
    change (length (bytes_BITMAPFILEHEADER 19778 file_size 0 0 (header_size g)))
      with 14%nat.
    change (length (bytes_BITMAPINFOHEADER (bmi g))) with 40%nat. lia.
  - rewrite length_take, length_replicate. lia.
Qed.

(** The data of a packet that a read returns: the zeros of a packet
    whose capture failed, or what [fill_packet] wrote. *)
Lemma read_packet_fills (env : read_env) (s1 : AVFormatContext) (p : process)
    (ret : Z) (s2 : AVFormatContext) (pk : AVPacket) (later : list Z)
    (p' : process) :
  gdigrab_read_packet env s1 p = Done (Returns ret s2 (Some pk) later, p') ->
  let g := priv_data s1 in
  let file_size := int32 (header_size g + frame_size g) in
  ret = AVERROR EIO \/
  exists printed,
    fill_packet env (set_cursor_error_printed g printed) file_size
      (replicate (Z.to_nat file_size) 0) = Done (data pk).
Proof.
  intros Hrun g file_size. unfold gdigrab_read_packet in Hrun.
  fold g in Hrun. fold file_size in Hrun.
  unfold gdigrab_region_wnd_update in Hrun. run_in Hrun.
  destruct (nonzero (show_region g)); cbn in Hrun.
  all: match type of Hrun with
       | context [wait_for_frame ?n ?tb ?t ?r ?q] =>
           destruct (wait_for_frame n tb t r q) as [[[curtime tf' rest | rest |] p1]|];
             cbn in Hrun
       end.
  all: try discriminate.
  all: destruct (av_new_packet env file_size); cbn in Hrun; try discriminate.
  all: destruct (BitBlt env); cbn in Hrun.
  all: try (injection Hrun as <- <- <- <- <-; left; reflexivity).
  all: destruct (nonzero (draw_mouse g)); cbn in Hrun.
  all: try match type of Hrun with
           | context [paint_mouse_pointer ?ce ?g0 ?q] =>
               destruct (paint_mouse_pointer ce g0 q) as [[g2 q2]|] eqn:Hpaint;
                 cbn in Hrun; [|discriminate];
                 apply paint_mouse_pointer_calls in Hpaint as (Hpaint & _)
           end.
  all: match type of Hrun with
       | context [fill_packet ?e ?g0 ?f ?r] =>
           destruct (fill_packet e g0 f r) as [d|] eqn:Hfill; cbn in Hrun;
             [|discriminate]
       end.
  all: injection Hrun as <- <- <- <- <-; right.
  all: first [ exists (cursor_error_printed g2); rewrite <- Hpaint; exact Hfill
             | exists (cursor_error_printed g);
               rewrite <- (set_cursor_error_printed_same g); exact Hfill ].
Qed.

(** X16: a packet that a read returns with a non-negative value is a BMP
    file.  When the header size of the session is that of the two headers
    and of the palette, and the back buffer holds at least [frame_size]
    bytes, its data is the 14 bytes of the file header ([BM], the size of
    the file, the offset of the pixels), the 40 bytes of the bitmap header
    of the session, the palette when the depth is at most 8 bits, and the
    first [frame_size] bytes of the back buffer, in this order and with
    nothing else. *)
Theorem packet_is_a_bmp_file
    (env : read_env) (s1 : AVFormatContext) (p : process)
    (ret : Z) (s2 : AVFormatContext) (pk : AVPacket) (later : list Z)
    (p' : process) :
  let g := priv_data s1 in
  let palette := if biBitCount (bmi g) <=? 8
                 then GetDIBColorTable env (int32 (Z.shiftl 1 (biBitCount (bmi g))))
                 else [] in
  header_size g =
    sizeof_BITMAPFILEHEADER + sizeof_BITMAPINFOHEADER + Z.of_nat (length palette) ->
  0 <= frame_size g <= Z.of_nat (length (DIB_bits env)) ->
  in_int32 (header_size g + frame_size g) ->
  gdigrab_read_packet env s1 p = Done (Returns ret s2 (Some pk) later, p') ->
  0 <= ret ->
  data pk =
    bytes_BITMAPFILEHEADER 19778 (header_size g + frame_size g) 0 0 (header_size g) ++
    bytes_BITMAPINFOHEADER (bmi g) ++ palette ++
    take (Z.to_nat (frame_size g)) (DIB_bits env).
Proof.
  intros g palette Hheader Hframe Hfits Hrun Hret.
  destruct (read_packet_fills _ _ _ _ _ _ _ _ Hrun) as [Hfailed | [printed Hfill]].
  { subst ret. exfalso. apply Hret. reflexivity. }
  fold g in Hfill. rewrite (int32_small _ Hfits) in Hfill.
  pose proof (fill_packet_layout env (set_cursor_error_printed g printed)
                (header_size g + frame_size g) Hheader Hframe eq_refl) as Hlayout.
  rewrite Hlayout in Hfill. now injection Hfill as <-.
Qed.

Lemma packet_is_a_bmp_file_witness :
  exists ret s2 pk p',
    gdigrab_read_packet (Sample.reading [5100000] Sample.no_cursor (replicate 32 7))
      (Sample.session_4x2 0) Sample.fresh
    = Done (Returns ret s2 (Some pk) [], p') /\
    data pk =
      [66; 77; 86; 0; 0; 0; 0; 0; 0; 0; 54; 0; 0; 0] ++
      bytes_BITMAPINFOHEADER (mkBIH 40 4 (int32 (-2)) 1 32 0 0 0 0 0 0) ++
      replicate 32 7.
Proof.
  destruct (gdigrab_read_packet
              (Sample.reading [5100000] Sample.no_cursor (replicate 32 7))
              (Sample.session_4x2 0) Sample.fresh)
    as [[[ret s2 [pk|] later|] p']|] eqn:Hrun;
    try (vm_compute in Hrun; discriminate Hrun).
  pose proof Hrun as Hval. vm_compute in Hval.
  assert (Hfacts : ret = 86 /\ later = []) by (injection Hval; auto).
  destruct Hfacts as [-> ->].
  exists 86, s2, pk, p'. split; [reflexivity|].
  rewrite (packet_is_a_bmp_file
             (Sample.reading [5100000] Sample.no_cursor (replicate 32 7))
             (Sample.session_4x2 0) Sample.fresh 86 s2 pk [] p').
  - vm_compute. reflexivity.
  - vm_compute. reflexivity.
  - vm_compute. split; discriminate.
  - vm_compute. split; discriminate.
  - exact Hrun.
  - discriminate.
Defined.

(** ** Closing again *)

(** X17: a close always returns 0, and of the handles of a session the
    region window is the one it forgets: after a close with [show_region]
    set, [region_hwnd] is null, a second close destroys no window and
    leaves the session exactly as the first close left it. *)
Theorem close_destroys_the_region_window_once (s1 : AVFormatContext) (p : process) :
  exists s2 p2 p3,
    gdigrab_read_close s1 p = Done (0, s2, p2) /\
    gdigrab_read_close s2 p2 = Done (0, s2, p3) /\
    (show_region (priv_data s1) <> 0 -> region_hwnd (priv_data s2) = 0) /\
    (forall h, In (CallDestroyWindow h) (calls_of (gdigrab_read_close s1) p) ->
               h = region_hwnd (priv_data s1) /\ h <> 0 /\
               show_region (priv_data s1) <> 0) /\
    forall h, ~ In (CallDestroyWindow h) (calls_of (gdigrab_read_close s2) p2).
Proof.
  pose proof (read_close_run s1 p) as Hfirst. cbv zeta in Hfirst.
  eexists _, _, _. split; [exact Hfirst|].
  match type of Hfirst with
  | _ = Done (0, ?s2, ?p2) =>
      pose proof (read_close_run s2 p2) as Hsecond; cbv zeta in Hsecond
  end.
  split; [|split; [|split]].
  - rewrite Hsecond. do 3 f_equal.
    destruct (nonzero (show_region (priv_data s1))) eqn:Hshown; cbn;
      rewrite Hshown; reflexivity.
  - intros Hshown. cbn. now rewrite (nonzero_true _ Hshown).
  - intros h. rewrite (calls_of_app _ _ _ _ _ Hfirst eq_refl).
    destruct (Z.eqb_spec (show_region (priv_data s1)) 0) as [Hhidden | Hshown];
      [rewrite (nonzero_false _ Hhidden) | rewrite (nonzero_true _ Hshown)];
      destruct (Z.eqb_spec (region_hwnd (priv_data s1)) 0) as [Hnone | Hwnd];
      [rewrite ?(nonzero_false _ Hnone) | rewrite ?(nonzero_true _ Hwnd)
      |rewrite ?(nonzero_false _ Hnone) | rewrite ?(nonzero_true _ Hwnd)];
      cbn [andb]; intros Hin; no_draw Hin.
    injection Hin as <-. auto.
  - intros h. rewrite (calls_of_app _ _ _ _ _ Hsecond eq_refl).
    destruct (nonzero (show_region (priv_data s1))) eqn:Hshown; cbn;
      rewrite ?Hshown; cbn; intros Hin; no_draw Hin.
Qed.

(** ** Capturing the whole target *)

Lemma measure_target_bounds (env : open_env) (wnd : Z) (p1 : process)
    (virt : RECT) (p2 : process) :
  measure_target env wnd p1 = Done (virt, p2) ->
  virtual_bounds env (reg p2) wnd = Done virt.
Proof.
  unfold measure_target. run. intros Hrun.
  destruct (EnumDisplayMonitors _ _) as [rg|]; cbn in Hrun; [|discriminate].
  destruct (virtual_bounds env rg wnd) eqn:Hbounds; cbn in Hrun; [|discriminate].
  now injection Hrun as <- <-.
Qed.

Lemma whole_target_is_inside (g : gdigrab) (virt : RECT) :
  width g = 0 \/ height g = 0 ->
  resolve_clip_rect g virt = virt /\
  extends_outside (resolve_clip_rect g virt) virt = false.
Proof.
  intros Hsize. unfold resolve_clip_rect.
  replace ((width g =? 0) || (height g =? 0)) with true
    by (symmetry; apply orb_true_iff; destruct Hsize as [-> | ->]; auto).
  destruct virt as [l t r b]. split; [reflexivity|].
  unfold extends_outside. cbn. now rewrite !Z.ltb_irrefl.
Qed.

(** X18: when no width or no height is asked for, the open captures the
    whole target: it never fails on, nor logs, a capture area outside the
    screen or window, and the clip rectangle of a session it opens is the
    bounds of the target (the window stored in the session, or the virtual
    desktop) computed on the registry the open leaves. *)
Theorem whole_target_is_captured_without_a_size
    (env : open_env) (s1 : AVFormatContext) (p : process)
    (ret : Z) (s1' : AVFormatContext) (p' : process) :
  width (priv_data s1) = 0 \/ height (priv_data s1) = 0 ->
  gdigrab_read_header env s1 p = Done (ret, s1', p') ->
  (forall clip virt,
     ~ In (CallLog (CaptureAreaOutside clip virt))
          (calls_of (gdigrab_read_header env s1) p)) /\
  (ret = 0 ->
   virtual_bounds env (reg p') (hwnd (priv_data s1')) = Done (clip_rect (priv_data s1'))).
Proof.
  intros Hsize Hrun.
  set (ok := fun c => match c with
                      | CallLog (CaptureAreaOutside _ _) => false
                      | _ => true
                      end).
  assert (Htarget_ok : emits ok (open_target env s1))
    by (unfold open_target, av_log; cbv zeta; emits_all).
  assert (Hcapture_ok : forall s1t wnd name src virt,
             width (priv_data s1t) = width (priv_data s1) ->
             height (priv_data s1t) = height (priv_data s1) ->
             emits ok (open_capture env s1t wnd name src virt)).
  { intros s1t wnd name src virt Hw Hh.
    assert (Hsize' : width (priv_data s1t) = 0 \/ height (priv_data s1t) = 0)
      by (rewrite Hw, Hh; exact Hsize).
    destruct (whole_target_is_inside (priv_data s1t) virt Hsize') as [_ Hinside].
    unfold open_capture, open_error, gdigrab_region_wnd_init, av_log. cbv zeta.
    rewrite Hinside. destruct name; emits_all. }
  assert (Hcalls : forallb ok (calls_of (gdigrab_read_header env s1) p) = true).
  { destruct (read_header_steps _ _ _ _ _ _ Hrun)
      as [(p1 & Htarget & Hcalls & _)
         | (wnd & name & src & s1t & p1 & virt & p2 & Htarget & Hmeasure & Hcapture)].
    - specialize (Htarget_ok p). rewrite Htarget in Htarget_ok.
      destruct Htarget_ok as (l1 & Hl1 & Hok1).
      erewrite (calls_of_app _ _ _ _ _ Hrun); [exact Hok1 | now rewrite Hcalls].
    - specialize (Htarget_ok p). rewrite Htarget in Htarget_ok.
      destruct Htarget_ok as (l1 & Hl1 & Hok1).
      apply open_target_outcome in Htarget
        as (_ & _ & _ & _ & _ & _ & _ & _ & _ & _ & _ & _ & Hpriv & _).
      assert (Hw : width (priv_data s1t) = width (priv_data s1))
        by (destruct Hpriv as [-> | [_ ->]]; reflexivity).
      assert (Hh : height (priv_data s1t) = height (priv_data s1))
        by (destruct Hpriv as [-> | [_ ->]]; reflexivity).
      pose proof (Hcapture_ok s1t wnd name src virt Hw Hh p2) as Hok2.
      rewrite Hcapture in Hok2. destruct Hok2 as (l2 & Hl2 & Hok2).
      apply measure_target_calls in Hmeasure.
      erewrite (calls_of_app _ _ _ _ (l1 ++ l2) Hrun);
        [|rewrite Hl2, Hmeasure, Hl1, <- app_assoc; reflexivity].
      now rewrite forallb_app, Hok1, Hok2. }
  split.
  - intros clip virt Hin. rewrite forallb_forall in Hcalls.
    apply Hcalls in Hin. discriminate Hin.
  - intros ->.
    destruct (read_header_steps _ _ _ _ _ _ Hrun)
      as [(p1 & Htarget & _)
         | (wnd & name & src & s1t & p1 & virt & p2 & Htarget & Hmeasure & Hcapture)].
    { apply open_target_outcome in Htarget as (_ & _ & _ & _ & _ & _ & _ & Hret & _).
      discriminate Hret. }
    apply open_target_outcome in Htarget
      as (_ & _ & _ & _ & _ & _ & _ & _ & _ & _ & Hsrc & _ & Hpriv & _).
    assert (Hsize' : width (priv_data s1t) = 0 \/ height (priv_data s1t) = 0)
      by (destruct Hpriv as [-> | [_ ->]]; exact Hsize).
    destruct (whole_target_is_inside (priv_data s1t) virt Hsize') as [Hwhole _].
    apply measure_target_bounds in Hmeasure.
    destruct (open_capture_outcome _ _ _ _ _ _ _ _ _ _ Hsrc Hcapture)
      as (l2 & _ & Hreg & [Hok | ([Herr | Herr] & _)]); try discriminate Herr.
    destruct Hok as (_ & _ & _ & Hsession & _).
    rewrite Hsession, Hreg. cbn. rewrite Hwhole. exact Hmeasure.
Qed.

Lemma whole_target_is_captured_without_a_size_witness :
  exists s1' p',
    gdigrab_read_header (Sample.desktop_with_window Sample.bmp_4x2)
      (Sample.request "title=Editor" 0 (Sample.fresh_gdigrab (Q.mk 10 1) 0 0 0 0 0))
      Sample.fresh
    = Done (0, s1', p') /\
    clip_rect (priv_data s1') = mkRECT 0 0 200 100 /\
    virtual_bounds (Sample.desktop_with_window Sample.bmp_4x2) (reg p') 77 =
      Done (mkRECT 0 0 200 100).
Proof.
  destruct (gdigrab_read_header (Sample.desktop_with_window Sample.bmp_4x2)
              (Sample.request "title=Editor" 0
                 (Sample.fresh_gdigrab (Q.mk 10 1) 0 0 0 0 0))
              Sample.fresh) as [[[ret s1'] p']|] eqn:Hrun.
  - pose proof Hrun as Hval. vm_compute in Hval.
    assert (Hret : ret = 0) by (injection Hval as <- _ _; reflexivity).
    subst ret.
    destruct (whole_target_is_captured_without_a_size
                (Sample.desktop_with_window Sample.bmp_4x2)
                (Sample.request "title=Editor" 0
                   (Sample.fresh_gdigrab (Q.mk 10 1) 0 0 0 0 0))
                Sample.fresh 0 s1' p' (or_introl eq_refl) Hrun)
      as [_ Hbounds].
    specialize (Hbounds eq_refl).
    assert (Hs : hwnd (priv_data s1') = 77 /\
                 clip_rect (priv_data s1') = mkRECT 0 0 200 100)
      by (injection Hval as <- _; split; reflexivity).
    destruct Hs as [Hwnd Hclip]. rewrite Hwnd, Hclip in Hbounds.
    exists s1', p'. repeat split; assumption.
  - vm_compute in Hrun. discriminate Hrun.
Defined.

(** ** The position of the cursor *)


(** X19: where the icon of the cursor goes.  On a device without
    scaling (the desktop resolution is the device resolution) and as long
    as the products fit in 32 bits, the position is the screen position of
    the pointer less the origin of the clip rectangle and the hotspot and,
    for a window, less the origin of the window.  When the device reports a
    horizontal or vertical resolution of 0 the computation divides by
    zero. *)
Theorem cursor_position_without_scaling
    (env : cursor_env) (clip : RECT) (xh yh sx sy : Z) :
  ptScreenPos env = (sx, sy) ->
  (cur_DESKTOPHORZRES env = cur_HORZRES env ->
   cur_DESKTOPVERTRES env = cur_VERTRES env ->
   cur_HORZRES env <> 0 -> cur_VERTRES env <> 0 ->
   (in_int32 sx -> in_int32 sy ->
    in_int32 (sx * cur_HORZRES env) -> in_int32 (sy * cur_VERTRES env) ->
    cursor_pos env clip None xh yh =
      Done (int32 (sx - Rect.left clip - xh), int32 (sy - Rect.top clip - yh))) /\
   (forall r : RECT,
      let px := int32 (sx - Rect.left clip - xh - Rect.left r) in
      let py := int32 (sy - Rect.top clip - yh - Rect.top r) in
      in_int32 (px * cur_HORZRES env) -> in_int32 (py * cur_VERTRES env) ->
      cursor_pos env clip (Some r) xh yh = Done (px, py))) /\
  (cur_HORZRES env = 0 \/ cur_VERTRES env = 0 ->
   forall wr, exists u, cursor_pos env clip wr xh yh = Undefined u).
Proof.
  intros Hpos. unfold cursor_pos. rewrite Hpos. split.
  - intros -> -> Hh Hv. split.
    + intros Hx Hy Hxh Hyv.
      rewrite (cdiv_scaled _ _ Hh Hx Hxh). cbn.
      rewrite (cdiv_scaled _ _ Hv Hy Hyv). reflexivity.
    + intros r Hxh Hyv.
      rewrite (cdiv_scaled _ _ Hh (int32_range _) Hxh). cbn.
      rewrite (cdiv_scaled _ _ Hv (int32_range _) Hyv). reflexivity.
  - intros Hzero wr.
    destruct wr as [r|], Hzero as [-> | ->];
      try (eexists; reflexivity);
      match goal with
      | |- context [cdiv ?a (cur_HORZRES env)] =>
          destruct (cdiv a (cur_HORZRES env)); eexists; reflexivity
      end.
Qed.

Lemma cursor_position_without_scaling_witness :
  cursor_pos (Sample.arrow_at 30 40) (mkRECT 10 20 110 70) None 1 2 = Done (19, 18) /\
  cursor_pos (Sample.arrow_at 30 40) (mkRECT 10 20 110 70)
    (Some (mkRECT 5 5 300 200)) 1 2 = Done (14, 13).
Proof.
  destruct (cursor_position_without_scaling (Sample.arrow_at 30 40)
              (mkRECT 10 20 110 70) 1 2 30 40 eq_refl) as [Hplain _].
  destruct Hplain as [Hdesktop Hwindow];
    [reflexivity | reflexivity | discriminate | discriminate |].
  split.
  - apply Hdesktop; vm_compute; split; discriminate.
  - apply (Hwindow (mkRECT 5 5 300 200)); vm_compute; split; discriminate.
Defined.

(** ** The bounds of a window *)

(** X20: the bounds of a window target.  The monitor is looked up at the
    centre of the window rectangle; the lookup itself always answers, a
    monitor in use or [-1].  When the centre lies on no monitor the
    conversion of the client rectangle reads [monitors[-1]].  When it lies
    on a monitor with [k] physical pixels per logical pixel, the bounds are
    the client rectangle with its four coordinates multiplied by [k], as
    long as the products fit in 32 bits. *)
Theorem window_bounds_use_the_monitor_under_the_centre
    (env : open_env) (rg : registry) (wnd : Z) :
  wnd <> 0 -> registry_ok rg ->
  let v := GetClientRect env in
  let centre := get_monitor_id_by_logical_rectangle rg (GetWindowRect env) in
  (exists j, centre = Done j /\ (j = -1 \/ 0 <= j < monitorsNum rg)) /\
  (centre = Done (-1) -> virtual_bounds env rg wnd = Undefined (OutOfBounds (-1))) /\
  forall j m k,
    centre = Done j -> 0 <= j ->
    monitors rg !! Z.to_nat j = Some m ->
    Res.x (physical m) = k * Res.x (logical m) ->
    Res.y (physical m) = k * Res.y (logical m) ->
    in_int32 (Rect.left v * Res.x (physical m)) ->
    in_int32 (Rect.right v * Res.x (physical m)) ->
    in_int32 (Rect.top v * Res.y (physical m)) ->
    in_int32 (Rect.bottom v * Res.y (physical m)) ->
    in_int32 (k * Rect.left v) -> in_int32 (k * Rect.top v) ->
    in_int32 (k * Rect.right v) -> in_int32 (k * Rect.bottom v) ->
    virtual_bounds env rg wnd =
      Done (mkRECT (k * Rect.left v) (k * Rect.top v)
                   (k * Rect.right v) (k * Rect.bottom v)).
Proof.
  intros Hwnd (Hslots & Hnum & Hres) v centre.
  assert (Hcentre : exists j, centre = Done j /\ (j = -1 \/ 0 <= j < monitorsNum rg)).
  { subst centre. unfold get_monitor_id_by_logical_rectangle,
      get_monitor_id_by_logical_point. cbv zeta.
    match goal with
    | |- context [scan_monitors ?hit _ _ _] =>
        destruct (lookup_spec rg Hslots Hnum hit) as (j & Hrun & Hj)
    end.
    exists j. split; [exact Hrun|]. destruct Hj as [[-> _] | [Hj _]]; auto. }
  split; [exact Hcentre|].
  unfold virtual_bounds. rewrite (nonzero_true _ Hwnd). fold centre. fold v.
  split.
  - intros ->. reflexivity.
  - intros j m k Hj Hpos Hm Hkx Hky Hl Hr Ht Hb Hkl Hkt Hkr Hkb.
    destruct Hcentre as (j' & Hj' & Hrange). rewrite Hj in Hj'.
    injection Hj' as <-. destruct Hrange as [-> | Hrange]; [lia|].
    rewrite Hj. cbn.
    assert (Hslot : 0 <= j < MY_MAX_MONITORS) by lia.
    assert (Hnz : Res.x (logical m) <> 0 /\ Res.y (logical m) <> 0).
    { apply (Hres (Z.to_nat j) m Hm). lia. }
    destruct Hnz as [Hx Hy].
    rewrite (proj1 (LOGICAL_TO_PHYSICAL_scaled rg k (Rect.left v) j m Hslot Hm Hkl)
               Hx Hkx Hl). cbn.
    rewrite (proj1 (LOGICAL_TO_PHYSICAL_scaled rg k (Rect.right v) j m Hslot Hm Hkr)
               Hx Hkx Hr). cbn.
    rewrite (proj2 (LOGICAL_TO_PHYSICAL_scaled rg k (Rect.top v) j m Hslot Hm Hkt)
               Hy Hky Ht). cbn.
    rewrite (proj2 (LOGICAL_TO_PHYSICAL_scaled rg k (Rect.bottom v) j m Hslot Hm Hkb)
               Hy Hky Hb). reflexivity.
Qed.

Lemma window_bounds_use_the_monitor_under_the_centre_witness :
  virtual_bounds (Sample.desktop_with_window Sample.bmp_4x2) Sample.registry_800x600 77
  = Done (mkRECT 0 0 200 100).
Proof.
  destruct (window_bounds_use_the_monitor_under_the_centre
              (Sample.desktop_with_window Sample.bmp_4x2) Sample.registry_800x600 77)
    as (_ & _ & Hscaled); [discriminate | exact registry_800x600_ok |].
  apply (Hscaled 0 (mkMONITOR (mkRES 800 600) (mkRES 800 600) (mkRECT 0 0 800 600)) 1);
    try reflexivity; try lia; vm_compute; split; discriminate.
Defined.

(** ** What a read leaves alone *)

(** X21: a read that returns leaves the registry, the target, the flags
    and the streams of the context as they were, and in the session
    everything but [time_frame] and [cursor_error_printed]: the handles,
    the bitmap header, the clip rectangle, the sizes, the time base and the
    options.  It moves [time_frame] only when it returns a packet filled
    with the frame. *)
Theorem read_keeps_the_handles_and_geometry
    (env : read_env) (s1 : AVFormatContext) (p : process)
    (ret : Z) (s2 : AVFormatContext) (pkt : option AVPacket) (later : list Z)
    (p' : process) :
  gdigrab_read_packet env s1 p = Done (Returns ret s2 pkt later, p') ->
  let g := priv_data s1 in
  let g2 := priv_data s2 in
  reg p' = reg p /\
  url s2 = url s1 /\ flags s2 = flags s1 /\ streams s2 = streams s1 /\
  g2 = set_time_frame (set_cursor_error_printed g (cursor_error_printed g2))
         (time_frame g2) /\
  (time_frame g2 <> time_frame g ->
   ret = int32 (header_size g + frame_size g) /\
   exists pk, pkt = Some pk /\
              size pk = int32 (header_size g + frame_size g) /\
              Z.of_nat (length (data pk)) = Z.max 0 (size pk)).
Proof.
  intros Hrun g g2. subst g2.
  split.
  - pose proof (blind_frame _ (reg p) (calls p) (blind_read_packet env s1)) as Hreg.
    replace (mkProcess (reg p) (calls p)) with p in Hreg by now destruct p.
    now rewrite Hrun in Hreg.
  - destruct (read_packet_returns _ _ _ _ _ _ _ _ Hrun)
      as [[-> _] | (curtime & d & printed & -> & -> & Hlen & _ & _ & _ & ->)].
    + repeat split; try contradiction. now destruct (priv_data s1).
    + cbn. repeat split. exists (mkPacket curtime (int32 (header_size g + frame_size g)) d).
      split; [reflexivity|]. split; [reflexivity|].
      cbn [data size]. rewrite Hlen. subst g. lia.
Qed.

Lemma read_keeps_the_handles_and_geometry_witness :
  exists ret s2 pkt later p',
    gdigrab_read_packet (Sample.reading [5100000] Sample.no_cursor (replicate 32 7))
      (Sample.session_4x2 0) Sample.fresh
    = Done (Returns ret s2 pkt later, p') /\
    priv_data s2 = set_time_frame (priv_data (Sample.session_4x2 0)) 51000000 /\
    reg p' = initial_registry.
Proof.
  destruct (gdigrab_read_packet
              (Sample.reading [5100000] Sample.no_cursor (replicate 32 7))
              (Sample.session_4x2 0) Sample.fresh)
    as [[[ret s2 pkt later|] p']|] eqn:Hrun;
    try (vm_compute in Hrun; discriminate Hrun).
  destruct (read_keeps_the_handles_and_geometry _ _ _ _ _ _ _ _ Hrun)
    as (Hreg & _ & _ & _ & Hsession & _).
  exists ret, s2, pkt, later, p'. split; [reflexivity|]. split; [|exact Hreg].
  rewrite Hsession. pose proof Hrun as Hval. vm_compute in Hval.
  injection Hval as _ <- _ _ _. reflexivity.
Defined.
